(** * Stock chart data pipeline (charts.py): fetch, filter, aggregate, assemble

    A shallow embedding of the data pipeline of [charts.py] and of the
    pieces of the Python runtime it relies on (string tests, [strptime],
    [datetime.isocalendar], the stable [sort], [max]/[min], [dict]s in
    insertion order), of the web page of [app.py] and of the prompts of
    [main.py], followed by their properties.

    Modelling conventions.
    - Python [str] values are [string]s of 8-bit characters, a character
      standing for the code point of its code (below 256); every literal of
      the source is ASCII.  Comparison of strings is by character code.
      [strip], [lower] and [isalpha] are Python's on such text; [upper] is
      Python's except on the three characters whose upper-case form is not
      one 8-bit character, and what is stated of it is stated for ASCII
      text.
    - A number of a decoded response is a rational: a Python [int], or a
      finite [float], which is a rational with 53 significant bits.
    - Prices are the numbers produced by [float(...)].  Only their order and
      their identity are used by the pipeline, so they are modelled as
      rationals ([Q]); infinities and not-a-number values are outside the
      model.
    - A raised exception is a value [Raise e] of the [result] type; only the
      exception class is kept.
    - A [dict] is an association list in insertion order; the keys of a
      Python [dict] are pairwise distinct, and lookup takes the first binding
      of a key.
    - The environment, the network and [float] on a string are parameters of
      the fetch: [getenv], [requests_get] and [float_of_str]. *)

From Stdlib Require Import ZArith QArith Bool List Ascii String Lia.
From Stdlib Require Import Permutation Sorted.
Import ListNotations.

Local Open Scope string_scope.
Local Open Scope Z_scope.

(** ** Exceptions and results *)

Inductive exn : Type :=
| StockSymbolNotFoundError
| APIRateLimitError
| NoDataAvailableError
| ValueError
| RuntimeError
| KeyError
| IndexError
| TypeError
| AttributeError
| OverflowError.

Inductive result (A : Type) : Type :=
| Ok (a : A)
| Raise (e : exn).

Arguments Ok {A} a.
Arguments Raise {A} e.

Definition bind {A B : Type} (m : result A) (k : A -> result B) : result B :=
  match m with
  | Ok a => k a
  | Raise e => Raise e
  end.

Notation "x <- m ;; k" := (bind m (fun x => k))
  (at level 61, m at next level, right associativity).

(** [try: m except (KeyError, ValueError): raise e']. *)
Definition except_key_value {A : Type} (m : result A) (e' : exn) : result A :=
  match m with
  | Raise KeyError => Raise e'
  | Raise ValueError => Raise e'
  | other => other
  end.

(** [try: m except ValueError: raise e']. *)
Definition except_value {A : Type} (m : result A) (e' : exn) : result A :=
  match m with
  | Raise ValueError => Raise e'
  | other => other
  end.

(** ** Strings *)

Definition code (c : ascii) : Z := Z.of_N (N_of_ascii c).

Definition chr (n : Z) : ascii := ascii_of_N (Z.to_N n).

(** [needle in hay] on two strings. *)
Fixpoint str_in (needle hay : string) : bool :=
  if prefix needle hay then true
  else match hay with
       | EmptyString => false
       | String _ rest => str_in needle rest
       end.

(** [c.lower()]: the capital letters of ASCII (65-90) and of Latin-1
    (192-214, 216-222) have their small letter 32 codes further. *)
Definition lower_char (c : ascii) : ascii :=
  let n := code c in
  if ((65 <=? n) && (n <=? 90)) || ((192 <=? n) && (n <=? 214))
     || ((216 <=? n) && (n <=? 222))
  then chr (n + 32) else c.

(** [c.upper()]: the small letters of ASCII (97-122) and of Latin-1
    (224-246, 248-254) have their capital letter 32 codes before.  Python
    gives the micro sign (181), the sharp s (223) and the y with diaeresis
    (255) an upper-case form that is not one 8-bit character; they are left
    as they are here. *)
Definition upper_char (c : ascii) : ascii :=
  let n := code c in
  if ((97 <=? n) && (n <=? 122)) || ((224 <=? n) && (n <=? 246))
     || ((248 <=? n) && (n <=? 254))
  then chr (n - 32) else c.

Fixpoint str_map (f : ascii -> ascii) (s : string) : string :=
  match s with
  | EmptyString => EmptyString
  | String c rest => String (f c) (str_map f rest)
  end.

Definition lower : string -> string := str_map lower_char.
Definition upper : string -> string := str_map upper_char.

(** [s.capitalize()]: the first character in upper case, by [upper_char],
    the others in lower case. *)
Definition capitalize (s : string) : string :=
  match s with
  | EmptyString => EmptyString
  | String c rest => String (upper_char c) (lower rest)
  end.

(** The characters [str.strip()] removes and [\s] matches: the ASCII
    blanks and separators, the next line control (133) and the no-break
    space (160). *)
Definition is_space (c : ascii) : bool :=
  let n := code c in
  ((9 <=? n) && (n <=? 13)) || ((28 <=? n) && (n <=? 32))
  || (n =? 133) || (n =? 160).

Fixpoint lstrip (s : string) : string :=
  match s with
  | EmptyString => EmptyString
  | String c rest => if is_space c then lstrip rest else s
  end.

Fixpoint rstrip (s : string) : string :=
  match s with
  | EmptyString => EmptyString
  | String c rest =>
      match rstrip rest with
      | EmptyString => if is_space c then EmptyString else String c EmptyString
      | rest' => String c rest'
      end
  end.

Definition strip (s : string) : string := rstrip (lstrip s).

(** Truth value of a string: [not s] holds for the empty string only. *)
Definition str_truthy (s : string) : bool :=
  match s with
  | EmptyString => false
  | _ => true
  end.

(** [str(n)] and [f"{n:02d}"] for an integer. *)
Definition digit_char (d : Z) : ascii := chr (48 + d).

Fixpoint digits_from (fuel : nat) (n : Z) (acc : string) : string :=
  match fuel with
  | O => acc
  | S fuel' =>
      let acc' := String (digit_char (n mod 10)) acc in
      if n / 10 =? 0 then acc' else digits_from fuel' (n / 10) acc'
  end.

Definition str_nonneg (n : Z) : string :=
  digits_from (S (Z.to_nat (Z.log2 n))) n EmptyString.

Definition str_int (n : Z) : string :=
  if n <? 0 then String "-" (str_nonneg (- n)) else str_nonneg n.

Fixpoint zeros (k : nat) : string :=
  match k with
  | O => EmptyString
  | S k' => String "0" (zeros k')
  end.

(** [format(n, "02d")]: the sign first, then zeros up to a total width of 2. *)
Definition format_02d (n : Z) : string :=
  if n <? 0 then
    let body := str_nonneg (- n) in
    String "-" (zeros (1 - String.length body) ++ body)
  else
    let body := str_nonneg n in
    zeros (2 - String.length body) ++ body.

(** ** Stable sort by a string key ([list.sort(key=...)], [sorted])

    Python's sort is stable and compares keys with [<].  The result of a
    stable sort is determined by the input, so insertion from the right,
    which places an element before the first element whose key is not
    smaller, computes it. *)

Section SortByKey.
Context {A : Type}.
Variable key : A -> string.

Fixpoint insert_by (x : A) (l : list A) : list A :=
  match l with
  | [] => [x]
  | y :: rest =>
      if String.ltb (key y) (key x) then y :: insert_by x rest
      else x :: y :: rest
  end.

Fixpoint sort_by (l : list A) : list A :=
  match l with
  | [] => []
  | x :: rest => insert_by x (sort_by rest)
  end.
End SortByKey.

(** ** [datetime]: parsing, comparison and the ISO calendar

    [strptime] follows CPython's [_strptime.py]: the format is turned into a
    regular expression (one alternation per directive, a blank of the format
    into [\s+]), the expression is matched at the start of the text with
    backtracking, text left over is an error, and the fields found build a
    [datetime], whose constructor checks the ranges. *)

Record datetime : Type := mk_datetime {
  year : Z;
  month : Z;
  day : Z;
  hour : Z;
  minute : Z;
  second : Z
}.

(** A matcher gives the ways to read a prefix of the text, in the order the
    regular expression engine tries them, each with the text left. *)
Definition matcher (A : Type) : Type := string -> list (A * string).

Definition digit_in (lo hi : Z) (c : ascii) : option Z :=
  let d := code c - 48 in
  if (0 <=? d) && (d <=? 9) && (lo <=? d) && (d <=? hi) then Some d else None.

Definition one_digit (lo hi : Z) : matcher Z :=
  fun s =>
    match s with
    | String a rest =>
        match digit_in lo hi a with
        | Some x => [(x, rest)]
        | None => []
        end
    | EmptyString => []
    end.

Definition two_digits (lo1 hi1 lo2 hi2 : Z) : matcher Z :=
  fun s =>
    match s with
    | String a (String b rest) =>
        match digit_in lo1 hi1 a, digit_in lo2 hi2 b with
        | Some x, Some y => [(10 * x + y, rest)]
        | _, _ => []
        end
    | _ => []
    end.

Definition alt {A : Type} (p q : matcher A) : matcher A :=
  fun s => (p s ++ q s)%list.

Definition seq {A B : Type} (p : matcher A) (q : A -> matcher B) : matcher B :=
  fun s => flat_map (fun '(a, rest) => q a rest) (p s).

Definition lit (c : ascii) : matcher unit :=
  fun s =>
    match s with
    | String a rest => if Ascii.eqb a c then [(tt, rest)] else []
    | EmptyString => []
    end.

(** [\s+]: greedy, so the longest run of blanks is tried first. *)
Fixpoint spaces (s : string) : list (unit * string) :=
  match s with
  | String a rest => if is_space a then (spaces rest ++ [(tt, rest)])%list else []
  | EmptyString => []
  end.

(** [%Y]: [\d\d\d\d]. *)
Definition re_Y : matcher Z :=
  seq (two_digits 0 9 0 9) (fun hi s =>
    map (fun '(lo, rest) => (100 * hi + lo, rest)) (two_digits 0 9 0 9 s)).

(** [%m]: [1[0-2]|0[1-9]|[1-9]]. *)
Definition re_m : matcher Z :=
  alt (two_digits 1 1 0 2) (alt (two_digits 0 0 1 9) (one_digit 1 9)).

(** [%d]: [3[0-1]|[1-2]\d|0[1-9]|[1-9]| [1-9]]. *)
Definition re_d : matcher Z :=
  alt (two_digits 3 3 0 1)
    (alt (two_digits 1 2 0 9)
       (alt (two_digits 0 0 1 9)
          (alt (one_digit 1 9)
             (seq (lit " ") (fun _ => one_digit 1 9))))).

(** [%H]: [2[0-3]|[0-1]\d|\d]. *)
Definition re_H : matcher Z :=
  alt (two_digits 2 2 0 3) (alt (two_digits 0 1 0 9) (one_digit 0 9)).

(** [%M]: [[0-5]\d|\d]. *)
Definition re_M : matcher Z :=
  alt (two_digits 0 5 0 9) (one_digit 0 9).

(** [%S]: [6[0-1]|[0-5]\d|\d]. *)
Definition re_S : matcher Z :=
  alt (two_digits 6 6 0 1) (alt (two_digits 0 5 0 9) (one_digit 0 9)).

(** The expression of ["%Y-%m-%d"]. *)
Definition re_date : matcher datetime :=
  seq re_Y (fun y =>
  seq (lit "-") (fun _ =>
  seq re_m (fun m =>
  seq (lit "-") (fun _ =>
  seq re_d (fun d s => [(mk_datetime y m d 0 0 0, s)]))))).

(** The expression of ["%Y-%m-%d %H:%M:%S"]. *)
Definition re_datetime : matcher datetime :=
  seq re_Y (fun y =>
  seq (lit "-") (fun _ =>
  seq re_m (fun m =>
  seq (lit "-") (fun _ =>
  seq re_d (fun d =>
  seq spaces (fun _ =>
  seq re_H (fun hh =>
  seq (lit ":") (fun _ =>
  seq re_M (fun mm =>
  seq (lit ":") (fun _ =>
  seq re_S (fun ss s => [(mk_datetime y m d hh mm ss, s)]))))))))))).

Definition is_leap (y : Z) : bool :=
  (y mod 4 =? 0) && (negb (y mod 100 =? 0) || (y mod 400 =? 0)).

Definition days_in_month (y m : Z) : Z :=
  if m =? 2 then (if is_leap y then 29 else 28)
  else if (m =? 4) || (m =? 6) || (m =? 9) || (m =? 11) then 30
  else 31.

(** The range checks of the [datetime] constructor. *)
Definition valid_datetime (dt : datetime) : bool :=
  (1 <=? year dt) && (year dt <=? 9999) &&
  (1 <=? month dt) && (month dt <=? 12) &&
  (1 <=? day dt) && (day dt <=? days_in_month (year dt) (month dt)) &&
  (0 <=? hour dt) && (hour dt <=? 23) &&
  (0 <=? minute dt) && (minute dt <=? 59) &&
  (0 <=? second dt) && (second dt <=? 59).

(** [datetime.strptime(text, format)] for a format given by its expression:
    the first match counts, and it has to use up the text. *)
Definition strptime (re : matcher datetime) (text : string) : result datetime :=
  match re text with
  | [] => Raise ValueError
  | (dt, rest) :: _ =>
      match rest with
      | EmptyString => if valid_datetime dt then Ok dt else Raise ValueError
      | _ => Raise ValueError
      end
  end.

(** Ordering of naive [datetime] values: field by field. *)
Definition datetime_key (dt : datetime) : list Z :=
  [year dt; month dt; day dt; hour dt; minute dt; second dt].

Fixpoint lex_compare (a b : list Z) : comparison :=
  match a, b with
  | [], [] => Eq
  | [], _ :: _ => Lt
  | _ :: _, [] => Gt
  | x :: a', y :: b' =>
      match x ?= y with
      | Eq => lex_compare a' b'
      | c => c
      end
  end.

Definition datetime_leb (a b : datetime) : bool :=
  match lex_compare (datetime_key a) (datetime_key b) with
  | Gt => false
  | _ => true
  end.

Definition datetime_ltb (a b : datetime) : bool :=
  match lex_compare (datetime_key a) (datetime_key b) with
  | Lt => true
  | _ => false
  end.

(** Day numbers, as in CPython's [datetime] module: day 1 is 0001-01-01. *)
Definition days_before_year (y : Z) : Z :=
  let p := y - 1 in p * 365 + p / 4 - p / 100 + p / 400.

Definition days_before_month_table (m : Z) : Z :=
  match m with
  | 1 => 0 | 2 => 31 | 3 => 59 | 4 => 90 | 5 => 120 | 6 => 151
  | 7 => 181 | 8 => 212 | 9 => 243 | 10 => 273 | 11 => 304 | 12 => 334
  | _ => 0
  end.

Definition days_before_month (y m : Z) : Z :=
  days_before_month_table m + (if (2 <? m) && is_leap y then 1 else 0).

Definition ymd2ord (y m d : Z) : Z :=
  days_before_year y + days_before_month y m + d.

Definition toordinal (dt : datetime) : Z :=
  ymd2ord (year dt) (month dt) (day dt).

(** The day number of the Monday that starts ISO week 1 of a year. *)
Definition isoweek1monday (y : Z) : Z :=
  let firstday := ymd2ord y 1 1 in
  let firstweekday := (firstday + 6) mod 7 in
  let week1monday := firstday - firstweekday in
  if 3 <? firstweekday then week1monday + 7 else week1monday.

(** [datetime.isocalendar()]: ISO year, ISO week number, ISO weekday. *)
Definition isocalendar (dt : datetime) : Z * Z * Z :=
  let y := year dt in
  let today := toordinal dt in
  let week := (today - isoweek1monday y) / 7 in
  let wday := (today - isoweek1monday y) mod 7 in
  if week <? 0 then
    let w1 := isoweek1monday (y - 1) in
    (y - 1, (today - w1) / 7 + 1, (today - w1) mod 7 + 1)
  else if 52 <=? week then
    if isoweek1monday (y + 1) <=? today then (y + 1, 1, wday + 1)
    else (y, week + 1, wday + 1)
  else (y, week + 1, wday + 1).

(** ** Numbers *)

Definition Qltb (a b : Q) : bool := negb (Qle_bool b a).

(** [max(iterable)] and [min(iterable)] on a non-empty iterable: the first
    item is kept until a later one is strictly greater (smaller). *)
Definition py_max (first : Q) (others : list Q) : Q :=
  fold_left (fun best item => if Qltb best item then item else best) others first.

Definition py_min (first : Q) (others : list Q) : Q :=
  fold_left (fun best item => if Qltb item best then item else best) others first.

(** ** JSON values and dictionaries *)

#[local] Set Warnings "-register-all".

Inductive json : Type :=
| JNull
| JBool (b : bool)
| JNum (q : Q)
| JStr (s : string)
| JArr (items : list json)
| JObj (members : list (string * json)).

Definition dict (V : Type) : Type := list (string * V).

(** ** [float] on a number

    [float] leaves a [float] as it is and rounds an [int] to the nearest
    double, a tie going to the even significand; an [int] that rounds
    beyond the largest double raises [OverflowError]. *)

(** [x / y] rounded to the nearest integer, ties to even, for [0 < y]. *)
Definition div_half_even (x y : Z) : Z :=
  let q := x / y in
  let r := x mod y in
  match 2 * r ?= y with
  | Lt => q
  | Gt => q + 1
  | Eq => if Z.even q then q else q + 1
  end.

(** The exponent [e] with [2^e <= n/d < 2^(e+1)], for [0 < n] and
    [0 < d]. *)
Definition floor_log2 (n d : Z) : Z :=
  let e := Z.log2 n - Z.log2 d in
  if (if 0 <=? e then d * 2 ^ e <=? n else d <=? n * 2 ^ (- e))
  then e else e - 1.

(** The double nearest to [q], and [None] when that is beyond the largest
    double.  A double has 53 significant bits, so the doubles from [2^e] to
    [2^(e+1)] are [2^(e-52)] apart; below [2^-1022] they stay [2^-1074]
    apart. *)
Definition nearest_double (q : Q) : option Q :=
  let n := Z.abs (Qnum q) in
  let d := Zpos (Qden q) in
  if n =? 0 then Some 0%Q
  else
    let k := Z.max (floor_log2 n d) (-1022) - 52 in
    let m := if 0 <=? k then div_half_even n (d * 2 ^ k)
             else div_half_even (n * 2 ^ (- k)) d in
    let r := if 0 <=? k then inject_Z (m * 2 ^ k)
             else Qred (Qmake m (Z.to_pos (2 ^ (- k)))) in
    if Qle_bool (inject_Z (2 ^ 1024)) r then None
    else Some (if Qnum q <? 0 then Qopp r else r).

Fixpoint dict_get {V : Type} (k : string) (d : dict V) : option V :=
  match d with
  | [] => None
  | (k', v) :: rest => if String.eqb k' k then Some v else dict_get k rest
  end.

Definition dict_mem {V : Type} (k : string) (d : dict V) : bool :=
  match dict_get k d with
  | Some _ => true
  | None => false
  end.

(** [d[k] = v]: an existing key keeps its place, a new one goes last. *)
Fixpoint dict_set {V : Type} (k : string) (v : V) (d : dict V) : dict V :=
  match d with
  | [] => [(k, v)]
  | (k', v') :: rest =>
      if String.eqb k' k then (k', v) :: rest else (k', v') :: dict_set k v rest
  end.

(** [d[k].append(x)] for a key that may be absent ([KeyError]). *)
Fixpoint dict_append {V : Type} (k : string) (x : V) (d : dict (list V))
  : option (dict (list V)) :=
  match d with
  | [] => None
  | (k', l) :: rest =>
      if String.eqb k' k then Some ((k', (l ++ [x])%list) :: rest)
      else match dict_append k x rest with
           | Some rest' => Some ((k', l) :: rest')
           | None => None
           end
  end.

(** Truth value of a JSON value as a Python object. *)
Definition json_truthy (v : json) : bool :=
  match v with
  | JNull => false
  | JBool b => b
  | JNum q => negb (Qeq_bool q 0)
  | JStr s => str_truthy s
  | JArr items => match items with [] => false | _ => true end
  | JObj members => match members with [] => false | _ => true end
  end.

(** [len(v)]. *)
Definition json_len (v : json) : result Z :=
  match v with
  | JStr s => Ok (Z.of_nat (String.length s))
  | JArr items => Ok (Z.of_nat (List.length items))
  | JObj members => Ok (Z.of_nat (List.length members))
  | _ => Raise TypeError
  end.

(** [needle in v] for a string [needle]. *)
Definition json_contains (needle : string) (v : json) : result bool :=
  match v with
  | JStr s => Ok (str_in needle s)
  | JArr items =>
      Ok (existsb (fun x => match x with
                            | JStr s => String.eqb s needle
                            | _ => false
                            end) items)
  | JObj members => Ok (dict_mem needle members)
  | _ => Raise TypeError
  end.

(** [v.lower()]. *)
Definition json_lower (v : json) : result json :=
  match v with
  | JStr s => Ok (JStr (lower s))
  | _ => Raise AttributeError
  end.

(** [v[k]] for a string [k]. *)
Definition json_subscript (v : json) (k : string) : result json :=
  match v with
  | JObj members =>
      match dict_get k members with
      | Some x => Ok x
      | None => Raise KeyError
      end
  | _ => Raise TypeError
  end.

(** [v.items()]. *)
Definition json_items (v : json) : result (list (string * json)) :=
  match v with
  | JObj members => Ok members
  | _ => Raise AttributeError
  end.

(** ** charts.py *)

(** A row: the dictionary with keys [date], [open], [high], [low], [close]. *)
Record row : Type := mk_row {
  date : string;
  open : Q;
  high : Q;
  low : Q;
  close : Q
}.

(** The first key of the response that contains ["Time Series"]. *)
Fixpoint time_series_key (data : dict json) : option string :=
  match data with
  | [] => None
  | (key, _) :: rest =>
      if str_in "Time Series" key then Some key else time_series_key rest
  end.

(** Returns [(series_key, time_series)] if a key exists, and raises the
    exception of the error the response reports otherwise. *)
Definition extract_time_series_from_response (data : dict json)
  : result (string * json) :=
  match time_series_key data with
  | Some key =>
      match dict_get key data with
      | Some v => Ok (key, v)
      | None => Raise KeyError
      end
  | None =>
      match dict_get "Error Message" data with
      | Some error_msg =>
          c1 <- json_contains "Invalid API call" error_msg ;;
          c2 <- (if c1 then Ok true
                 else json_contains "Invalid stock symbol" error_msg) ;;
          if c2 then Raise StockSymbolNotFoundError else Raise RuntimeError
      | None =>
          match dict_get "Note" data with
          | Some note_msg =>
              c1 <- json_contains "API call frequency" note_msg ;;
              c2 <- (if c1 then Ok true
                     else lowered <- json_lower note_msg ;;
                          json_contains "rate limit" lowered) ;;
              if c2 then Raise APIRateLimitError else Raise RuntimeError
          | None => Raise RuntimeError
          end
      end
  end.

(** Returns the Alpha Vantage function, and its extra parameters, for a
    period. *)
Definition alpha_function_for_period (period intraday_interval : string)
  : string * dict string :=
  let period := lower period in
  if String.eqb period "intraday" then
    ("TIME_SERIES_INTRADAY",
     [("interval", intraday_interval); ("adjusted", "true")])
  else if String.eqb period "daily" then ("TIME_SERIES_DAILY", [])
  else if String.eqb period "weekly" then ("TIME_SERIES_WEEKLY", [])
  else if String.eqb period "monthly" then ("TIME_SERIES_MONTHLY", [])
  else ("TIME_SERIES_DAILY", []).

(** What [requests.get] followed by [raise_for_status] and [resp.json()]
    can give: one of the transport exceptions, a body that is not JSON, or
    the decoded object. *)
Inductive http_outcome : Type :=
| Timeout
| ConnectionError
| HTTPError
| RequestException
| BodyNotJSON
| Body (data : dict json).

Record request : Type := mk_request {
  url : string;
  params : dict string;
  timeout : Z
}.

(** The query parameters: the four fixed ones, then [**extra]. *)
Definition query_params (function symbol outputsize api_key : string)
    (extra : dict string) : dict string :=
  fold_left (fun d '(k, v) => dict_set k v d) extra
    [("function", function); ("symbol", symbol);
     ("outputsize", outputsize); ("apikey", api_key)].

Section Fetch.
(** The process environment, the network and [float] on a string
    ([None]: [ValueError]). *)
Variable getenv : string -> option string.
Variable requests_get : request -> http_outcome.
Variable float_of_str : string -> option Q.

(** [float(v)]. *)
Definition py_float (v : json) : result Q :=
  match v with
  | JNum q =>
      match nearest_double q with
      | Some x => Ok x
      | None => Raise OverflowError
      end
  | JBool b => Ok (if b then 1%Q else 0%Q)
  | JStr s =>
      match float_of_str s with
      | Some q => Ok q
      | None => Raise ValueError
      end
  | _ => Raise TypeError
  end.

(** [float(values[name])]. *)
Definition field (values : json) (name : string) : result Q :=
  v <- json_subscript values name ;; py_float v.

(** The loop that formats each record of the time series into a row. *)
Fixpoint format_rows (items : list (string * json)) (rows : list row)
  : result (list row) :=
  match items with
  | [] => Ok rows
  | (date_str, values) :: rest =>
      o <- field values "1. open" ;;
      h <- field values "2. high" ;;
      l <- field values "3. low" ;;
      c <- field values "4. close" ;;
      format_rows rest (rows ++ [mk_row date_str o h l c])%list
  end.

(** The part of the fetch after the response is decoded: the time series
    is taken out, checked for data, and turned into rows. *)
Definition rows_of_response (data : dict json) : result (list row) :=
  kv <- extract_time_series_from_response data ;;
  let time_series := snd kv in
  empty <- (if negb (json_truthy time_series) then Ok true
            else n <- json_len time_series ;; Ok (n =? 0)) ;;
  if empty then Raise NoDataAvailableError
  else
    items <- json_items time_series ;;
    except_key_value (format_rows items []) RuntimeError.

(** Fetches stock data from Alpha Vantage and returns a list of rows. *)
Definition fetch_stock_rows_from_alpha_vantage
    (symbol period : string) (api_key : option string)
    (outputsize intraday_interval : string) : result (list row) :=
  if negb (str_truthy symbol) || negb (str_truthy (strip symbol)) then
    Raise ValueError
  else
    let symbol := upper (strip symbol) in
    let api_key := getenv "ALPHA_VANTAGE_API_KEY" in
    match api_key with
    | None => Raise ValueError
    | Some api_key =>
        if negb (str_truthy api_key) then Raise ValueError
        else
          let '(function, extra) :=
            alpha_function_for_period period intraday_interval in
          let url := "https://www.alphavantage.co/query" in
          let params :=
            query_params function symbol outputsize api_key extra in
          match requests_get (mk_request url params 60) with
          | Timeout => Raise RuntimeError
          | ConnectionError => Raise RuntimeError
          | HTTPError => Raise RuntimeError
          | RequestException => Raise RuntimeError
          | BodyNotJSON => Raise RuntimeError
          | Body data => rows_of_response data
          end
    end.
End Fetch.

(** Converts input into a datetime object. *)
Definition parse_date (date_text : string) : result datetime :=
  match strptime re_date date_text with
  | Raise ValueError => strptime re_datetime date_text
  | other => other
  end.

(** The loop of [filter_by_date]: a row is kept when
    [start <= date_obj <= end]. *)
Fixpoint filter_loop (start end_ : datetime) (rows filtered_rows : list row)
  : result (list row) :=
  match rows with
  | [] => Ok filtered_rows
  | r :: rest =>
      date_obj <- parse_date (date r) ;;
      filter_loop start end_ rest
        (if datetime_leb start date_obj && datetime_leb date_obj end_
         then (filtered_rows ++ [r])%list else filtered_rows)
  end.

(** Loops through every row, only keeps rows inside the range, sorts the
    result by date. *)
Definition filter_by_date (rows : list row) (start_date end_date : string)
  : result (list row) :=
  bounds <- except_value
              (start <- parse_date start_date ;;
               end_ <- parse_date end_date ;;
               Ok (start, end_))
              ValueError ;;
  let '(start, end_) := bounds in
  if datetime_ltb end_ start then Raise ValueError
  else
    filtered_rows <- filter_loop start end_ rows [] ;;
    match filtered_rows with
    | [] => Raise NoDataAvailableError
    | _ => Ok (sort_by date filtered_rows)
    end.

(** [f"{year}-W{week_num:02d}"] for the ISO year and week of a date. *)
Definition weekly_label (date_obj : datetime) : string :=
  let '(iso_year, week_num, _) := isocalendar date_obj in
  str_int iso_year ++ "-W" ++ format_02d week_num.

(** [f"{date_obj.year}-{date_obj.month:02d}"]. *)
Definition monthly_label (date_obj : datetime) : string :=
  str_int (year date_obj) ++ "-" ++ format_02d (month date_obj).

(** The label of the group a row goes to. *)
Definition group_label (period : string) (r : row) : result string :=
  date_obj <- parse_date (date r) ;;
  if String.eqb period "weekly" then Ok (weekly_label date_obj)
  else if String.eqb period "monthly" then Ok (monthly_label date_obj)
  else Ok (date r).

(** The first loop of [group_by_period]: rows are appended to the list of
    their label, a new label getting an empty list first. *)
Fixpoint group_loop (period : string) (data_rows : list row)
    (grouped_data : dict (list row)) : result (dict (list row)) :=
  match data_rows with
  | [] => Ok grouped_data
  | r :: rest =>
      label <- group_label period r ;;
      let grouped_data :=
        if dict_mem label grouped_data then grouped_data
        else dict_set label [] grouped_data in
      match dict_append label r grouped_data with
      | Some grouped_data' => group_loop period rest grouped_data'
      | None => Raise KeyError
      end
  end.

(** The body of the second loop: one summary row for a label. *)
Definition combine (label : string) (rows_in_group : list row) : result row :=
  let rows_in_group := sort_by date rows_in_group in
  match rows_in_group with
  | [] => Raise IndexError
  | first :: others =>
      let open_price := open first in
      let close_price := close (last rows_in_group first) in
      let high_price := py_max (high first) (map high others) in
      let low_price := py_min (low first) (map low others) in
      Ok (mk_row label open_price high_price low_price close_price)
  end.

(** The second loop: one summary row per label, in the order of the
    dictionary. *)
Fixpoint combine_loop (grouped_data : dict (list row)) (grouped_rows : list row)
  : result (list row) :=
  match grouped_data with
  | [] => Ok grouped_rows
  | (label, rows_in_group) :: rest =>
      summary <- combine label rows_in_group ;;
      combine_loop rest (grouped_rows ++ [summary])%list
  end.

(** Groups stock data into grouped rows for intraday, daily, weekly, or
    monthly time periods. *)
Definition group_by_period (data_rows : list row) (period : string)
  : result (list row) :=
  if String.eqb period "intraday" || String.eqb period "daily" then
    Ok (sort_by date data_rows)
  else
    grouped_data <- group_loop period data_rows [] ;;
    grouped_rows <- combine_loop grouped_data [] ;;
    Ok (sort_by date grouped_rows).

(** The chart handed to the rendering library: its class, title, x labels
    and the series added to it, in the order of the [add] calls. *)
Inductive chart_class : Type := Line | Bar | StackedBar | XY.

Record series : Type := mk_series {
  label : string;
  values : list Q
}.

Record chart : Type := mk_chart {
  chart_kind : chart_class;
  title : string;
  x_labels : list string;
  added : list series
}.

(** [chart.add(name, vals)]. *)
Definition chart_add (c : chart) (name : string) (vals : list Q) : chart :=
  mk_chart (chart_kind c) (title c) (x_labels c)
           (added c ++ [mk_series name vals])%list.

(** The series model [render_chart] builds from a list of rows. *)
Definition series_model (grouped : list row) : list string * list series :=
  let x_labels := map date grouped in
  let series :=
    [mk_series "Open" (map open grouped);
     mk_series "High" (map high grouped);
     mk_series "Low" (map low grouped);
     mk_series "Close" (map close grouped)] in
  (x_labels, series).

(** [render_chart] on a list of rows, up to the call of [chart.render]. *)
Definition render_chart (grouped : list row) (title chart_type : string)
  : chart :=
  let chart_map :=
    [("line", Line); ("bar", Bar); ("stacked_bar", StackedBar); ("xy", XY)] in
  let ChartClass :=
    match dict_get (lower chart_type) chart_map with
    | Some c => c
    | None => Line
    end in
  let '(labels, series) := series_model grouped in
  let c := mk_chart ChartClass title labels [] in
  fold_left (fun c s => chart_add c (label s) (values s)) series c.

(** [f"{symbol.upper()} Stock Prices ({period.capitalize()})"]. *)
Definition chart_title (symbol period : string) : string :=
  upper symbol ++ " Stock Prices (" ++ capitalize period ++ ")".

Section Pipeline.
Variable getenv : string -> option string.
Variable requests_get : request -> http_outcome.
Variable float_of_str : string -> option Q.

(** [generate_chart_from_api], up to the rendering of the chart. *)
Definition generate_chart_from_api
    (symbol period start_date end_date chart_type : string)
    (api_key : option string) (intraday_interval : string) : result chart :=
  all_rows <- fetch_stock_rows_from_alpha_vantage getenv requests_get
                float_of_str symbol period api_key "full" intraday_interval ;;
  filtered <- filter_by_date all_rows start_date end_date ;;
  grouped <- group_by_period filtered period ;;
  let title := chart_title symbol period in
  Ok (render_chart grouped title chart_type).

(** [generate_chart_for_web], up to the rendering of the chart. *)
Definition generate_chart_for_web
    (symbol period start_date end_date chart_type : string)
    (api_key : option string) (intraday_interval : string) : result chart :=
  all_rows <- fetch_stock_rows_from_alpha_vantage getenv requests_get
                float_of_str symbol period api_key "full" intraday_interval ;;
  filtered <- filter_by_date all_rows start_date end_date ;;
  grouped <- group_by_period filtered period ;;
  let title := chart_title symbol period in
  let chart_map := [("line", Line); ("bar", Bar)] in
  let ChartClass :=
    match dict_get (lower chart_type) chart_map with
    | Some c => c
    | None => Line
    end in
  let x_labels := map date grouped in
  let c := mk_chart ChartClass title x_labels [] in
  let c := chart_add c "Open" (map open grouped) in
  let c := chart_add c "High" (map high grouped) in
  let c := chart_add c "Low" (map low grouped) in
  let c := chart_add c "Close" (map close grouped) in
  Ok c.
End Pipeline.

(** ** Notions used to state the properties *)

(** Ascending order of two items by a string key. *)
Definition ascending_by {A : Type} (key : A -> string) (a b : A) : Prop :=
  String.leb (key a) (key b) = true.

(** Ascending order of two rows by their date string. *)
Definition by_date : row -> row -> Prop := ascending_by date.

(** The date of a row can be read by [parse_date]. *)
Definition parses (r : row) : Prop := exists dt, parse_date (date r) = Ok dt.

(** The test of the filter loop on a row. *)
Definition in_window (start end_ : datetime) (r : row) : bool :=
  match parse_date (date r) with
  | Ok date_obj => datetime_leb start date_obj && datetime_leb date_obj end_
  | Raise _ => false
  end.

(** The record invariant: [high >= max(open, close, low)] and
    [low <= min(open, close, high)]. *)
Definition ohlc_ok (r : row) : Prop :=
  (open r <= high r /\ close r <= high r /\ low r <= high r /\
   low r <= open r /\ low r <= close r)%Q.

(** The members of the bucket of a label: the rows that get this label, in
    the order of the input. *)
Definition has_label (period label : string) (r : row) : bool :=
  match group_label period r with
  | Ok l => String.eqb l label
  | Raise _ => false
  end.

Definition members (period : string) (rows : list row) (label : string)
  : list row :=
  filter (has_label period label) rows.

(** [m] is the greatest (smallest) of the numbers [l]. *)
Definition is_max (m : Q) (l : list Q) : Prop :=
  In m l /\ Forall (fun x => (x <= m)%Q) l.

Definition is_min (m : Q) (l : list Q) : Prop :=
  In m l /\ Forall (fun x => (m <= x)%Q) l.

(** The ISO-8601 week date of day number [n], by the rule of the standard:
    weeks run from Monday to Sunday, a week belongs to the year its Thursday
    falls in, and weeks are counted from the one that holds the first
    Thursday of that year. *)
Definition weekday (n : Z) : Z := (n + 6) mod 7.

Definition thursday_of_week (n : Z) : Z := n - weekday n + 3.

Definition iso_week_date (n iso_year week wday : Z) : Prop :=
  days_before_year iso_year < thursday_of_week n <= days_before_year (iso_year + 1) /\
  week = (thursday_of_week n - days_before_year iso_year - 1) / 7 + 1 /\
  wday = weekday n + 1.

(** A calendar date the [datetime] constructor accepts. *)
Definition valid_date (y m d : Z) : Prop :=
  1 <= y <= 9999 /\ 1 <= m <= 12 /\ 1 <= d <= days_in_month y m.

(** The number of days of a year. *)
Definition days_in_year (y : Z) : Z := if is_leap y then 366 else 365.

(** A number written with exactly [width] decimal digits. *)
Fixpoint fixed_digits (width : nat) (n : Z) : string :=
  match width with
  | O => EmptyString
  | S w => String (digit_char (n / 10 ^ Z.of_nat w))
                  (fixed_digits w (n mod 10 ^ Z.of_nat w))
  end.

(** A test holds for the [count] integers from [lo] on. *)
Definition all_from (lo count : Z) (p : Z -> bool) : bool :=
  forallb (fun i => p (lo + Z.of_nat i)) (List.seq 0 (Z.to_nat count)).

(** The two fixed-width forms of a date string: [YYYY-MM-DD] and
    [YYYY-MM-DD HH:MM:SS]. *)
Definition date_text (dt : datetime) : string :=
  fixed_digits 4 (year dt) ++ "-" ++ fixed_digits 2 (month dt) ++ "-" ++
  fixed_digits 2 (day dt).

Definition time_text (dt : datetime) : string :=
  " " ++ fixed_digits 2 (hour dt) ++ ":" ++ fixed_digits 2 (minute dt) ++ ":" ++
  fixed_digits 2 (second dt).

Definition fixed_width (text : string) (dt : datetime) : Prop :=
  (text = date_text dt /\ hour dt = 0 /\ minute dt = 0 /\ second dt = 0) \/
  text = date_text dt ++ time_text dt.

(** The date of a row is in one of the two fixed-width forms and reads as
    [dt]. *)
Definition dated (r : row) (dt : datetime) : Prop :=
  parse_date (date r) = Ok dt /\ fixed_width (date r) dt.

(** The date part of a [datetime] is the calendar date [y-m-d]. *)
Definition date_leb (a b : datetime) : bool :=
  match lex_compare [year a; month a; day a] [year b; month b; day b] with
  | Gt => false
  | _ => true
  end.

(** The four series of a chart for a list of rows. *)
Definition ohlc_series (grouped : list row) : list series :=
  [mk_series "Open" (map open grouped);
   mk_series "High" (map high grouped);
   mk_series "Low" (map low grouped);
   mk_series "Close" (map close grouped)].

(** The resolutions the pipeline knows by name. *)
Definition recognized (period : string) : bool :=
  String.eqb period "intraday" || String.eqb period "daily" ||
  String.eqb period "weekly" || String.eqb period "monthly".

(** The x labels and the series of a chart. *)
Definition chart_data (c : chart) : list string * list series :=
  (x_labels c, added c).

Definition result_map {A B : Type} (f : A -> B) (m : result A) : result B :=
  x <- m ;; Ok (f x).

(** The first three stages of the pipeline: fetch, filter, aggregate. *)
Definition aggregated_rows
    (getenv : string -> option string)
    (requests_get : request -> http_outcome)
    (float_of_str : string -> option Q)
    (symbol period start_date end_date : string)
    (api_key : option string) (intraday_interval : string)
  : result (list row) :=
  all_rows <- fetch_stock_rows_from_alpha_vantage getenv requests_get
                float_of_str symbol period api_key "full" intraday_interval ;;
  filtered <- filter_by_date all_rows start_date end_date ;;
  group_by_period filtered period.

(** The request the fetch sends for a symbol, a period and a credential. *)
Definition provider_request
    (symbol period outputsize intraday_interval api_key : string) : request :=
  let fe := alpha_function_for_period period intraday_interval in
  mk_request "https://www.alphavantage.co/query"
    (query_params (fst fe) (upper (strip symbol)) outputsize api_key (snd fe))
    60.

(** A response in which the provider object is returned for every request. *)
Definition provider_returns (data : dict json) : request -> http_outcome :=
  fun _ => Body data.

(** An environment in which only the credential is set. *)
Definition env_with_key (k : string) : string -> option string :=
  fun name => if String.eqb name "ALPHA_VANTAGE_API_KEY" then Some k else None.

(** ** app.py *)

(** [sym.isalpha()]: at least one character, and letters only.  The letters
    with a code below 256 are those of ASCII, the two ordinal indicators
    (170, 186), the micro sign (181) and the letters of Latin-1 (192-255
    without the signs of multiplication, 215, and division, 247). *)
Definition is_alpha_char (c : ascii) : bool :=
  let n := code c in
  ((65 <=? n) && (n <=? 90)) || ((97 <=? n) && (n <=? 122))
  || (n =? 170) || (n =? 181) || (n =? 186)
  || ((192 <=? n) && (n <=? 214)) || ((216 <=? n) && (n <=? 246))
  || ((248 <=? n) && (n <=? 255)).

Fixpoint all_chars (p : ascii -> bool) (s : string) : bool :=
  match s with
  | EmptyString => true
  | String c rest => p c && all_chars p rest
  end.

Definition isalpha (s : string) : bool := str_truthy s && all_chars is_alpha_char s.

(** Returns a fallback list of popular stocks if the API fails. *)
Definition get_fallback_stock_list : list (string * string) :=
  [("AAPL", "Apple Inc.");
   ("MSFT", "Microsoft Corporation");
   ("GOOGL", "Alphabet Inc. Class A");
   ("GOOG", "Alphabet Inc. Class C");
   ("AMZN", "Amazon.com Inc.");
   ("TSLA", "Tesla Inc.");
   ("META", "Meta Platforms Inc.");
   ("NVDA", "NVIDIA Corporation");
   ("JPM", "JPMorgan Chase & Co.");
   ("V", "Visa Inc.");
   ("WMT", "Walmart Inc.");
   ("JNJ", "Johnson & Johnson");
   ("PG", "Procter & Gamble Co.");
   ("UNH", "UnitedHealth Group Inc.");
   ("MA", "Mastercard Inc.");
   ("HD", "Home Depot Inc.");
   ("DIS", "The Walt Disney Company");
   ("BAC", "Bank of America Corp.");
   ("XOM", "Exxon Mobil Corporation");
   ("PFE", "Pfizer Inc.");
   ("ABBV", "AbbVie Inc.");
   ("KO", "The Coca-Cola Company");
   ("COST", "Costco Wholesale Corporation");
   ("AVGO", "Broadcom Inc.");
   ("PEP", "PepsiCo Inc.");
   ("TMO", "Thermo Fisher Scientific");
   ("MRK", "Merck & Co. Inc.");
   ("CSCO", "Cisco Systems Inc.");
   ("ABT", "Abbott Laboratories");
   ("ACN", "Accenture plc");
   ("LLY", "Eli Lilly and Company");
   ("DHR", "Danaher Corporation");
   ("NKE", "NIKE Inc.");
   ("VZ", "Verizon Communications");
   ("ADBE", "Adobe Inc.");
   ("NEE", "NextEra Energy Inc.");
   ("CMCSA", "Comcast Corporation");
   ("TXN", "Texas Instruments");
   ("INTC", "Intel Corporation");
   ("CRM", "Salesforce Inc.");
   ("UNP", "Union Pacific Corporation");
   ("PM", "Philip Morris International");
   ("BMY", "Bristol-Myers Squibb");
   ("RTX", "Raytheon Technologies");
   ("T", "AT&T Inc.");
   ("HON", "Honeywell International");
   ("QCOM", "QUALCOMM Incorporated");
   ("LOW", "Lowe's Companies Inc.");
   ("UPS", "United Parcel Service");
   ("AMGN", "Amgen Inc.");
   ("ORCL", "Oracle Corporation")].

(** A row of [csv.DictReader]: a field of the header that the line does not
    reach has the value [None]. *)
Definition csv_row : Type := dict (option string).

(** What the request for the listing and the reading of its CSV text give:
    an exception, or the rows. *)
Inductive listing_outcome : Type :=
| ListingFailed
| ListingRows (rows : list csv_row).

(** [row.get(name, '').strip()]; [None.strip()] raises [AttributeError]. *)
Definition csv_field (r : csv_row) (name : string) : result string :=
  match dict_get name r with
  | Some (Some v) => Ok (strip v)
  | Some None => Raise AttributeError
  | None => Ok (strip "")
  end.

(** The loop over the rows of the listing: active stocks with a symbol and a
    name are collected. *)
Fixpoint active_symbols (csv_data : list csv_row)
    (stock_symbols : list (string * string)) : result (list (string * string)) :=
  match csv_data with
  | [] => Ok stock_symbols
  | r :: rest =>
      symbol <- csv_field r "symbol" ;;
      name <- csv_field r "name" ;;
      status <- csv_field r "status" ;;
      active_symbols rest
        (if str_truthy symbol && str_truthy name && String.eqb status "Active"
         then (stock_symbols ++ [(symbol, name)])%list else stock_symbols)
  end.

Section Listing.
Variable getenv : string -> option string.
Variable requests_get_listing : request -> listing_outcome.

(** Load stock symbols from the Alpha Vantage API; returns a list of pairs
    (symbol, name). *)
Definition load_stock_symbols_from_api : list (string * string) :=
  match getenv "ALPHA_VANTAGE_API_KEY" with
  | None => get_fallback_stock_list
  | Some api_key =>
      if negb (str_truthy api_key) then get_fallback_stock_list
      else
        let url := "https://www.alphavantage.co/query" in
        let params := [("function", "LISTING_STATUS"); ("apikey", api_key)] in
        match requests_get_listing (mk_request url params 30) with
        | ListingFailed => get_fallback_stock_list
        | ListingRows csv_data =>
            match active_symbols csv_data [] with
            | Raise _ => get_fallback_stock_list
            | Ok stock_symbols =>
                let stock_symbols := sort_by fst stock_symbols in
                let filtered_symbols :=
                  filter (fun '(sym, name) =>
                            (Z.of_nat (String.length sym) <=? 5) && isalpha sym)
                         stock_symbols in
                match filtered_symbols with
                | [] => get_fallback_stock_list
                | _ => firstn 1000 filtered_symbols
                end
            end
        end
  end.
End Listing.

(** The messages the page flashes; the text of an exception is not kept. *)
Inductive flash_message : Type :=
| PleaseSelectSymbol
| PleaseProvideDates
| EndBeforeStart
| ChartGenerated
| InvalidDateFormat
| SymbolNotFoundFlash
| RateLimitFlash
| NoDataFlash
| UnexpectedErrorFlash.

Record chart_info : Type := mk_chart_info {
  info_symbol : string;
  info_chart_type : string;
  info_time_series : string;
  info_start_date : string;
  info_end_date : string
}.

(** What [index] hands to the template, and what it flashes. *)
Record page : Type := mk_page {
  page_stock_symbols : list (string * string);
  page_chart_svg : option chart;
  page_chart_info : option chart_info;
  page_flashed : list flash_message
}.

(** [request.form.get(name, default)]. *)
Definition form_get (form : dict string) (name default : string) : string :=
  match dict_get name form with
  | Some v => v
  | None => default
  end.

(** The handlers of the exceptions of the chart generation, in their
    order. *)
Definition flash_of_exception (e : exn) : flash_message :=
  match e with
  | ValueError => InvalidDateFormat
  | StockSymbolNotFoundError => SymbolNotFoundFlash
  | APIRateLimitError => RateLimitFlash
  | NoDataAvailableError => NoDataFlash
  | _ => UnexpectedErrorFlash
  end.

Section Web.
Variable getenv : string -> option string.
Variable requests_get : request -> http_outcome.
Variable float_of_str : string -> option Q.
Variable STOCK_SYMBOLS : list (string * string).

(** Display the main form and handle chart generation. *)
Definition index (method : string) (form : dict string) : page :=
  if String.eqb method "POST" then
    let symbol := upper (strip (form_get form "symbol" "")) in
    let chart_type := form_get form "chart_type" "line" in
    let time_series := form_get form "time_series" "daily" in
    let start_date := strip (form_get form "start_date" "") in
    let end_date := strip (form_get form "end_date" "") in
    if negb (str_truthy symbol) then
      mk_page STOCK_SYMBOLS None None [PleaseSelectSymbol]
    else if negb (str_truthy start_date) || negb (str_truthy end_date) then
      mk_page STOCK_SYMBOLS None None [PleaseProvideDates]
    else
      let attempt :=
        start_date_obj <- strptime re_date start_date ;;
        end_date_obj <- strptime re_date end_date ;;
        if datetime_ltb end_date_obj start_date_obj then Ok None
        else
          chart_svg <- generate_chart_for_web getenv requests_get float_of_str
                         symbol time_series start_date end_date chart_type
                         None "60min" ;;
          Ok (Some (chart_svg,
                    mk_chart_info symbol (capitalize chart_type)
                      (capitalize time_series) start_date end_date)) in
      match attempt with
      | Ok None => mk_page STOCK_SYMBOLS None None [EndBeforeStart]
      | Ok (Some (chart_svg, info)) =>
          mk_page STOCK_SYMBOLS (Some chart_svg) (Some info) [ChartGenerated]
      | Raise e => mk_page STOCK_SYMBOLS None None [flash_of_exception e]
      end
  else mk_page STOCK_SYMBOLS None None [].
End Web.

(** ** main.py *)

(** The result of a function that reads lines from the standard input: a
    value and the lines left, or the end of the input ([EOFError]). *)
Inductive console (A : Type) : Type :=
| Return (a : A) (rest : list string)
| EOF.

Arguments Return {A} a rest.
Arguments EOF {A}.

(** Prompts the user to enter a stock symbol; returns it in uppercase. *)
Fixpoint get_stock_symbol (stdin : list string) : console string :=
  match stdin with
  | [] => EOF
  | line :: rest =>
      let symbol := upper (strip line) in
      if str_truthy symbol then Return symbol rest else get_stock_symbol rest
  end.

(** Prompts the user to select a chart type. *)
Fixpoint get_chart_type (stdin : list string) : console string :=
  let chart_types := [("1", "line"); ("2", "bar")] in
  match stdin with
  | [] => EOF
  | line :: rest =>
      let choice := strip line in
      match dict_get choice chart_types with
      | Some chart_type => Return chart_type rest
      | None => get_chart_type rest
      end
  end.

(** Prompts the user to select a time series function. *)
Fixpoint get_time_series (stdin : list string) : console string :=
  let time_series_map :=
    [("1", "intraday"); ("2", "daily"); ("3", "weekly"); ("4", "monthly")] in
  match stdin with
  | [] => EOF
  | line :: rest =>
      let choice := strip line in
      match dict_get choice time_series_map with
      | Some period => Return period rest
      | None => get_time_series rest
      end
  end.

(** Prompts the user to enter a date in YYYY-MM-DD format; returns the text
    and the [datetime]. *)
Fixpoint get_date (stdin : list string) : console (string * datetime) :=
  match stdin with
  | [] => EOF
  | line :: rest =>
      let date_str := strip line in
      match strptime re_date date_str with
      | Ok date_obj => Return (date_str, date_obj) rest
      | Raise _ => get_date rest
      end
  end.

(** The loop of [get_date_range] that asks for the end date.  Every turn
    reads at least one line, so [fuel] turns are enough when [fuel] exceeds
    the number of lines. *)
Fixpoint end_date_loop (fuel : nat) (start_date_str : string)
    (start_date_obj : datetime) (stdin : list string)
  : console (string * string) :=
  match fuel with
  | O => EOF
  | S fuel' =>
      match get_date stdin with
      | EOF => EOF
      | Return (end_date_str, end_date_obj) rest =>
          if datetime_leb start_date_obj end_date_obj
          then Return (start_date_str, end_date_str) rest
          else end_date_loop fuel' start_date_str start_date_obj rest
      end
  end.

(** Prompts the user for start and end dates; the end date is asked for
    again until it is not before the start date. *)
Definition get_date_range (stdin : list string) : console (string * string) :=
  match get_date stdin with
  | EOF => EOF
  | Return (start_date_str, start_date_obj) rest =>
      end_date_loop (S (List.length rest)) start_date_str start_date_obj rest
  end.

(** Asks the user whether to view another stock. *)
Fixpoint ask_continue (stdin : list string) : console bool :=
  match stdin with
  | [] => EOF
  | line :: rest =>
      let response := lower (strip line) in
      if String.eqb response "n" then Return false rest
      else if String.eqb response "y" || String.eqb response "" then
        Return true rest
      else ask_continue rest
  end.

(** The selections [main] collects before it generates a chart. *)
Record selections : Type := mk_selections {
  sel_symbol : string;
  sel_chart_type : string;
  sel_time_series : string;
  sel_start_date : string;
  sel_end_date : string
}.

Definition collect_selections (stdin : list string) : console selections :=
  match get_stock_symbol stdin with
  | EOF => EOF
  | Return symbol stdin1 =>
      match get_chart_type stdin1 with
      | EOF => EOF
      | Return chart_type stdin2 =>
          match get_time_series stdin2 with
          | EOF => EOF
          | Return time_series stdin3 =>
              match get_date_range stdin3 with
              | EOF => EOF
              | Return (start_date, end_date) stdin4 =>
                  Return (mk_selections symbol chart_type time_series
                            start_date end_date) stdin4
              end
          end
      end
  end.

(** ** Further notions used to state properties *)

(** The test [extract_time_series_from_response] makes on an error message
    and on a note, when they are strings. *)
Definition invalid_symbol_phrasing (msg : string) : bool :=
  str_in "Invalid API call" msg || str_in "Invalid stock symbol" msg.

Definition rate_limit_phrasing (note : string) : bool :=
  str_in "API call frequency" note || str_in "rate limit" (lower note).

(** The results of the four conversions of an entry of the time series. *)
Definition entry_fields (float_of_str : string -> option Q) (values : json)
  : list (result Q) :=
  map (field float_of_str values) ["1. open"; "2. high"; "3. low"; "4. close"].

Definition is_ok {A : Type} (m : result A) : bool :=
  match m with
  | Ok _ => true
  | Raise _ => false
  end.

(** An entry whose conversions fail, if at all, with [KeyError] (a field is
    missing) or [ValueError] (a text is not a number). *)
Definition data_error_only {A : Type} (m : result A) : Prop :=
  match m with
  | Ok _ => True
  | Raise e => e = KeyError \/ e = ValueError
  end.

(** The row of an entry of the time series. *)
Definition row_of_entry (float_of_str : string -> option Q)
    (item : string * json) (r : row) : Prop :=
  date r = fst item /\
  field float_of_str (snd item) "1. open" = Ok (open r) /\
  field float_of_str (snd item) "2. high" = Ok (high r) /\
  field float_of_str (snd item) "3. low" = Ok (low r) /\
  field float_of_str (snd item) "4. close" = Ok (close r).

(** The request [load_stock_symbols_from_api] sends for a credential. *)
Definition listing_request (api_key : string) : request :=
  mk_request "https://www.alphavantage.co/query"
    [("function", "LISTING_STATUS"); ("apikey", api_key)] 30.

(** A row of the listing that ends before one of the fields that are read. *)
Definition short_row (r : csv_row) : Prop :=
  exists name,
    In name ["symbol"; "name"; "status"] /\ dict_get name r = Some None.

(** A row of the listing of an active stock, with its symbol and name. *)
Definition active_row (r : csv_row) (symbol name : string) : Prop :=
  csv_field r "symbol" = Ok symbol /\ csv_field r "name" = Ok name /\
  csv_field r "status" = Ok "Active" /\ symbol <> "" /\ name <> "".

(** An entry with a symbol of one to five letters and a name. *)
Definition standard_entry (p : string * string) : bool :=
  (Z.of_nat (String.length (fst p)) <=? 5) && isalpha (fst p)
  && str_truthy (snd p).

(** Ascending order of two entries by their symbol. *)
Definition by_symbol : string * string -> string * string -> Prop :=
  ascending_by fst.

(** The credential is not configured. *)
Definition no_credential (getenv : string -> option string) : Prop :=
  getenv "ALPHA_VANTAGE_API_KEY" = None \/
  getenv "ALPHA_VANTAGE_API_KEY" = Some "".

(** A form whose symbol and dates pass the checks of [index]: the symbol is
    not blank, both dates read as [%Y-%m-%d], and the end is not before the
    start. *)
Definition form_accepted (form : dict string) : Prop :=
  strip (form_get form "symbol" "") <> "" /\
  exists start end_,
    strptime re_date (strip (form_get form "start_date" "")) = Ok start /\
    strptime re_date (strip (form_get form "end_date" "")) = Ok end_ /\
    datetime_ltb end_ start = false.

(** The shape the prompts of [main.py] share: lines are read until one is
    accepted. *)
Fixpoint first_accepted {A : Type} (accept : string -> option A)
    (stdin : list string) : console A :=
  match stdin with
  | [] => EOF
  | line :: rest =>
      match accept line with
      | Some a => Return a rest
      | None => first_accepted accept rest
      end
  end.

(** A line that does not read as a date, and one that does not read as a
    date on or after [start]. *)
Definition not_a_date (line : string) : Prop :=
  forall d, strptime re_date (strip line) <> Ok d.

Definition not_an_end_date (start : datetime) (line : string) : Prop :=
  forall d, strptime re_date (strip line) = Ok d ->
            datetime_leb start d = false.

(** A line that is none of the answers [ask_continue] takes. *)
Definition no_answer (line : string) : Prop :=
  ~ In (lower (strip line)) ["n"; "y"; ""].

(** Two rows in the order of time: their dates read, the first not after
    the second. *)
Definition chronological (a b : row) : Prop :=
  exists da db,
    parse_date (date a) = Ok da /\ parse_date (date b) = Ok db /\
    datetime_leb da db = true.

(** ASCII text: every character has a code below 128.  On such text
    [upper] is [str.upper()]. *)
Definition ascii_text (s : string) : Prop :=
  all_chars (fun c => code c <? 128) s = true.

(** * Properties *)

(** ** Chart-series assembly *)

Lemma render_chart_added (grouped : list row) (t chart_type : string) :
  added (render_chart grouped t chart_type) = ohlc_series grouped.
Proof. reflexivity. Qed.

Lemma ohlc_series_lengths (grouped : list row) :
  Forall (fun s => List.length (values s) = List.length grouped)
         (ohlc_series grouped).
Proof.
  unfold ohlc_series.
  repeat constructor; simpl; apply length_map.
Qed.

(** C8. The chart built from a sequence of aggregated rows has the labels
    of the rows as x labels, in the order of the rows, and exactly the four
    series "Open", "High", "Low", "Close", each with the field of that name of
    every row in the same order; the number of x labels and the length of
    every series equal the number of rows.  Both pipeline entry points hand
    this model of the rows aggregated by the earlier stages to the chart. *)
Theorem series_assembly_preserves_rows
    (getenv : string -> option string)
    (requests_get : request -> http_outcome)
    (float_of_str : string -> option Q)
    (symbol period start_date end_date chart_type : string)
    (api_key : option string) (intraday_interval t : string)
    (grouped : list row) :
  let c := render_chart grouped t chart_type in
  (x_labels c = map date grouped /\
   added c =
     [mk_series "Open" (map open grouped);
      mk_series "High" (map high grouped);
      mk_series "Low" (map low grouped);
      mk_series "Close" (map close grouped)] /\
   List.length (x_labels c) = List.length grouped /\
   Forall (fun s => List.length (values s) = List.length (x_labels c))
          (added c)) /\
  result_map chart_data
    (generate_chart_for_web getenv requests_get float_of_str symbol period
       start_date end_date chart_type api_key intraday_interval) =
  result_map series_model
    (aggregated_rows getenv requests_get float_of_str symbol period
       start_date end_date api_key intraday_interval) /\
  result_map chart_data
    (generate_chart_from_api getenv requests_get float_of_str symbol period
       start_date end_date chart_type api_key intraday_interval) =
  result_map series_model
    (aggregated_rows getenv requests_get float_of_str symbol period
       start_date end_date api_key intraday_interval).
Proof.
  split.
  - cbv zeta. rewrite render_chart_added.
    assert (Hx : x_labels (render_chart grouped t chart_type)
                 = map date grouped) by reflexivity.
    rewrite Hx, length_map.
    repeat split.
    apply ohlc_series_lengths.
  - unfold generate_chart_for_web, generate_chart_from_api, aggregated_rows.
    destruct (fetch_stock_rows_from_alpha_vantage _ _ _ _ _ _ _ _)
      as [all_rows|e]; [|split; reflexivity].
    simpl.
    destruct (filter_by_date all_rows start_date end_date)
      as [filtered|e]; [|split; reflexivity].
    simpl.
    destruct (group_by_period filtered period) as [aggregated|e];
      split; reflexivity.
Qed.

(** ** Order of strings *)

Lemma ascii_compare_refl (c : ascii) : Ascii.compare c c = Eq.
Proof. unfold Ascii.compare. apply N.compare_refl. Qed.

Lemma ascii_compare_trans (c : comparison) (x y z : ascii) :
  Ascii.compare x y = c -> Ascii.compare y z = c -> Ascii.compare x z = c.
Proof.
  unfold Ascii.compare. destruct c; intros H1 H2.
  - apply N.compare_eq_iff in H1, H2. apply N.compare_eq_iff. congruence.
  - rewrite N.compare_lt_iff in *. lia.
  - rewrite N.compare_gt_iff in *. lia.
Qed.

Lemma string_compare_refl (s : string) : String.compare s s = Eq.
Proof.
  induction s as [|c s IH]; simpl; [reflexivity|].
  now rewrite ascii_compare_refl.
Qed.

Lemma string_compare_lt_trans (a b c : string) :
  String.compare a b = Lt -> String.compare b c = Lt ->
  String.compare a c = Lt.
Proof.
  revert b c.
  induction a as [|x a IH]; intros [|y b] [|z c]; simpl; try congruence.
  destruct (Ascii.compare x y) eqn:Hxy; try discriminate;
    destruct (Ascii.compare y z) eqn:Hyz; try discriminate; intros H1 H2.
  - apply Ascii.compare_eq_iff in Hxy, Hyz. subst.
    rewrite ascii_compare_refl. eauto.
  - apply Ascii.compare_eq_iff in Hxy. subst. now rewrite Hyz.
  - apply Ascii.compare_eq_iff in Hyz. subst. now rewrite Hxy.
  - now rewrite (ascii_compare_trans Lt x y z).
Qed.

Lemma string_leb_iff (a b : string) :
  String.leb a b = true <-> String.compare a b <> Gt.
Proof.
  unfold String.leb. destruct (String.compare a b); split; congruence.
Qed.

Lemma string_ltb_iff (a b : string) :
  String.ltb a b = true <-> String.compare a b = Lt.
Proof.
  unfold String.ltb. destruct (String.compare a b); split; congruence.
Qed.

Lemma string_leb_refl (a : string) : String.leb a a = true.
Proof. apply string_leb_iff. now rewrite string_compare_refl. Qed.

Lemma string_leb_trans (a b c : string) :
  String.leb a b = true -> String.leb b c = true -> String.leb a c = true.
Proof.
  rewrite !string_leb_iff. intros Hab Hbc.
  destruct (String.compare a b) eqn:H1; [| |congruence].
  - apply String.compare_eq_iff in H1. now subst.
  - destruct (String.compare b c) eqn:H2; [| |congruence].
    + apply String.compare_eq_iff in H2. subst. now rewrite H1.
    + now rewrite (string_compare_lt_trans a b c).
Qed.

Lemma string_ltb_false_leb (a b : string) :
  String.ltb a b = false -> String.leb b a = true.
Proof.
  unfold String.ltb, String.leb. rewrite (String.compare_antisym b a).
  destruct (String.compare a b); simpl; congruence.
Qed.

Lemma string_ltb_leb (a b : string) :
  String.ltb a b = true -> String.leb a b = true.
Proof.
  unfold String.ltb, String.leb. destruct (String.compare a b); congruence.
Qed.

(** ** The stable sort *)

Section SortFacts.
Context {A : Type}.
Variable key : A -> string.

Lemma insert_by_perm (x : A) (l : list A) :
  Permutation (insert_by key x l) (x :: l).
Proof.
  induction l as [|y l IH]; simpl; [reflexivity|].
  destruct (String.ltb (key y) (key x)); [|reflexivity].
  rewrite IH. apply perm_swap.
Qed.

Lemma sort_by_perm (l : list A) : Permutation (sort_by key l) l.
Proof.
  induction l as [|x l IH]; simpl; [reflexivity|].
  rewrite insert_by_perm. now constructor.
Qed.

Lemma sort_by_in (l : list A) (x : A) : In x (sort_by key l) <-> In x l.
Proof.
  split; apply Permutation_in;
    [apply sort_by_perm | symmetry; apply sort_by_perm].
Qed.

Lemma sort_by_length (l : list A) :
  List.length (sort_by key l) = List.length l.
Proof. apply Permutation_length, sort_by_perm. Qed.

Lemma sort_by_nil_inv (l : list A) : sort_by key l = [] -> l = [].
Proof.
  intros H. apply Permutation_nil. rewrite <- H.
  apply sort_by_perm.
Qed.

Lemma ascending_by_trans : Relations_1.Transitive (ascending_by key).
Proof. intros a b c. apply string_leb_trans. Qed.

Lemma insert_by_hd (x z : A) (l : list A) :
  HdRel (ascending_by key) z l -> ascending_by key z x ->
  HdRel (ascending_by key) z (insert_by key x l).
Proof.
  intros Hz Hzx. destruct l as [|y l]; simpl.
  - now constructor.
  - destruct (String.ltb (key y) (key x)); constructor; trivial.
    now inversion Hz.
Qed.

Lemma insert_by_sorted (x : A) (l : list A) :
  Sorted (ascending_by key) l -> Sorted (ascending_by key) (insert_by key x l).
Proof.
  induction 1 as [|y l Hs IH Hhd]; simpl.
  - repeat constructor.
  - destruct (String.ltb (key y) (key x)) eqn:Hlt.
    + constructor; [assumption|].
      apply insert_by_hd; auto.
      now apply string_ltb_leb.
    + constructor; [now constructor|].
      constructor. now apply string_ltb_false_leb.
Qed.

Lemma sort_by_sorted (l : list A) : Sorted (ascending_by key) (sort_by key l).
Proof.
  induction l as [|x l IH]; simpl; [constructor|].
  now apply insert_by_sorted.
Qed.

Lemma sort_by_strongly_sorted (l : list A) :
  StronglySorted (ascending_by key) (sort_by key l).
Proof.
  apply Sorted_StronglySorted; [apply ascending_by_trans|apply sort_by_sorted].
Qed.

(** The first item of the sorted list has the least key. *)
Lemma sort_by_head_least (l : list A) (first : A) (others : list A) :
  sort_by key l = first :: others ->
  forall x, In x l -> ascending_by key first x.
Proof.
  intros Hs x Hx.
  pose proof (sort_by_strongly_sorted l) as Hss. rewrite Hs in Hss.
  apply (proj2 (sort_by_in l x)) in Hx. rewrite Hs in Hx.
  inversion Hss as [|? ? _ Hall]; subst.
  destruct Hx as [->|Hx].
  - apply string_leb_refl.
  - rewrite Forall_forall in Hall. now apply Hall.
Qed.

(** The last item of the sorted list has the greatest key. *)
Lemma strongly_sorted_last (l : list A) (d : A) :
  StronglySorted (ascending_by key) l ->
  forall x, In x l -> ascending_by key x (last l d).
Proof.
  induction 1 as [|y l Hss IH Hall]; intros x Hx; [contradiction|].
  destruct l as [|z l].
  - destruct Hx as [->|[]]. apply string_leb_refl.
  - change (last (y :: z :: l) d) with (last (z :: l) d).
    destruct Hx as [->|Hx].
    + apply (ascending_by_trans _ z).
      * rewrite Forall_forall in Hall. apply Hall. now left.
      * apply IH. now left.
    + now apply IH.
Qed.
(** The sort is stable: items of one key keep their order. *)
Lemma insert_by_stable (k : string) (x : A) (l : list A) :
  filter (fun y => String.eqb (key y) k) (insert_by key x l) =
  filter (fun y => String.eqb (key y) k) (x :: l).
Proof.
  induction l as [|y l IH]; [reflexivity|].
  cbn [insert_by]. destruct (String.ltb (key y) (key x)) eqn:Hlt; [|reflexivity].
  cbn [filter] in *. rewrite IH.
  destruct (String.eqb (key x) k) eqn:Hx; [|reflexivity].
  destruct (String.eqb (key y) k) eqn:Hy; [|reflexivity].
  apply String.eqb_eq in Hx, Hy. exfalso.
  apply string_ltb_iff in Hlt. rewrite Hx, Hy, string_compare_refl in Hlt.
  discriminate.
Qed.

Lemma sort_by_stable (k : string) (l : list A) :
  filter (fun y => String.eqb (key y) k) (sort_by key l) =
  filter (fun y => String.eqb (key y) k) l.
Proof.
  induction l as [|x l IH]; [reflexivity|].
  cbn [sort_by]. rewrite insert_by_stable. cbn [filter]. now rewrite IH.
Qed.

(** A sorted list is determined by the items of each key in their order:
    any stable sort of a list returns what [sort_by] returns. *)
Lemma stable_sorted_unique (l1 l2 : list A) :
  StronglySorted (ascending_by key) l1 ->
  StronglySorted (ascending_by key) l2 ->
  (forall k, filter (fun y => String.eqb (key y) k) l1 =
             filter (fun y => String.eqb (key y) k) l2) ->
  l1 = l2.
Proof.
  intros H1. revert l2.
  induction H1 as [|x l1 Hs1 IH Hall1]; intros l2 H2 Heq.
  - destruct l2 as [|y l2]; [reflexivity|].
    specialize (Heq (key y)). cbn [filter] in Heq.
    rewrite String.eqb_refl in Heq. discriminate.
  - destruct H2 as [|y l2 Hs2 Hall2].
    + specialize (Heq (key x)). cbn [filter] in Heq.
      rewrite String.eqb_refl in Heq. discriminate.
    + assert (Hxy : key x = key y).
      { apply String.leb_antisym.
        - pose proof (Heq (key y)) as E. cbn [filter] in E.
          rewrite String.eqb_refl in E.
          destruct (String.eqb (key x) (key y)) eqn:Hk.
          + apply String.eqb_eq in Hk. rewrite Hk. apply string_leb_refl.
          + assert (Hin : In y (filter (fun z => String.eqb (key z) (key y)) l1))
              by (rewrite E; now left).
            apply filter_In in Hin as [Hin _].
            rewrite Forall_forall in Hall1. now apply Hall1.
        - pose proof (Heq (key x)) as E. cbn [filter] in E.
          rewrite String.eqb_refl in E.
          destruct (String.eqb (key y) (key x)) eqn:Hk.
          + apply String.eqb_eq in Hk. rewrite Hk. apply string_leb_refl.
          + assert (Hin : In x (filter (fun z => String.eqb (key z) (key x)) l2))
              by (rewrite <- E; now left).
            apply filter_In in Hin as [Hin _].
            rewrite Forall_forall in Hall2. now apply Hall2. }
      pose proof (Heq (key x)) as E. cbn [filter] in E.
      rewrite String.eqb_refl, <- Hxy, String.eqb_refl in E.
      injection E as <- E.
      f_equal. apply IH; trivial.
      intros k. specialize (Heq k). cbn [filter] in Heq.
      destruct (String.eqb (key x) k); [now injection Heq|exact Heq].
Qed.

End SortFacts.

(** ** The fetch *)

Lemma strip_truthy (s : string) :
  str_truthy (strip s) = true -> str_truthy s = true.
Proof. destruct s; [discriminate|reflexivity]. Qed.

(** With a symbol and a credential, the fetch sends [provider_request] and
    continues with what comes back. *)
Lemma fetch_sends_request
    (getenv : string -> option string)
    (requests_get : request -> http_outcome)
    (float_of_str : string -> option Q)
    (symbol period : string) (api_key : option string)
    (outputsize intraday_interval k : string) :
  str_truthy (strip symbol) = true ->
  getenv "ALPHA_VANTAGE_API_KEY" = Some k ->
  str_truthy k = true ->
  fetch_stock_rows_from_alpha_vantage getenv requests_get float_of_str
    symbol period api_key outputsize intraday_interval =
  match requests_get
          (provider_request symbol period outputsize intraday_interval k) with
  | Body data => rows_of_response float_of_str data
  | _ => Raise RuntimeError
  end.
Proof.
  intros Hs Hk Hk'. unfold fetch_stock_rows_from_alpha_vantage.
  rewrite Hs, (strip_truthy _ Hs), Hk, Hk'. simpl.
  unfold provider_request.
  destruct (alpha_function_for_period period intraday_interval) as [f extra].
  simpl. destruct (requests_get _); reflexivity.
Qed.

Lemma extract_invalid_symbol (data : dict json) (msg : string) :
  time_series_key data = None ->
  dict_get "Error Message" data = Some (JStr msg) ->
  str_in "Invalid API call" msg = true \/
  str_in "Invalid stock symbol" msg = true ->
  extract_time_series_from_response data = Raise StockSymbolNotFoundError.
Proof.
  intros Hts Hem Hmsg. unfold extract_time_series_from_response.
  rewrite Hts, Hem. simpl.
  destruct (str_in "Invalid API call" msg); [reflexivity|].
  destruct Hmsg as [Hmsg|Hmsg]; [discriminate|].
  now rewrite Hmsg.
Qed.

(** C6. When the response has no key containing "Time Series" and has an
    "Error Message" whose text contains "Invalid API call" or "Invalid stock
    symbol", the extraction, the fetch and both pipeline entry points raise
    [StockSymbolNotFoundError]. *)
Theorem invalid_symbol_raises_symbol_not_found
    (getenv : string -> option string)
    (requests_get : request -> http_outcome)
    (float_of_str : string -> option Q)
    (symbol period start_date end_date chart_type : string)
    (api_key : option string) (intraday_interval k : string)
    (data : dict json) (msg : string) :
  str_truthy (strip symbol) = true ->
  getenv "ALPHA_VANTAGE_API_KEY" = Some k ->
  str_truthy k = true ->
  requests_get (provider_request symbol period "full" intraday_interval k)
    = Body data ->
  time_series_key data = None ->
  dict_get "Error Message" data = Some (JStr msg) ->
  str_in "Invalid API call" msg = true \/
  str_in "Invalid stock symbol" msg = true ->
  extract_time_series_from_response data = Raise StockSymbolNotFoundError /\
  fetch_stock_rows_from_alpha_vantage getenv requests_get float_of_str
    symbol period api_key "full" intraday_interval
    = Raise StockSymbolNotFoundError /\
  generate_chart_for_web getenv requests_get float_of_str symbol period
    start_date end_date chart_type api_key intraday_interval
    = Raise StockSymbolNotFoundError /\
  generate_chart_from_api getenv requests_get float_of_str symbol period
    start_date end_date chart_type api_key intraday_interval
    = Raise StockSymbolNotFoundError.
Proof.
  intros Hs Hk Hk' Hreq Hts Hem Hmsg.
  pose proof (extract_invalid_symbol data msg Hts Hem Hmsg) as Hex.
  assert (Hfetch :
    fetch_stock_rows_from_alpha_vantage getenv requests_get float_of_str
      symbol period api_key "full" intraday_interval
    = Raise StockSymbolNotFoundError).
  { rewrite (fetch_sends_request _ _ _ _ _ _ _ _ k Hs Hk Hk'), Hreq.
    unfold rows_of_response. now rewrite Hex. }
  repeat split; trivial.
  - unfold generate_chart_for_web. now rewrite Hfetch.
  - unfold generate_chart_from_api. now rewrite Hfetch.
Qed.

Lemma invalid_symbol_raises_symbol_not_found_witness :
  generate_chart_for_web (env_with_key "demo")
    (provider_returns
       [("Error Message",
         JStr "Invalid API call. Please retry or visit the documentation.")])
    (fun _ => None) "ibm" "daily" "2024-01-01" "2024-01-31" "line" None "60min"
  = Raise StockSymbolNotFoundError.
Proof.
  apply (invalid_symbol_raises_symbol_not_found
           (env_with_key "demo")
           (provider_returns
              [("Error Message",
                JStr "Invalid API call. Please retry or visit the documentation.")])
           (fun _ => None) "ibm" "daily" "2024-01-01" "2024-01-31" "line"
           None "60min" "demo"
           [("Error Message",
             JStr "Invalid API call. Please retry or visit the documentation.")]
           "Invalid API call. Please retry or visit the documentation.");
    try reflexivity.
  left. reflexivity.
Defined.

(** ** The credential *)

Lemma provider_request_apikey
    (symbol period outputsize intraday_interval k : string) :
  dict_get "apikey"
    (params (provider_request symbol period outputsize intraday_interval k))
  = Some k.
Proof.
  unfold provider_request, alpha_function_for_period.
  destruct (String.eqb (lower period) "intraday"); [reflexivity|].
  destruct (String.eqb (lower period) "daily"); [reflexivity|].
  destruct (String.eqb (lower period) "weekly"); [reflexivity|].
  destruct (String.eqb (lower period) "monthly"); reflexivity.
Qed.

(** C10. The result of [fetch_stock_rows_from_alpha_vantage], and with it
    the result of both pipeline entry points, is the same for any two values
    of the [api_key] argument: the argument is overwritten by the value of the
    environment variable before it is used.  With a symbol, the fetch raises
    [ValueError] when the variable is not set whatever the argument is, and
    otherwise sends the value of the variable as "apikey". *)
Theorem fetch_ignores_api_key_argument
    (getenv : string -> option string)
    (requests_get : request -> http_outcome)
    (float_of_str : string -> option Q)
    (symbol period start_date end_date chart_type : string)
    (outputsize intraday_interval : string) (k1 k2 : option string) :
  fetch_stock_rows_from_alpha_vantage getenv requests_get float_of_str
    symbol period k1 outputsize intraday_interval =
  fetch_stock_rows_from_alpha_vantage getenv requests_get float_of_str
    symbol period k2 outputsize intraday_interval /\
  generate_chart_for_web getenv requests_get float_of_str symbol period
    start_date end_date chart_type k1 intraday_interval =
  generate_chart_for_web getenv requests_get float_of_str symbol period
    start_date end_date chart_type k2 intraday_interval /\
  generate_chart_from_api getenv requests_get float_of_str symbol period
    start_date end_date chart_type k1 intraday_interval =
  generate_chart_from_api getenv requests_get float_of_str symbol period
    start_date end_date chart_type k2 intraday_interval /\
  (str_truthy (strip symbol) = true ->
   getenv "ALPHA_VANTAGE_API_KEY" = None ->
   fetch_stock_rows_from_alpha_vantage getenv requests_get float_of_str
     symbol period k1 outputsize intraday_interval = Raise ValueError) /\
  (forall k,
     str_truthy (strip symbol) = true ->
     getenv "ALPHA_VANTAGE_API_KEY" = Some k ->
     str_truthy k = true ->
     let req := provider_request symbol period outputsize intraday_interval k in
     dict_get "apikey" (params req) = Some k /\
     fetch_stock_rows_from_alpha_vantage getenv requests_get float_of_str
       symbol period k1 outputsize intraday_interval =
     match requests_get req with
     | Body data => rows_of_response float_of_str data
     | _ => Raise RuntimeError
     end).
Proof.
  split; [reflexivity|]. split; [reflexivity|]. split; [reflexivity|]. split.
  - intros Hs Hk. unfold fetch_stock_rows_from_alpha_vantage.
    now rewrite Hs, (strip_truthy _ Hs), Hk.
  - intros k Hs Hk Hk'. split.
    + apply provider_request_apikey.
    + now apply fetch_sends_request.
Qed.

Lemma fetch_ignores_api_key_argument_witness :
  fetch_stock_rows_from_alpha_vantage (fun _ => None)
    (provider_returns []) (fun _ => None) "ibm" "daily" (Some "secret")
    "full" "60min" = Raise ValueError /\
  dict_get "apikey"
    (params (provider_request "ibm" "daily" "full" "60min" "demo"))
  = Some "demo".
Proof.
  split.
  - destruct (fetch_ignores_api_key_argument (fun _ => None)
                (provider_returns []) (fun _ => None) "ibm" "daily"
                "2024-01-01" "2024-01-31" "line" "full" "60min"
                (Some "secret") None) as (_ & _ & _ & Hunset & _).
    apply Hunset; reflexivity.
  - destruct (fetch_ignores_api_key_argument (env_with_key "demo")
                (provider_returns []) (fun _ => None) "ibm" "daily"
                "2024-01-01" "2024-01-31" "line" "full" "60min"
                (Some "secret") None) as (_ & _ & _ & _ & Hset).
    apply (Hset "demo"); reflexivity.
Defined.

(** ** Parsing and comparing dates *)

Lemma strptime_raise (re : matcher datetime) (text : string) (e : exn) :
  strptime re text = Raise e -> e = ValueError.
Proof.
  unfold strptime.
  destruct (re text) as [|[dt rest] ?]; [congruence|].
  destruct rest; [destruct (valid_datetime dt)|]; congruence.
Qed.

Lemma strptime_valid (re : matcher datetime) (text : string) (dt : datetime) :
  strptime re text = Ok dt -> valid_datetime dt = true.
Proof.
  unfold strptime.
  destruct (re text) as [|[dt' rest] ?]; [congruence|].
  destruct rest; [|congruence].
  destruct (valid_datetime dt') eqn:Hv; congruence.
Qed.

Lemma parse_date_raise (text : string) (e : exn) :
  parse_date text = Raise e -> e = ValueError.
Proof.
  unfold parse_date.
  destruct (strptime re_date text) as [dt|e'] eqn:H1; [congruence|].
  destruct e'; intros H; try (injection H as <-; now apply strptime_raise in H1).
  now apply strptime_raise in H.
Qed.

Lemma parse_date_valid (text : string) (dt : datetime) :
  parse_date text = Ok dt -> valid_datetime dt = true.
Proof.
  unfold parse_date.
  destruct (strptime re_date text) as [dt'|e'] eqn:H1.
  - intros [= <-]. now apply strptime_valid in H1.
  - destruct e'; try congruence. apply strptime_valid.
Qed.

Lemma lex_compare_antisym (a b : list Z) :
  lex_compare a b = CompOpp (lex_compare b a).
Proof.
  revert b. induction a as [|x a IH]; intros [|y b]; simpl; trivial.
  rewrite (Z.compare_antisym y x).
  destruct (y ?= x); simpl; auto.
Qed.

Lemma lex_compare_refl (a : list Z) : lex_compare a a = Eq.
Proof.
  induction a as [|x a IH]; simpl; trivial. now rewrite Z.compare_refl.
Qed.

Lemma datetime_leb_refl (a : datetime) : datetime_leb a a = true.
Proof. unfold datetime_leb. now rewrite lex_compare_refl. Qed.

Lemma datetime_leb_not_ltb (a b : datetime) :
  datetime_leb a b = true -> datetime_ltb b a = false.
Proof.
  unfold datetime_leb, datetime_ltb.
  rewrite (lex_compare_antisym (datetime_key b)).
  destruct (lex_compare (datetime_key a) (datetime_key b)); simpl; congruence.
Qed.

(** ** The date filter *)

Lemma filter_loop_parsed (start end_ : datetime) (rows acc : list row) :
  Forall parses rows ->
  filter_loop start end_ rows acc
  = Ok (acc ++ filter (in_window start end_) rows)%list.
Proof.
  intros H. revert acc.
  induction H as [|r rows [dt Hr] _ IH]; intros acc; simpl.
  - now rewrite app_nil_r.
  - unfold in_window at 1. rewrite Hr. simpl. rewrite IH.
    destruct (datetime_leb start dt && datetime_leb dt end_); trivial.
    now rewrite <- app_assoc.
Qed.

Lemma filter_loop_unparsed (start end_ : datetime) (rows acc : list row) :
  Exists (fun r => ~ parses r) rows ->
  filter_loop start end_ rows acc = Raise ValueError.
Proof.
  intros H. revert acc.
  induction rows as [|r rows IH]; intros acc; [inversion H|].
  simpl. destruct (parse_date (date r)) as [dt|e] eqn:Hr; simpl.
  - apply IH. inversion H as [? ? Hn|]; subst; trivial.
    exfalso. apply Hn. now exists dt.
  - now rewrite (parse_date_raise _ _ Hr).
Qed.

(** With bounds that parse and are in order, and rows whose dates parse, the
    filter keeps the rows that pass the test of the loop, sorted by date
    string, and raises [NoDataAvailableError] when none passes. *)
Lemma filter_by_date_parsed
    (rows : list row) (start_date end_date : string) (start end_ : datetime) :
  parse_date start_date = Ok start ->
  parse_date end_date = Ok end_ ->
  datetime_leb start end_ = true ->
  Forall parses rows ->
  filter_by_date rows start_date end_date =
  match filter (in_window start end_) rows with
  | [] => Raise NoDataAvailableError
  | kept => Ok (sort_by date kept)
  end.
Proof.
  intros Hs He Hle Hrows. unfold filter_by_date.
  rewrite Hs, He. simpl.
  rewrite (datetime_leb_not_ltb _ _ Hle), (filter_loop_parsed _ _ _ _ Hrows).
  simpl. now destruct (filter (in_window start end_) rows).
Qed.

(** The output of the filter is sorted by date string and holds the rows
    of the input that pass the test of the loop. *)
Lemma filter_by_date_sorted
    (rows out : list row) (start_date end_date : string) :
  filter_by_date rows start_date end_date = Ok out ->
  Sorted by_date out /\
  exists start end_,
    parse_date start_date = Ok start /\ parse_date end_date = Ok end_ /\
    Permutation out (filter (in_window start end_) rows).
Proof.
  unfold filter_by_date. intros H.
  destruct (parse_date start_date) as [start|e] eqn:Hs;
    [|destruct e; discriminate].
  destruct (parse_date end_date) as [end_|e] eqn:He;
    [|destruct e; discriminate].
  simpl in H. destruct (datetime_ltb end_ start); [discriminate|].
  destruct (filter_loop start end_ rows []) as [kept|e] eqn:Hl;
    [|discriminate].
  assert (Hp : Forall parses rows).
  { apply Forall_forall. intros r Hr.
    destruct (parse_date (date r)) as [dt|e] eqn:Hd; [now exists dt|].
    rewrite filter_loop_unparsed in Hl; [discriminate|].
    apply Exists_exists. exists r. split; trivial.
    intros [dt Hdt]. congruence. }
  rewrite (filter_loop_parsed _ _ _ _ Hp) in Hl. injection Hl as <-.
  simpl in H. destruct (filter (in_window start end_) rows) as [|r l] eqn:Hf;
    [discriminate|].
  injection H as <-. split.
  - apply (sort_by_sorted date (r :: l)).
  - exists start, end_. repeat split; trivial.
    rewrite Hf. apply (sort_by_perm date (r :: l)).
Qed.

(** The order of date-times: by the day first, then by the time of day. *)
Lemma datetime_leb_day_time (a b : datetime) :
  datetime_leb a b =
  match lex_compare [year a; month a; day a] [year b; month b; day b] with
  | Lt => true
  | Gt => false
  | Eq =>
      match lex_compare [hour a; minute a; second a]
                        [hour b; minute b; second b] with
      | Gt => false
      | _ => true
      end
  end.
Proof.
  unfold datetime_leb, datetime_key. cbn [lex_compare].
  destruct (year a ?= year b); trivial.
  destruct (month a ?= month b); trivial.
  destruct (day a ?= day b); trivial.
Qed.

Lemma midnight_first (h m s : Z) :
  0 <= h -> 0 <= m -> 0 <= s ->
  match lex_compare [0; 0; 0] [h; m; s] with Gt => false | _ => true end = true.
Proof.
  intros Hh Hm Hs. cbn [lex_compare].
  destruct (Z.compare_spec 0 h); trivial; try lia.
  destruct (Z.compare_spec 0 m); trivial; try lia.
  destruct (Z.compare_spec 0 s); trivial; lia.
Qed.

Lemma midnight_only (h m s : Z) :
  0 <= h -> 0 <= m -> 0 <= s ->
  match lex_compare [h; m; s] [0; 0; 0] with Gt => false | _ => true end
  = (h =? 0) && (m =? 0) && (s =? 0).
Proof.
  intros Hh Hm Hs. cbn [lex_compare].
  destruct (Z.compare_spec h 0), (Z.compare_spec m 0), (Z.compare_spec s 0);
    lia.
Qed.

(** With bounds at midnight, the test of the loop keeps a date-time when its
    day is in the closed interval of the days of the bounds, except that on
    the day of the upper bound only midnight is kept. *)
Lemma window_test_midnight_bounds (start end_ d : datetime) :
  hour start = 0 -> minute start = 0 -> second start = 0 ->
  hour end_ = 0 -> minute end_ = 0 -> second end_ = 0 ->
  0 <= hour d -> 0 <= minute d -> 0 <= second d ->
  datetime_leb start d && datetime_leb d end_ =
  date_leb start d && date_leb d end_ &&
  (negb (date_leb end_ d) ||
   (hour d =? 0) && (minute d =? 0) && (second d =? 0)).
Proof.
  intros Hs0 Hs1 Hs2 He0 He1 He2 Hh Hm Hsec.
  rewrite !datetime_leb_day_time, Hs0, Hs1, Hs2, He0, He1, He2.
  rewrite midnight_first, midnight_only by trivial.
  unfold date_leb.
  rewrite (lex_compare_antisym [year end_; month end_; day end_]).
  destruct (lex_compare [year start; month start; day start] _);
    destruct (lex_compare [year d; month d; day d] _); reflexivity.
Qed.

(** ** Where [NoDataAvailableError] is raised *)

Lemma rows_of_response_empty
    (float_of_str : string -> option Q) (data : dict json) (key : string) :
  time_series_key data = Some key ->
  dict_get key data = Some (JObj []) ->
  rows_of_response float_of_str data = Raise NoDataAvailableError.
Proof.
  intros Hk Hv. unfold rows_of_response, extract_time_series_from_response.
  now rewrite Hk, Hv.
Qed.

(** C1, as stated in the specification, fails: a response whose time series
    has no entries makes the fetch itself raise [NoDataAvailableError]. *)
Lemma empty_payload_fetch_fails :
  fetch_stock_rows_from_alpha_vantage (env_with_key "demo")
    (provider_returns [("Time Series (Daily)", JObj [])]) (fun _ => None)
    "IBM" "daily" None "full" "60min" = Raise NoDataAvailableError /\
  ~ (exists rows,
        fetch_stock_rows_from_alpha_vantage (env_with_key "demo")
          (provider_returns [("Time Series (Daily)", JObj [])]) (fun _ => None)
          "IBM" "daily" None "full" "60min" = Ok rows).
Proof.
  split; [reflexivity|]. intros [rows H]. discriminate H.
Qed.

(** C1, amended. When the response has a time series without entries, the
    fetch raises [NoDataAvailableError], and so does each pipeline entry
    point, before the filter is reached.  The filter raises the same exception
    when bounds and rows parse, the bounds are in order, and no row passes the
    test of the window. *)
Theorem empty_payload_raises_no_data_in_fetch
    (getenv : string -> option string)
    (requests_get : request -> http_outcome)
    (float_of_str : string -> option Q)
    (symbol period start_date end_date chart_type : string)
    (api_key : option string) (intraday_interval k : string)
    (data : dict json) (key : string) :
  str_truthy (strip symbol) = true ->
  getenv "ALPHA_VANTAGE_API_KEY" = Some k ->
  str_truthy k = true ->
  requests_get (provider_request symbol period "full" intraday_interval k)
    = Body data ->
  time_series_key data = Some key ->
  dict_get key data = Some (JObj []) ->
  fetch_stock_rows_from_alpha_vantage getenv requests_get float_of_str
    symbol period api_key "full" intraday_interval
    = Raise NoDataAvailableError /\
  generate_chart_for_web getenv requests_get float_of_str symbol period
    start_date end_date chart_type api_key intraday_interval
    = Raise NoDataAvailableError /\
  generate_chart_from_api getenv requests_get float_of_str symbol period
    start_date end_date chart_type api_key intraday_interval
    = Raise NoDataAvailableError /\
  (forall rows start end_,
      parse_date start_date = Ok start ->
      parse_date end_date = Ok end_ ->
      datetime_leb start end_ = true ->
      Forall parses rows ->
      filter (in_window start end_) rows = [] ->
      filter_by_date rows start_date end_date = Raise NoDataAvailableError).
Proof.
  intros Hs Hk Hk' Hreq Hkey Hval.
  assert (Hfetch :
    fetch_stock_rows_from_alpha_vantage getenv requests_get float_of_str
      symbol period api_key "full" intraday_interval
    = Raise NoDataAvailableError).
  { rewrite (fetch_sends_request _ _ _ _ _ _ _ _ k Hs Hk Hk'), Hreq.
    now apply rows_of_response_empty with key. }
  repeat split; trivial.
  - unfold generate_chart_for_web. now rewrite Hfetch.
  - unfold generate_chart_from_api. now rewrite Hfetch.
  - intros rows start end_ H1 H2 H3 H4 H5.
    rewrite (filter_by_date_parsed rows _ _ start end_); trivial.
    now rewrite H5.
Qed.

Lemma empty_payload_raises_no_data_in_fetch_witness :
  generate_chart_for_web (env_with_key "demo")
    (provider_returns [("Meta Data", JObj []); ("Time Series (Daily)", JObj [])])
    (fun _ => None) "ibm" "daily" "2024-01-01" "2024-01-31" "line" None "60min"
  = Raise NoDataAvailableError.
Proof.
  apply (empty_payload_raises_no_data_in_fetch
           (env_with_key "demo")
           (provider_returns
              [("Meta Data", JObj []); ("Time Series (Daily)", JObj [])])
           (fun _ => None) "ibm" "daily" "2024-01-01" "2024-01-31" "line"
           None "60min" "demo"
           [("Meta Data", JObj []); ("Time Series (Daily)", JObj [])]
           "Time Series (Daily)");
    reflexivity.
Defined.

(** ** The end of the window *)

(** C2. The filter compares date-times, and a bound without a time of day
    is midnight: a row dated on the end date at 10:00:00 is dropped, alone
    (the filter raises [NoDataAvailableError]) or among rows that are kept,
    while the row at midnight of the end date is kept. *)
Theorem filter_drops_rows_later_on_end_date :
  filter_by_date [mk_row "2024-01-02 10:00:00" 3 5 2 4]
    "2024-01-01" "2024-01-02" = Raise NoDataAvailableError /\
  filter_by_date
    [mk_row "2024-01-02 10:00:00" 3 5 2 4;
     mk_row "2024-01-02 00:00:00" 2 4 1 3;
     mk_row "2024-01-01 10:00:00" 1 2 0 1]
    "2024-01-01" "2024-01-02" =
  Ok [mk_row "2024-01-01 10:00:00" 1 2 0 1;
      mk_row "2024-01-02 00:00:00" 2 4 1 3].
Proof. split; reflexivity. Qed.

(** ** Dictionaries in insertion order *)

Lemma dict_get_app_last {V : Type} (k k' : string) (v : V) (g : dict V) :
  dict_get k (g ++ [(k', v)])%list =
  match dict_get k g with
  | Some x => Some x
  | None => if String.eqb k' k then Some v else None
  end.
Proof.
  induction g as [|[k0 v0] g IH]; simpl; [reflexivity|].
  destruct (String.eqb k0 k); auto.
Qed.

Lemma dict_set_fresh {V : Type} (k : string) (v : V) (g : dict V) :
  dict_get k g = None -> dict_set k v g = (g ++ [(k, v)])%list.
Proof.
  induction g as [|[k0 v0] g IH]; simpl; [reflexivity|].
  destruct (String.eqb k0 k); [discriminate|].
  intros H. now rewrite IH.
Qed.

Lemma dict_append_last {V : Type} (k : string) (x : V) (l : list V)
    (g : dict (list V)) :
  dict_get k g = None ->
  dict_append k x (g ++ [(k, l)])%list = Some (g ++ [(k, l ++ [x])])%list.
Proof.
  induction g as [|[k0 v0] g IH]; simpl.
  - now rewrite String.eqb_refl.
  - destruct (String.eqb k0 k); [discriminate|].
    intros H. now rewrite IH.
Qed.

(** ** Resolutions that are not recognized *)

Lemma group_label_other (period : string) (r : row) :
  String.eqb period "weekly" = false ->
  String.eqb period "monthly" = false ->
  parses r ->
  group_label period r = Ok (date r).
Proof.
  intros Hw Hm [dt Hr]. unfold group_label. now rewrite Hr, Hw, Hm.
Qed.

Lemma group_loop_distinct_dates (period : string) (rows : list row)
    (g : dict (list row)) :
  String.eqb period "weekly" = false ->
  String.eqb period "monthly" = false ->
  Forall parses rows ->
  NoDup (map date rows) ->
  (forall r, In r rows -> dict_get (date r) g = None) ->
  group_loop period rows g
  = Ok (g ++ map (fun r => (date r, [r])) rows)%list.
Proof.
  intros Hw Hm Hp. revert g.
  induction Hp as [|r rows Hr _ IH]; intros g Hnd Hfresh; simpl.
  - now rewrite app_nil_r.
  - rewrite (group_label_other _ _ Hw Hm Hr). simpl.
    assert (Hg : dict_get (date r) g = None) by (apply Hfresh; now left).
    unfold dict_mem. rewrite Hg, (dict_set_fresh _ _ _ Hg).
    rewrite (dict_append_last _ _ _ _ Hg). simpl.
    inversion Hnd as [|? ? Hnotin Hnd']; subst.
    rewrite IH; trivial.
    + now rewrite <- app_assoc.
    + intros r' Hr'. rewrite dict_get_app_last, Hfresh by now right.
      destruct (String.eqb (date r) (date r')) eqn:He; trivial.
      apply String.eqb_eq in He. exfalso. apply Hnotin. rewrite He.
      now apply in_map.
Qed.

Lemma combine_singleton (r : row) : combine (date r) [r] = Ok r.
Proof. now destruct r. Qed.

Lemma combine_loop_singletons (rows acc : list row) :
  combine_loop (map (fun r => (date r, [r])) rows) acc = Ok (acc ++ rows)%list.
Proof.
  revert acc. induction rows as [|r rows IH]; intros acc; cbn [map combine_loop].
  - now rewrite app_nil_r.
  - rewrite combine_singleton. cbn [bind]. rewrite IH.
    now rewrite <- app_assoc.
Qed.

Lemma alpha_function_default (period intraday_interval : string) :
  String.eqb (lower period) "intraday" = false ->
  String.eqb (lower period) "weekly" = false ->
  String.eqb (lower period) "monthly" = false ->
  alpha_function_for_period period intraday_interval
  = ("TIME_SERIES_DAILY", []).
Proof.
  intros Hi Hw Hm. unfold alpha_function_for_period.
  rewrite Hi, Hw, Hm. now destruct (String.eqb (lower period) "daily").
Qed.

(** C5, as stated in the specification, fails.  "Weekly" is none of the four
    names, and the provider function chosen for it is the weekly one; and
    with the unrecognized resolution "hourly" two rows of one date are merged
    and a row whose date does not parse raises [ValueError], while "daily"
    returns the rows in both cases. *)
Lemma unrecognized_resolution_differs_from_daily :
  recognized "Weekly" = false /\
  alpha_function_for_period "Weekly" "60min" = ("TIME_SERIES_WEEKLY", []) /\
  alpha_function_for_period "daily" "60min" = ("TIME_SERIES_DAILY", []) /\
  recognized "hourly" = false /\
  group_by_period
    [mk_row "2024-01-02" 1 2 0 1; mk_row "2024-01-02" 3 5 2 4] "hourly"
  = Ok [mk_row "2024-01-02" 1 5 0 4] /\
  group_by_period
    [mk_row "2024-01-02" 1 2 0 1; mk_row "2024-01-02" 3 5 2 4] "daily"
  = Ok [mk_row "2024-01-02" 1 2 0 1; mk_row "2024-01-02" 3 5 2 4] /\
  group_by_period [mk_row "2024-02-30" 1 2 0 1] "hourly" = Raise ValueError /\
  group_by_period [mk_row "2024-02-30" 1 2 0 1] "daily"
  = Ok [mk_row "2024-02-30" 1 2 0 1].
Proof. repeat split. Qed.

(** C5, amended.  For a resolution whose lower-case form is not "intraday",
    "weekly" or "monthly", the provider function is the daily one and the
    fetch is the fetch for "daily".  For a resolution that is none of the four
    names, and rows whose dates parse and are pairwise distinct, the
    aggregation returns what it returns for "daily": the rows sorted by
    date. *)
Theorem unrecognized_resolution_defaults_to_daily
    (getenv : string -> option string)
    (requests_get : request -> http_outcome)
    (float_of_str : string -> option Q)
    (symbol period : string) (api_key : option string)
    (outputsize intraday_interval : string) (rows : list row) :
  (String.eqb (lower period) "intraday" = false ->
   String.eqb (lower period) "weekly" = false ->
   String.eqb (lower period) "monthly" = false ->
   alpha_function_for_period period intraday_interval
   = ("TIME_SERIES_DAILY", []) /\
   fetch_stock_rows_from_alpha_vantage getenv requests_get float_of_str
     symbol period api_key outputsize intraday_interval =
   fetch_stock_rows_from_alpha_vantage getenv requests_get float_of_str
     symbol "daily" api_key outputsize intraday_interval) /\
  (recognized period = false ->
   Forall parses rows ->
   NoDup (map date rows) ->
   group_by_period rows period = group_by_period rows "daily" /\
   group_by_period rows period = Ok (sort_by date rows)).
Proof.
  split.
  - intros Hi Hw Hm.
    pose proof (alpha_function_default period intraday_interval Hi Hw Hm) as Hf.
    split; trivial.
    unfold fetch_stock_rows_from_alpha_vantage. now rewrite Hf.
  - unfold recognized. intros Hrec Hp Hnd.
    apply orb_false_elim in Hrec as [Hrec Hm].
    apply orb_false_elim in Hrec as [Hrec Hw].
    assert (Hgb : group_by_period rows period = Ok (sort_by date rows)).
    { unfold group_by_period. rewrite Hrec.
      rewrite (group_loop_distinct_dates period rows [] Hw Hm Hp Hnd)
        by reflexivity.
      simpl. now rewrite combine_loop_singletons. }
    split; trivial.
Qed.

Lemma unrecognized_resolution_defaults_to_daily_witness :
  alpha_function_for_period "DAILY" "60min" = ("TIME_SERIES_DAILY", []) /\
  group_by_period
    [mk_row "2024-01-03" 3 5 2 4; mk_row "2024-01-02" 1 2 0 1] "hourly"
  = Ok (sort_by date
          [mk_row "2024-01-03" 3 5 2 4; mk_row "2024-01-02" 1 2 0 1]).
Proof.
  pose proof (unrecognized_resolution_defaults_to_daily
                (env_with_key "demo") (provider_returns []) (fun _ => None)
                "IBM" "DAILY" None "full" "60min" []) as [Hfetch _].
  pose proof (unrecognized_resolution_defaults_to_daily
                (env_with_key "demo") (provider_returns []) (fun _ => None)
                "IBM" "hourly" None "full" "60min"
                [mk_row "2024-01-03" 3 5 2 4; mk_row "2024-01-02" 1 2 0 1])
    as [_ Hgroup].
  split.
  - apply Hfetch; reflexivity.
  - apply Hgroup.
    + reflexivity.
    + repeat constructor; eexists; reflexivity.
    + repeat constructor; simpl; intuition discriminate.
Defined.

(** ** [max] and [min] *)

Lemma Qltb_true (a b : Q) : Qltb a b = true -> (a < b)%Q.
Proof.
  unfold Qltb. intros H. apply negb_true_iff in H.
  apply Qnot_le_lt. intros Hle. apply Qle_bool_iff in Hle. congruence.
Qed.

Lemma Qltb_false (a b : Q) : Qltb a b = false -> (b <= a)%Q.
Proof.
  unfold Qltb. intros H. apply negb_false_iff in H. now apply Qle_bool_iff.
Qed.

Lemma py_max_spec (others : list Q) (first : Q) :
  is_max (py_max first others) (first :: others).
Proof.
  unfold py_max. revert first.
  induction others as [|x l IH]; intros a; simpl.
  - split; [now left|]. constructor; [apply Qle_refl|constructor].
  - destruct (IH (if Qltb a x then x else a)) as [Hin Hall].
    inversion Hall as [|? ? Hhd Htl]; subst.
    split.
    + destruct Hin as [Hin|Hin]; [|now right; right].
      rewrite <- Hin. destruct (Qltb a x); [right; now left|now left].
    + destruct (Qltb a x) eqn:Hlt.
      * constructor; [|now constructor].
        apply Qle_trans with x; trivial.
        now apply Qlt_le_weak, Qltb_true.
      * constructor; [trivial|constructor; trivial].
        apply Qle_trans with a; trivial. now apply Qltb_false.
Qed.

Lemma py_min_spec (others : list Q) (first : Q) :
  is_min (py_min first others) (first :: others).
Proof.
  unfold py_min. revert first.
  induction others as [|x l IH]; intros a; simpl.
  - split; [now left|]. constructor; [apply Qle_refl|constructor].
  - destruct (IH (if Qltb x a then x else a)) as [Hin Hall].
    inversion Hall as [|? ? Hhd Htl]; subst.
    split.
    + destruct Hin as [Hin|Hin]; [|now right; right].
      rewrite <- Hin. destruct (Qltb x a); [right; now left|now left].
    + destruct (Qltb x a) eqn:Hlt.
      * constructor; [|now constructor].
        apply Qle_trans with x; trivial.
        now apply Qlt_le_weak, Qltb_true.
      * constructor; [trivial|constructor; trivial].
        apply Qle_trans with a; trivial. now apply Qltb_false.
Qed.

(** ** Grouping *)

Lemma dict_get_set {V : Type} (k k' : string) (v : V) (g : dict V) :
  dict_get k' (dict_set k v g) =
  if String.eqb k k' then Some v else dict_get k' g.
Proof.
  induction g as [|[k0 v0] g IH]; simpl.
  - reflexivity.
  - destruct (String.eqb k0 k) eqn:H0; simpl.
    + apply String.eqb_eq in H0. subst k0.
      now destruct (String.eqb k k').
    + rewrite IH. destruct (String.eqb k0 k') eqn:H1; trivial.
      apply String.eqb_eq in H1. subst k0. now rewrite String.eqb_sym, H0.
Qed.

Lemma dict_get_append {V : Type} (k k' : string) (x : V)
    (g g' : dict (list V)) :
  dict_append k x g = Some g' ->
  dict_get k' g' =
  if String.eqb k k'
  then option_map (fun l => l ++ [x])%list (dict_get k g)
  else dict_get k' g.
Proof.
  revert g'. induction g as [|[k0 v0] g IH]; intros g'; simpl; [discriminate|].
  destruct (String.eqb k0 k) eqn:H0.
  - intros [= <-]. simpl. apply String.eqb_eq in H0. subst k0.
    now destruct (String.eqb k k').
  - destruct (dict_append k x g) as [rest|]; [|discriminate].
    intros [= <-]. simpl. rewrite (IH rest eq_refl).
    destruct (String.eqb k0 k') eqn:H1; trivial.
    apply String.eqb_eq in H1. subst k0. now rewrite String.eqb_sym, H0.
Qed.

Lemma dict_append_defined {V : Type} (k : string) (x : V) (g : dict (list V)) :
  dict_mem k g = true -> exists g', dict_append k x g = Some g'.
Proof.
  unfold dict_mem.
  induction g as [|[k0 v0] g IH]; simpl; [discriminate|].
  destruct (String.eqb k0 k); [eauto|].
  intros H. destruct (IH H) as [g' ->]. eauto.
Qed.

Lemma dict_keys_set {V : Type} (k : string) (v : V) (g : dict V) :
  map fst (dict_set k v g) =
  if dict_mem k g then map fst g else (map fst g ++ [k])%list.
Proof.
  unfold dict_mem.
  induction g as [|[k0 v0] g IH]; simpl; [reflexivity|].
  destruct (String.eqb k0 k); simpl; [reflexivity|].
  rewrite IH. now destruct (dict_get k g).
Qed.

Lemma dict_keys_append {V : Type} (k : string) (x : V) (g g' : dict (list V)) :
  dict_append k x g = Some g' -> map fst g' = map fst g.
Proof.
  revert g'. induction g as [|[k0 v0] g IH]; intros g'; simpl; [discriminate|].
  destruct (String.eqb k0 k).
  - now intros [= <-].
  - destruct (dict_append k x g) as [rest|]; [|discriminate].
    intros [= <-]. simpl. now rewrite (IH rest).
Qed.

Lemma dict_get_in {V : Type} (k : string) (v : V) (g : dict V) :
  NoDup (map fst g) -> In (k, v) g -> dict_get k g = Some v.
Proof.
  induction g as [|[k0 v0] g IH]; simpl; [contradiction|].
  intros Hnd [H|H].
  - injection H as -> ->. now rewrite String.eqb_refl.
  - inversion Hnd as [|? ? Hnotin Hnd']; subst.
    destruct (String.eqb k0 k) eqn:H0; [|auto].
    apply String.eqb_eq in H0. subst k0. exfalso. apply Hnotin.
    change k with (fst (k, v)). now apply in_map.
Qed.

Lemma dict_get_none_not_in {V : Type} (k : string) (g : dict V) :
  dict_get k g = None -> ~ In k (map fst g).
Proof.
  induction g as [|[k0 v0] g IH]; simpl; [tauto|].
  destruct (String.eqb k0 k) eqn:H0; [discriminate|].
  apply String.eqb_neq in H0. intros H [Hk|Hk]; [congruence|now apply IH].
Qed.

Lemma members_cons (period label : string) (r : row) (rows : list row) :
  members period (r :: rows) label =
  if has_label period label r then r :: members period rows label
  else members period rows label.
Proof. reflexivity. Qed.

(** After the first loop, the list stored for a label is what was there
    before followed by the members of the bucket, in the order of the
    input. *)
Lemma group_loop_get (period : string) (rows : list row)
    (g g' : dict (list row)) :
  group_loop period rows g = Ok g' ->
  forall label,
    dict_get label g' =
    match dict_get label g with
    | Some l => Some (l ++ members period rows label)%list
    | None =>
        match members period rows label with
        | [] => None
        | ms => Some ms
        end
    end.
Proof.
  revert g. induction rows as [|r rows IH]; intros g; cbn [group_loop].
  - intros [= <-] label. destruct (dict_get label g); trivial.
    now rewrite app_nil_r.
  - destruct (group_label period r) as [lab|e] eqn:Hlab; [|discriminate].
    cbn [bind].
    destruct (dict_append lab r _) as [g2|] eqn:Happ; [|discriminate].
    intros Hloop label. rewrite (IH g2 Hloop label).
    rewrite (dict_get_append _ label _ _ _ Happ).
    rewrite members_cons. unfold has_label. rewrite Hlab.
    destruct (String.eqb lab label) eqn:Heq.
    + apply String.eqb_eq in Heq. subst label.
      unfold dict_mem. destruct (dict_get lab g) as [l|] eqn:Hg; simpl.
      * rewrite Hg. simpl. now rewrite <- app_assoc.
      * now rewrite dict_get_set, String.eqb_refl.
    + unfold dict_mem. destruct (dict_get lab g) as [l|] eqn:Hg; trivial.
      now rewrite dict_get_set, Heq.
Qed.

Lemma group_loop_keys (period : string) (rows : list row)
    (g g' : dict (list row)) :
  group_loop period rows g = Ok g' ->
  NoDup (map fst g) -> NoDup (map fst g').
Proof.
  revert g. induction rows as [|r rows IH]; intros g; simpl.
  - now intros [= <-].
  - destruct (group_label period r) as [lab|e]; [|discriminate]. simpl.
    destruct (dict_append lab r _) as [g2|] eqn:Happ; [|discriminate].
    intros Hloop Hnd. apply (IH g2 Hloop).
    rewrite (dict_keys_append _ _ _ _ Happ).
    unfold dict_mem in *. destruct (dict_get lab g) eqn:Hg; trivial.
    rewrite dict_keys_set. unfold dict_mem. rewrite Hg.
    apply NoDup_app; [trivial|repeat constructor; simpl; tauto|].
    intros k Hk [<-|[]]. now apply (dict_get_none_not_in lab g).
Qed.

(** The first loop succeeds when every row gets a label. *)
Lemma group_loop_defined (period : string) (rows : list row)
    (g : dict (list row)) :
  Forall (fun r => exists l, group_label period r = Ok l) rows ->
  exists g', group_loop period rows g = Ok g'.
Proof.
  intros H. revert g.
  induction H as [|r rows [lab Hlab] _ IH]; intros g; simpl; [eauto|].
  rewrite Hlab. simpl.
  destruct (dict_append_defined lab r
              (if dict_mem lab g then g else dict_set lab [] g)) as [g2 ->].
  - destruct (dict_mem lab g) eqn:Hm; trivial.
    unfold dict_mem. now rewrite dict_get_set, String.eqb_refl.
  - apply IH.
Qed.

(** The first loop fails only on a row without a label. *)
Lemma group_loop_labels (period : string) (rows : list row)
    (g g' : dict (list row)) :
  group_loop period rows g = Ok g' ->
  Forall (fun r => exists l, group_label period r = Ok l) rows.
Proof.
  revert g. induction rows as [|r rows IH]; intros g; simpl; [constructor|].
  destruct (group_label period r) as [lab|e] eqn:Hlab; [|discriminate]. simpl.
  destruct (dict_append lab r _) as [g2|]; [|discriminate].
  intros Hloop. constructor; eauto.
Qed.

(** ** Summaries of the groups *)

Lemma last_in {A : Type} (x : A) (l : list A) (d : A) : In (last (x :: l) d) (x :: l).
Proof.
  revert x. induction l as [|y l IH]; intros x; [now left|].
  right. apply IH.
Qed.

Lemma Forall2_in_right {A B : Type} (R : A -> B -> Prop) (l1 : list A)
    (l2 : list B) (y : B) :
  Forall2 R l1 l2 -> In y l2 -> exists x, In x l1 /\ R x y.
Proof.
  induction 1 as [|a b l1 l2 Hab _ IH]; intros Hy; [contradiction|].
  destruct Hy as [<-|Hy].
  - exists a. split; [now left|trivial].
  - destruct (IH Hy) as [x [Hx Hr]]. exists x. split; [now right|trivial].
Qed.

Lemma Forall2_in_left {A B : Type} (R : A -> B -> Prop) (l1 : list A)
    (l2 : list B) (x : A) :
  Forall2 R l1 l2 -> In x l1 -> exists y, In y l2 /\ R x y.
Proof.
  induction 1 as [|a b l1 l2 Hab _ IH]; intros Hx; [contradiction|].
  destruct Hx as [<-|Hx].
  - exists b. split; [now left|trivial].
  - destruct (IH Hx) as [y [Hy Hr]]. exists y. split; [now right|trivial].
Qed.

Lemma dict_get_some_in {V : Type} (k : string) (v : V) (g : dict V) :
  dict_get k g = Some v -> In (k, v) g.
Proof.
  induction g as [|[k0 v0] g IH]; simpl; [discriminate|].
  destruct (String.eqb k0 k) eqn:H0.
  - apply String.eqb_eq in H0. subst k0. intros [= <-]. now left.
  - intros H. right. now apply IH.
Qed.

(** What [combine] returns: the label, the open of the first and the close
    of the last row of the sorted group, the greatest high and the least
    low. *)
Lemma combine_inv (label : string) (rows_in_group : list row) (s : row) :
  combine label rows_in_group = Ok s ->
  exists first others,
    sort_by date rows_in_group = first :: others /\
    date s = label /\
    open s = open first /\
    close s = close (last (first :: others) first) /\
    is_max (high s) (map high (first :: others)) /\
    is_min (low s) (map low (first :: others)).
Proof.
  unfold combine.
  destruct (sort_by date rows_in_group) as [|first others]; [discriminate|].
  intros [= <-]. exists first, others. cbn [date open close high low].
  repeat split; try apply py_max_spec; apply py_min_spec.
Qed.

Lemma combine_defined (label : string) (rows_in_group : list row) :
  rows_in_group <> [] -> exists s, combine label rows_in_group = Ok s.
Proof.
  intros Hne. unfold combine.
  destruct (sort_by date rows_in_group) as [|first others] eqn:Hs; [|eauto].
  now apply sort_by_nil_inv in Hs.
Qed.

Lemma combine_loop_inv (g : dict (list row)) (acc out : list row) :
  combine_loop g acc = Ok out ->
  exists summaries,
    out = (acc ++ summaries)%list /\
    Forall2 (fun e s => combine (fst e) (snd e) = Ok s) g summaries.
Proof.
  revert acc. induction g as [|[label l] g IH]; intros acc; cbn [combine_loop].
  - intros [= <-]. exists []. split; [now rewrite app_nil_r|constructor].
  - destruct (combine label l) as [s|e] eqn:Hc; [|discriminate]. cbn [bind].
    intros H. destruct (IH _ H) as [ss [-> Hall]].
    exists (s :: ss). split; [now rewrite <- app_assoc|].
    now constructor.
Qed.

Lemma combine_loop_defined (g : dict (list row)) (acc : list row) :
  Forall (fun e => snd e <> []) g -> exists out, combine_loop g acc = Ok out.
Proof.
  intros H. revert acc.
  induction H as [|[label l] g Hne _ IH]; intros acc; cbn [combine_loop];
    [eauto|].
  destruct (combine_defined label l Hne) as [s ->]. cbn [bind]. apply IH.
Qed.

Lemma members_in (period label : string) (rows : list row) (r : row) :
  In r (members period rows label) -> In r rows /\ group_label period r = Ok label.
Proof.
  unfold members. rewrite filter_In. intros [Hin Hl]. split; trivial.
  unfold has_label in Hl. destruct (group_label period r); [|discriminate].
  apply String.eqb_eq in Hl. now subst.
Qed.

Lemma in_members (period label : string) (rows : list row) (r : row) :
  In r rows -> group_label period r = Ok label ->
  In r (members period rows label).
Proof.
  intros Hin Hl. unfold members. rewrite filter_In. split; trivial.
  unfold has_label. rewrite Hl. apply String.eqb_refl.
Qed.

(** The groups made by the two loops: every summary stands for the bucket of
    its label, the labels of the summaries are pairwise distinct, and the
    bucket of every row has a summary. *)
Lemma grouped_rows_inv (period : string) (rows : list row)
    (g : dict (list row)) (out : list row) :
  group_loop period rows [] = Ok g ->
  combine_loop g [] = Ok out ->
  (forall s, In s out -> combine (date s) (members period rows (date s)) = Ok s) /\
  NoDup (map date out) /\
  (forall r, In r rows ->
             exists s, In s out /\ group_label period r = Ok (date s)).
Proof.
  intros Hg Hc.
  pose proof (group_loop_get _ _ _ _ Hg) as Hget.
  pose proof (group_loop_keys _ _ _ _ Hg (NoDup_nil _)) as Hnd.
  destruct (combine_loop_inv _ _ _ Hc) as [ss [-> Hall]]. simpl.
  assert (Hentry : forall label l, In (label, l) g ->
                                   l = members period rows label).
  { intros label l Hin. apply (dict_get_in _ _ _ Hnd) in Hin.
    rewrite Hget in Hin. simpl in Hin.
    destruct (members period rows label); congruence. }
  assert (Hdates : map date ss = map fst g).
  { clear -Hall. induction Hall as [|[label l] s g ss Hs _ IH]; simpl; trivial.
    destruct (combine_inv _ _ _ Hs) as (f & o & _ & Hd & _).
    simpl in Hd. now rewrite Hd, IH. }
  split; [|split].
  - intros s Hs.
    destruct (Forall2_in_right _ _ _ _ Hall Hs) as [[label l] [Hin Hcomb]].
    simpl in Hcomb.
    destruct (combine_inv _ _ _ Hcomb) as (f & o & _ & Hd & _).
    rewrite Hd, <- (Hentry _ _ Hin). exact Hcomb.
  - now rewrite Hdates.
  - intros r Hr.
    pose proof (group_loop_labels _ _ _ _ Hg) as Hlabs.
    rewrite Forall_forall in Hlabs. destruct (Hlabs r Hr) as [lab Hlab].
    pose proof (in_members _ _ _ _ Hr Hlab) as Hmem.
    specialize (Hget lab). simpl in Hget.
    destruct (members period rows lab) as [|m ms] eqn:Hms; [contradiction|].
    apply dict_get_some_in in Hget.
    destruct (Forall2_in_left _ _ _ _ Hall Hget) as [s [Hs Hcomb]].
    simpl in Hcomb.
    destruct (combine_inv _ _ _ Hcomb) as (f & o & _ & Hd & _).
    exists s. split; trivial. now rewrite Hd.
Qed.

(** The aggregation for a resolution other than "intraday" and "daily". *)
Lemma group_by_period_inv (period : string) (rows out : list row) :
  String.eqb period "intraday" || String.eqb period "daily" = false ->
  group_by_period rows period = Ok out ->
  (forall s, In s out -> combine (date s) (members period rows (date s)) = Ok s) /\
  NoDup (map date out) /\
  (forall r, In r rows ->
             exists s, In s out /\ group_label period r = Ok (date s)) /\
  Sorted by_date out.
Proof.
  intros Hp. unfold group_by_period. rewrite Hp.
  destruct (group_loop period rows []) as [g|e] eqn:Hg; [|discriminate].
  cbn [bind].
  destruct (combine_loop g []) as [out0|e] eqn:Hc; [|discriminate].
  cbn [bind]. intros [= <-].
  destruct (grouped_rows_inv _ _ _ _ Hg Hc) as (H1 & H2 & H3).
  split; [|split; [|split]].
  - intros s Hs. apply H1. now apply (proj1 (sort_by_in date out0 s)).
  - apply (Permutation_NoDup (l := map date out0)); trivial.
    apply Permutation_map. symmetry. apply sort_by_perm.
  - intros r Hr. destruct (H3 r Hr) as [s [Hs Hl]].
    exists s. split; trivial. now apply (proj2 (sort_by_in date out0 s)).
  - apply sort_by_sorted.
Qed.

Lemma group_loop_entries (period : string) (rows : list row)
    (g : dict (list row)) :
  group_loop period rows [] = Ok g ->
  Forall (fun e => snd e = members period rows (fst e) /\ snd e <> []) g.
Proof.
  intros Hg. apply Forall_forall. intros [label l] Hin. simpl.
  pose proof (group_loop_keys _ _ _ _ Hg (NoDup_nil _)) as Hnd.
  apply (dict_get_in _ _ _ Hnd) in Hin.
  rewrite (group_loop_get _ _ _ _ Hg) in Hin. simpl in Hin.
  destruct (members period rows label); [discriminate|].
  injection Hin as <-. split; [reflexivity|discriminate].
Qed.

(** The aggregation returns a result when the dates of all rows parse. *)
Lemma group_by_period_defined (period : string) (rows : list row) :
  Forall parses rows -> exists out, group_by_period rows period = Ok out.
Proof.
  intros Hp. unfold group_by_period.
  destruct (String.eqb period "intraday" || String.eqb period "daily");
    [eauto|].
  destruct (group_loop_defined period rows []) as [g Hg].
  { apply Forall_forall. intros r Hr. rewrite Forall_forall in Hp.
    destruct (Hp r Hr) as [dt Hdt]. unfold group_label. rewrite Hdt. simpl.
    destruct (String.eqb period "weekly"); [eauto|].
    destruct (String.eqb period "monthly"); eauto. }
  rewrite Hg. cbn [bind].
  destruct (combine_loop_defined g []) as [out0 ->]; [|cbn [bind]; eauto].
  eapply Forall_impl; [|apply (group_loop_entries _ _ _ Hg)].
  intros e [_ H]. exact H.
Qed.

(** ** The record invariant *)

Lemma combine_ohlc_ok (label : string) (rows_in_group : list row) (s : row) :
  Forall ohlc_ok rows_in_group ->
  combine label rows_in_group = Ok s ->
  ohlc_ok s.
Proof.
  intros Hall Hc.
  destruct (combine_inv _ _ _ Hc)
    as (first & others & Hsort & _ & Ho & Hcl & [Hhin Hhall] & [Hlin Hlall]).
  assert (Hmem : forall m, In m (first :: others) -> ohlc_ok m).
  { intros m Hm. rewrite <- Hsort in Hm. apply (proj1 (sort_by_in date _ _)) in Hm.
    rewrite Forall_forall in Hall. now apply Hall. }
  assert (Hhi : forall m, In m (first :: others) -> (high m <= high s)%Q).
  { intros m Hm. rewrite Forall_forall in Hhall. apply Hhall.
    now apply in_map. }
  assert (Hlo : forall m, In m (first :: others) -> (low s <= low m)%Q).
  { intros m Hm. rewrite Forall_forall in Hlall. apply Hlall.
    now apply in_map. }
  assert (Hf : In first (first :: others)) by now left.
  pose proof (last_in first others first) as Hl.
  apply in_map_iff in Hlin as [m [Hm Hmin]].
  destruct (Hmem _ Hf) as (F1 & F2 & F3 & F4 & F5).
  destruct (Hmem _ Hl) as (L1 & L2 & L3 & L4 & L5).
  destruct (Hmem _ Hmin) as (M1 & M2 & M3 & M4 & M5).
  unfold ohlc_ok. rewrite Ho, Hcl.
  repeat split.
  - eapply Qle_trans; [exact F1|now apply Hhi].
  - eapply Qle_trans; [exact L2|now apply Hhi].
  - rewrite <- Hm. eapply Qle_trans; [exact M3|now apply Hhi].
  - eapply Qle_trans; [now apply (Hlo first)|exact F4].
  - eapply Qle_trans; [now apply (Hlo _ Hl)|exact L5].
Qed.

(** C9. If every input row satisfies [high >= max(open, close, low)] and
    [low <= min(open, close, high)], so does every row the aggregation
    returns, for any resolution. *)
Theorem aggregation_preserves_ohlc_invariant
    (rows out : list row) (period : string) :
  Forall ohlc_ok rows ->
  group_by_period rows period = Ok out ->
  Forall ohlc_ok out.
Proof.
  intros Hall Hg.
  destruct (String.eqb period "intraday" || String.eqb period "daily") eqn:Hp.
  - unfold group_by_period in Hg. rewrite Hp in Hg. injection Hg as <-.
    apply Forall_forall. intros r Hr. apply (proj1 (sort_by_in date _ _)) in Hr.
    rewrite Forall_forall in Hall. now apply Hall.
  - destruct (group_by_period_inv _ _ _ Hp Hg) as [Hcomb _].
    apply Forall_forall. intros s Hs.
    apply (combine_ohlc_ok (date s) (members period rows (date s))).
    + apply Forall_forall. intros m Hm. apply members_in in Hm as [Hm _].
      rewrite Forall_forall in Hall. now apply Hall.
    + now apply Hcomb.
Qed.

Lemma aggregation_preserves_ohlc_invariant_witness :
  Forall ohlc_ok
    [mk_row "2025-W01" 1 5 0 4].
Proof.
  apply (aggregation_preserves_ohlc_invariant
           [mk_row "2025-01-02" 3 5 2 4; mk_row "2024-12-30" 1 2 0 1]
           [mk_row "2025-W01" 1 5 0 4] "weekly").
  - repeat constructor; simpl; discriminate.
  - reflexivity.
Defined.

(** ** Day numbers *)

Lemma days_before_year_step (y : Z) :
  days_before_year (y + 1) =
  days_before_year y + (if is_leap y then 366 else 365).
Proof.
  unfold days_before_year, is_leap.
  replace (y + 1 - 1) with y by lia.
  destruct (y mod 4 =? 0) eqn:H4; destruct (y mod 100 =? 0) eqn:H100;
    destruct (y mod 400 =? 0) eqn:H400; simpl;
    rewrite ?Z.eqb_eq, ?Z.eqb_neq in *;
    Z.div_mod_to_equations; lia.
Qed.

Lemma days_before_year_next (y : Z) :
  days_before_year y + 365 <= days_before_year (y + 1) <= days_before_year y + 366.
Proof. rewrite days_before_year_step. destruct (is_leap y); lia. Qed.

Lemma days_before_year_lt (y1 y2 : Z) :
  y1 < y2 -> days_before_year y1 + 365 <= days_before_year y2.
Proof.
  unfold days_before_year. intros H. Z.div_mod_to_equations. lia.
Qed.

Lemma days_before_year_le (y1 y2 : Z) :
  y1 <= y2 -> days_before_year y1 <= days_before_year y2.
Proof.
  intros H. destruct (Z.eq_dec y1 y2) as [->|Hne]; [lia|].
  pose proof (days_before_year_lt y1 y2). lia.
Qed.


Lemma valid_datetime_date (dt : datetime) :
  valid_datetime dt = true ->
  valid_date (year dt) (month dt) (day dt) /\
  0 <= hour dt <= 23 /\ 0 <= minute dt <= 59 /\ 0 <= second dt <= 59.
Proof.
  unfold valid_datetime, valid_date. intros H.
  repeat (apply andb_prop in H as [H ?]).
  rewrite ?Z.leb_le in *. lia.
Qed.

Lemma day_of_year_bounds (y m d : Z) :
  valid_date y m d ->
  1 <= days_before_month y m + d <= days_in_year y.
Proof.
  unfold valid_date, days_before_month, days_in_month, days_in_year.
  intros (_ & Hm & Hd).
  assert (Hcases : m = 1 \/ m = 2 \/ m = 3 \/ m = 4 \/ m = 5 \/ m = 6 \/
                   m = 7 \/ m = 8 \/ m = 9 \/ m = 10 \/ m = 11 \/ m = 12)
    by lia.
  destruct (is_leap y);
    repeat (destruct Hcases as [->|Hcases]); try subst m;
    cbn -[Z.add] in *; lia.
Qed.

Lemma toordinal_bounds (dt : datetime) :
  valid_datetime dt = true ->
  days_before_year (year dt) < toordinal dt <= days_before_year (year dt + 1).
Proof.
  intros H. apply valid_datetime_date in H as [H _].
  pose proof (day_of_year_bounds _ _ _ H) as Hd.
  unfold toordinal, ymd2ord. rewrite days_before_year_step.
  unfold days_in_year in Hd. lia.
Qed.

(** ** The ISO calendar *)

Lemma isoweek1monday_spec (y : Z) :
  let w := isoweek1monday y in
  weekday w = 0 /\
  days_before_year y - 2 <= w <= days_before_year y + 4.
Proof.
  unfold isoweek1monday, weekday, ymd2ord, days_before_month. simpl.
  generalize (days_before_year y). intros b.
  destruct (3 <? (b + 0 + 1 + 6) mod 7) eqn:H;
    rewrite ?Z.ltb_lt, ?Z.ltb_ge in H;
    Z.div_mod_to_equations; lia.
Qed.

(** [isocalendar] computes the ISO-8601 week date: the year is the one the
    Thursday of the week falls in, and the week number counts the Thursdays
    of that year up to this one. *)
Lemma isocalendar_iso_week_date (dt : datetime) :
  valid_datetime dt = true ->
  let '(iso_year, week, wday) := isocalendar dt in
  iso_week_date (toordinal dt) iso_year week wday /\
  1 <= week <= 53 /\
  year dt - 1 <= iso_year <= year dt + 1.
Proof.
  intros Hv. pose proof (toordinal_bounds dt Hv) as Hn.
  pose proof (days_before_year_next (year dt - 1)) as Hprev.
  pose proof (days_before_year_next (year dt)) as Hthis.
  pose proof (days_before_year_next (year dt + 1)) as Hnext.
  replace (year dt - 1 + 1) with (year dt) in Hprev by lia.
  pose proof (isoweek1monday_spec (year dt - 1)) as [Hm0 Hb0].
  pose proof (isoweek1monday_spec (year dt)) as [Hm1 Hb1].
  pose proof (isoweek1monday_spec (year dt + 1)) as [Hm2 Hb2].
  unfold isocalendar.
  destruct ((toordinal dt - isoweek1monday (year dt)) / 7 <? 0) eqn:Hneg;
    [|destruct (52 <=? (toordinal dt - isoweek1monday (year dt)) / 7) eqn:Hbig;
      [destruct (isoweek1monday (year dt + 1) <=? toordinal dt) eqn:Hover|]];
    unfold iso_week_date, thursday_of_week, weekday in *;
    replace (year dt - 1 + 1) with (year dt) by lia;
    rewrite ?Z.ltb_lt, ?Z.ltb_ge, ?Z.leb_le, ?Z.leb_gt in *;
    revert Hn Hprev Hthis Hnext Hm0 Hb0 Hm1 Hb1 Hm2 Hb2;
    try revert Hneg; try revert Hbig; try revert Hover;
    generalize (toordinal dt) (days_before_year (year dt - 1))
      (days_before_year (year dt)) (days_before_year (year dt + 1))
      (days_before_year (year dt + 1 + 1))
      (isoweek1monday (year dt - 1)) (isoweek1monday (year dt))
      (isoweek1monday (year dt + 1));
    intros n a b c e m0 m1 m2; intros;
    Z.div_mod_to_equations; lia.
Qed.

(** The ISO week date of a day is unique, and later days have later or equal
    ISO year and week. *)
Lemma iso_week_date_monotone (n1 n2 y1 w1 d1 y2 w2 d2 : Z) :
  iso_week_date n1 y1 w1 d1 ->
  iso_week_date n2 y2 w2 d2 ->
  n1 <= n2 ->
  y1 < y2 \/ (y1 = y2 /\ w1 <= w2).
Proof.
  unfold iso_week_date, thursday_of_week, weekday.
  intros (Hy1 & Hw1 & _) (Hy2 & Hw2 & _) Hle.
  assert (Hth : n1 - (n1 + 6) mod 7 + 3 <= n2 - (n2 + 6) mod 7 + 3)
    by (Z.div_mod_to_equations; lia).
  destruct (Z.lt_trichotomy y1 y2) as [Hlt|[Heq|Hgt]]; [now left| |].
  - right. split; trivial. subst y2 w1 w2.
    apply Z.add_le_mono_r, Z.div_le_mono; lia.
  - exfalso.
    pose proof (days_before_year_le (y2 + 1) y1 ltac:(lia)). lia.
Qed.

Lemma iso_week_date_unique (n y1 w1 d1 y2 w2 d2 : Z) :
  iso_week_date n y1 w1 d1 ->
  iso_week_date n y2 w2 d2 ->
  y1 = y2 /\ w1 = w2 /\ d1 = d2.
Proof.
  intros H1 H2.
  pose proof (iso_week_date_monotone _ _ _ _ _ _ _ _ H1 H2 (Z.le_refl n)).
  pose proof (iso_week_date_monotone _ _ _ _ _ _ _ _ H2 H1 (Z.le_refl n)).
  destruct H1 as (_ & _ & ->), H2 as (_ & _ & ->). lia.
Qed.

(** ** Chronological order and day numbers *)

Lemma lex_compare_le3 (y1 m1 d1 y2 m2 d2 : Z) :
  lex_compare [y1; m1; d1] [y2; m2; d2] <> Gt <->
  y1 < y2 \/ (y1 = y2 /\ (m1 < m2 \/ (m1 = m2 /\ d1 <= d2))).
Proof.
  simpl.
  destruct (Z.compare_spec y1 y2); destruct (Z.compare_spec m1 m2);
    destruct (Z.compare_spec d1 d2); split; intros; try congruence; lia.
Qed.

Lemma datetime_leb_date_leb (a b : datetime) :
  datetime_leb a b = true -> date_leb a b = true.
Proof.
  unfold datetime_leb, date_leb, datetime_key. simpl.
  destruct (year a ?= year b); trivial.
  destruct (month a ?= month b); trivial.
  destruct (day a ?= day b); trivial.
Qed.

Lemma days_before_month_mono (y m1 m2 : Z) :
  1 <= m1 -> m1 < m2 -> m2 <= 12 ->
  days_before_month y m1 + days_in_month y m1 <= days_before_month y m2.
Proof.
  unfold days_before_month, days_in_month. intros H1 H2 H3.
  assert (Hc1 : m1 = 1 \/ m1 = 2 \/ m1 = 3 \/ m1 = 4 \/ m1 = 5 \/ m1 = 6 \/
                m1 = 7 \/ m1 = 8 \/ m1 = 9 \/ m1 = 10 \/ m1 = 11) by lia.
  assert (Hc2 : m2 = 2 \/ m2 = 3 \/ m2 = 4 \/ m2 = 5 \/ m2 = 6 \/
                m2 = 7 \/ m2 = 8 \/ m2 = 9 \/ m2 = 10 \/ m2 = 11 \/ m2 = 12)
    by lia.
  destruct (is_leap y);
    repeat (destruct Hc1 as [->|Hc1]); try subst m1;
    repeat (destruct Hc2 as [->|Hc2]); try subst m2;
    cbn -[Z.add] in *; lia.
Qed.

Lemma toordinal_monotone (a b : datetime) :
  valid_datetime a = true -> valid_datetime b = true ->
  date_leb a b = true -> toordinal a <= toordinal b.
Proof.
  intros Ha Hb Hle.
  pose proof (toordinal_bounds a Ha) as Hba.
  pose proof (toordinal_bounds b Hb) as Hbb.
  apply valid_datetime_date in Ha as [(Hya & Hma & Hda) _].
  apply valid_datetime_date in Hb as [(Hyb & Hmb & Hdb) _].
  unfold date_leb in Hle.
  assert (Hlex : lex_compare [year a; month a; day a]
                             [year b; month b; day b] <> Gt)
    by (destruct (lex_compare _ _); congruence).
  apply lex_compare_le3 in Hlex as [Hy|[Hy [Hm|[Hm Hd]]]].
  - pose proof (days_before_year_le (year a + 1) (year b) ltac:(lia)). lia.
  - unfold toordinal, ymd2ord. rewrite Hy.
    pose proof (days_before_month_mono (year b) (month a) (month b)
                  ltac:(lia) Hm ltac:(lia)).
    rewrite Hy in Hda. lia.
  - unfold toordinal, ymd2ord. rewrite Hy, Hm. lia.
Qed.

(** ** Numbers as text *)

Lemma all_from_spec (lo count : Z) (p : Z -> bool) :
  all_from lo count p = true ->
  forall n, lo <= n < lo + count -> p n = true.
Proof.
  unfold all_from. rewrite forallb_forall. intros H n Hn.
  replace n with (lo + Z.of_nat (Z.to_nat (n - lo))) by lia.
  apply H. apply in_seq. lia.
Qed.

Lemma format_02d_fixed (n : Z) :
  0 <= n <= 99 -> format_02d n = fixed_digits 2 n.
Proof.
  intros Hn. apply String.eqb_eq.
  apply (all_from_spec 0 100
           (fun n => String.eqb (format_02d n) (fixed_digits 2 n))).
  - vm_compute. reflexivity.
  - lia.
Qed.

Lemma str_int_fixed (n : Z) :
  1000 <= n <= 9999 -> str_int n = fixed_digits 4 n.
Proof.
  intros Hn. apply String.eqb_eq.
  apply (all_from_spec 1000 9000
           (fun n => String.eqb (str_int n) (fixed_digits 4 n))).
  - vm_compute. reflexivity.
  - lia.
Qed.

Lemma digit_char_compare (a b : Z) :
  0 <= a <= 9 -> 0 <= b <= 9 ->
  Ascii.compare (digit_char a) (digit_char b) = (a ?= b).
Proof.
  intros Ha Hb. unfold Ascii.compare, digit_char, chr.
  rewrite !N_ascii_embedding by lia.
  rewrite Z2N.inj_compare by lia.
  apply Z.add_compare_mono_l.
Qed.

Lemma string_compare_cons (c : ascii) (s t : string) :
  String.compare (String c s) (String c t) = String.compare s t.
Proof. simpl. now rewrite ascii_compare_refl. Qed.

(** Fixed-width numbers compare as text the way they compare as numbers. *)
Lemma fixed_digits_compare (w : nat) (a b : Z) (s t : string) :
  0 <= a < 10 ^ Z.of_nat w -> 0 <= b < 10 ^ Z.of_nat w ->
  String.compare (fixed_digits w a ++ s) (fixed_digits w b ++ t) =
  match a ?= b with
  | Eq => String.compare s t
  | c => c
  end.
Proof.
  revert a b. induction w as [|w IH]; intros a b Ha Hb.
  - simpl in *. assert (a = 0) by lia. assert (b = 0) by lia. now subst.
  - rewrite Nat2Z.inj_succ, Z.pow_succ_r in Ha, Hb by lia.
    cbn [fixed_digits append].
    set (P := 10 ^ Z.of_nat w) in *.
    assert (HP : 0 < P) by (apply Z.pow_pos_nonneg; lia).
    pose proof (Z.div_mod a P ltac:(lia)) as Hda.
    pose proof (Z.div_mod b P ltac:(lia)) as Hdb.
    pose proof (Z.mod_pos_bound a P HP) as Hra.
    pose proof (Z.mod_pos_bound b P HP) as Hrb.
    assert (Hqa : 0 <= a / P <= 9).
    { split; [apply Z.div_pos; lia|].
      assert (a / P < 10) by (apply Z.div_lt_upper_bound; lia). lia. }
    assert (Hqb : 0 <= b / P <= 9).
    { split; [apply Z.div_pos; lia|].
      assert (b / P < 10) by (apply Z.div_lt_upper_bound; lia). lia. }
    simpl String.compare.
    rewrite (digit_char_compare _ _ Hqa Hqb), (IH _ _ Hra Hrb).
    destruct (Z.compare_spec (a / P) (b / P)) as [Hq|Hq|Hq].
    + rewrite Hq in Hda.
      destruct (Z.compare_spec (a mod P) (b mod P));
        destruct (Z.compare_spec a b); trivial; lia.
    + destruct (Z.compare_spec a b); trivial; nia.
    + destruct (Z.compare_spec a b); trivial; nia.
Qed.

Lemma weekly_label_fixed (dt : datetime) (y w d : Z) :
  isocalendar dt = (y, w, d) ->
  1000 <= y <= 9999 -> 1 <= w <= 53 ->
  weekly_label dt = fixed_digits 4 y ++ "-W" ++ fixed_digits 2 w.
Proof.
  intros Hiso Hy Hw. unfold weekly_label. rewrite Hiso.
  now rewrite str_int_fixed, format_02d_fixed by lia.
Qed.

Lemma monthly_label_fixed (dt : datetime) :
  1000 <= year dt <= 9999 -> 1 <= month dt <= 12 ->
  monthly_label dt =
  fixed_digits 4 (year dt) ++ "-" ++ fixed_digits 2 (month dt).
Proof.
  intros Hy Hm. unfold monthly_label.
  now rewrite str_int_fixed, format_02d_fixed by lia.
Qed.

(** ** Order of labels and of date strings *)

Lemma append_nil_r (s : string) : s ++ "" = s.
Proof. induction s as [|c s IH]; simpl; [reflexivity|now rewrite IH]. Qed.

Lemma append_assoc (s t u : string) : (s ++ t) ++ u = s ++ (t ++ u).
Proof. induction s as [|c s IH]; simpl; [reflexivity|now rewrite IH]. Qed.

Lemma fixed_digits_compare_nil (w : nat) (a b : Z) :
  0 <= a < 10 ^ Z.of_nat w -> 0 <= b < 10 ^ Z.of_nat w ->
  String.compare (fixed_digits w a) (fixed_digits w b) = (a ?= b).
Proof.
  intros Ha Hb.
  rewrite <- (append_nil_r (fixed_digits w a)), <- (append_nil_r (fixed_digits w b)).
  rewrite fixed_digits_compare by trivial. now destruct (a ?= b).
Qed.

(** Two numbers, the first of four and the second of two digits, with a
    separator in between, compare as text the way the pairs compare. *)
Lemma label_compare (sep : string) (y1 w1 y2 w2 : Z) :
  0 <= y1 <= 9999 -> 0 <= y2 <= 9999 -> 0 <= w1 <= 99 -> 0 <= w2 <= 99 ->
  String.compare (fixed_digits 4 y1 ++ sep ++ fixed_digits 2 w1)
                 (fixed_digits 4 y2 ++ sep ++ fixed_digits 2 w2)
  = lex_compare [y1; w1] [y2; w2].
Proof.
  intros Hy1 Hy2 Hw1 Hw2.
  rewrite fixed_digits_compare by (simpl; lia). simpl lex_compare.
  destruct (y1 ?= y2); trivial.
  induction sep as [|c sep IH]; cbn [append].
  - rewrite fixed_digits_compare_nil by (simpl; lia). now destruct (w1 ?= w2).
  - now rewrite string_compare_cons.
Qed.

Lemma iso_year_range (dt : datetime) (y w d : Z) :
  valid_datetime dt = true ->
  1000 <= year dt ->
  iso_week_date (toordinal dt) y w d ->
  1000 <= y <= 9999.
Proof.
  intros Hv Hy (Hth & _ & _).
  pose proof (toordinal_bounds dt Hv) as Hn.
  apply valid_datetime_date in Hv as [(Hyr & _ & _) _].
  pose proof (days_before_year_le 1000 (year dt) Hy) as Hlo.
  pose proof (days_before_year_le (year dt + 1) 10000 ltac:(lia)) as Hhi.
  change (days_before_year 1000) with 364877 in Hlo.
  change (days_before_year 10000) with 3652059 in Hhi.
  unfold thursday_of_week, weekday in Hth.
  split.
  - destruct (Z.le_gt_cases 1000 y) as [|Hlt]; trivial. exfalso.
    pose proof (days_before_year_le (y + 1) 1000 ltac:(lia)) as H.
    change (days_before_year 1000) with 364877 in H.
    Z.div_mod_to_equations. lia.
  - destruct (Z.le_gt_cases y 9999) as [|Hgt]; trivial. exfalso.
    pose proof (days_before_year_le 10000 y ltac:(lia)) as H.
    change (days_before_year 10000) with 3652059 in H.
    Z.div_mod_to_equations. lia.
Qed.

(** Labels of dates from the year 1000 on are in the order of the dates. *)
Lemma labels_monotone (dt1 dt2 : datetime) :
  valid_datetime dt1 = true ->
  valid_datetime dt2 = true ->
  1000 <= year dt1 ->
  datetime_leb dt1 dt2 = true ->
  String.leb (weekly_label dt1) (weekly_label dt2) = true /\
  String.leb (monthly_label dt1) (monthly_label dt2) = true.
Proof.
  intros Hv1 Hv2 Hy Hle.
  apply datetime_leb_date_leb in Hle.
  pose proof (toordinal_monotone _ _ Hv1 Hv2 Hle) as Hord.
  assert (Hlex : lex_compare [year dt1; month dt1; day dt1]
                             [year dt2; month dt2; day dt2] <> Gt)
    by (unfold date_leb in Hle; destruct (lex_compare _ _); congruence).
  apply lex_compare_le3 in Hlex.
  pose proof (valid_datetime_date _ Hv1) as [(Hy1 & Hm1 & _) _].
  pose proof (valid_datetime_date _ Hv2) as [(Hy2 & Hm2 & _) _].
  split.
  - pose proof (isocalendar_iso_week_date dt1 Hv1) as H1.
    pose proof (isocalendar_iso_week_date dt2 Hv2) as H2.
    destruct (isocalendar dt1) as [[y1 w1] d1] eqn:E1.
    destruct (isocalendar dt2) as [[y2 w2] d2] eqn:E2.
    destruct H1 as (Hiso1 & Hw1 & _), H2 as (Hiso2 & Hw2 & _).
    pose proof (iso_year_range _ _ _ _ Hv1 Hy Hiso1) as Hr1.
    pose proof (iso_year_range _ _ _ _ Hv2 ltac:(lia) Hiso2) as Hr2.
    rewrite (weekly_label_fixed _ _ _ _ E1 Hr1 Hw1).
    rewrite (weekly_label_fixed _ _ _ _ E2 Hr2 Hw2).
    apply string_leb_iff. rewrite label_compare by lia.
    pose proof (iso_week_date_monotone _ _ _ _ _ _ _ _ Hiso1 Hiso2 Hord).
    simpl. destruct (Z.compare_spec y1 y2); try congruence; try lia.
    destruct (Z.compare_spec w1 w2); try congruence; lia.
  - rewrite !monthly_label_fixed by lia.
    apply string_leb_iff. rewrite label_compare by lia.
    simpl. destruct (Z.compare_spec (year dt1) (year dt2)); try congruence;
      try lia.
    destruct (Z.compare_spec (month dt1) (month dt2)); try congruence; lia.
Qed.

Lemma date_text_compare (a b : datetime) (s t : string) :
  valid_datetime a = true -> valid_datetime b = true ->
  String.compare (date_text a ++ s) (date_text b ++ t) =
  match lex_compare [year a; month a; day a] [year b; month b; day b] with
  | Eq => String.compare s t
  | c => c
  end.
Proof.
  intros Ha Hb.
  apply valid_datetime_date in Ha as [(Hya & Hma & Hda) _].
  apply valid_datetime_date in Hb as [(Hyb & Hmb & Hdb) _].
  assert (Hda' : day a <= 31)
    by (unfold days_in_month in Hda; repeat destruct (_ : bool); lia).
  assert (Hdb' : day b <= 31)
    by (unfold days_in_month in Hdb; repeat destruct (_ : bool); lia).
  unfold date_text. rewrite !append_assoc. simpl lex_compare.
  rewrite fixed_digits_compare by (simpl; lia).
  destruct (year a ?= year b); trivial.
  cbn [append]. rewrite string_compare_cons.
  rewrite fixed_digits_compare by (simpl; lia).
  destruct (month a ?= month b); trivial.
  rewrite string_compare_cons.
  rewrite fixed_digits_compare by (simpl; lia).
  now destruct (day a ?= day b).
Qed.

Lemma time_text_compare (a b : datetime) :
  valid_datetime a = true -> valid_datetime b = true ->
  String.compare (time_text a) (time_text b) =
  lex_compare [hour a; minute a; second a] [hour b; minute b; second b].
Proof.
  intros Ha Hb.
  apply valid_datetime_date in Ha as (_ & Hha & Hma & Hsa).
  apply valid_datetime_date in Hb as (_ & Hhb & Hmb & Hsb).
  unfold time_text. cbn [append]. rewrite string_compare_cons.
  simpl lex_compare.
  rewrite fixed_digits_compare by (simpl; lia).
  destruct (hour a ?= hour b); trivial.
  rewrite string_compare_cons.
  rewrite fixed_digits_compare by (simpl; lia).
  destruct (minute a ?= minute b); trivial.
  rewrite string_compare_cons.
  rewrite fixed_digits_compare_nil by (simpl; lia).
  now destruct (second a ?= second b).
Qed.

(** On date strings in the fixed-width forms, the order of the strings is
    the order of the dates. *)
Lemma fixed_width_order (s t : string) (a b : datetime) :
  valid_datetime a = true -> valid_datetime b = true ->
  fixed_width s a -> fixed_width t b ->
  String.leb s t = true -> datetime_leb a b = true.
Proof.
  intros Ha Hb Hs Ht Hle. apply string_leb_iff in Hle.
  pose proof (valid_datetime_date _ Ha) as (_ & Hha & Hma & Hsa).
  pose proof (valid_datetime_date _ Hb) as (_ & Hhb & Hmb & Hsb).
  assert (Hkey :
            match lex_compare [year a; month a; day a]
                              [year b; month b; day b] with
            | Eq => lex_compare [hour a; minute a; second a]
                                [hour b; minute b; second b]
            | c => c
            end <> Gt ->
            datetime_leb a b = true).
  { unfold datetime_leb, datetime_key. simpl.
    destruct (year a ?= year b); [|trivial|intros H; now contradiction H].
    destruct (month a ?= month b); [|trivial|intros H; now contradiction H].
    destruct (day a ?= day b); [|trivial|intros H; now contradiction H].
    intros H. now destruct (match hour a ?= hour b with Eq => _ | c => c end). }
  destruct Hs as [(-> & Ha0 & Ha1 & Ha2)| ->];
    destruct Ht as [(-> & Hb0 & Hb1 & Hb2)| ->].
  - rewrite <- (append_nil_r (date_text a)), <- (append_nil_r (date_text b)) in Hle.
    rewrite date_text_compare in Hle by trivial.
    apply Hkey.
    rewrite Ha0, Ha1, Ha2, Hb0, Hb1, Hb2. simpl lex_compare at 2.
    simpl String.compare in Hle.
    now destruct (lex_compare _ _).
  - rewrite <- (append_nil_r (date_text a)) in Hle.
    rewrite date_text_compare in Hle by trivial.
    apply Hkey.
    destruct (lex_compare [year a; month a; day a] _); trivial.
    rewrite Ha0, Ha1, Ha2. cbn [lex_compare].
    destruct (Z.compare_spec 0 (hour b)); try lia; try discriminate.
    destruct (Z.compare_spec 0 (minute b)); try lia; try discriminate.
    destruct (Z.compare_spec 0 (second b)); try lia; discriminate.
  - rewrite <- (append_nil_r (date_text b)) in Hle.
    rewrite date_text_compare in Hle by trivial.
    apply Hkey.
    destruct (lex_compare [year a; month a; day a] _); trivial.
    exfalso. apply Hle. reflexivity.
  - rewrite date_text_compare in Hle by trivial.
    rewrite time_text_compare in Hle by trivial.
    apply Hkey. exact Hle.
Qed.

(** ** The combination rule *)

Lemma monthly_label_same (r : row) (dt : datetime) (y m : Z) :
  parse_date (date r) = Ok dt -> year dt = y -> month dt = m ->
  group_label "monthly" r = Ok (str_int y ++ "-" ++ format_02d m).
Proof.
  intros Hp <- <-. unfold group_label. rewrite Hp. reflexivity.
Qed.

Lemma single_label_singleton (out : list row) (label : string) :
  NoDup (map date out) ->
  (forall s, In s out -> date s = label) ->
  out <> [] ->
  exists s, out = [s].
Proof.
  destruct out as [|s [|s' out]]; intros Hnd Hall Hne.
  - contradiction.
  - now exists s.
  - exfalso. inversion Hnd as [|? ? Hnotin _]; subst. apply Hnotin.
    left. rewrite (Hall s), (Hall s'); simpl; auto.
Qed.

Lemma filter_all {A : Type} (p : A -> bool) (l : list A) :
  (forall x, In x l -> p x = true) -> filter p l = l.
Proof.
  induction l as [|x l IH]; intros H; simpl; [reflexivity|].
  rewrite (H x) by now left. rewrite IH; trivial.
  intros y Hy. apply H. now right.
Qed.

(** C3, as stated in the specification, fails for date strings without
    leading zeros, which [parse_date] reads as well: of two rows of January
    2024, that of the 9th is the chronologically first and that of the 10th
    the last, but the members of the bucket are sorted by date string,
    "2024-1-10" before "2024-1-9", and the row of the month gets the open of
    the 10th and the close of the 9th. *)
Lemma first_and_last_follow_string_order :
  parse_date "2024-1-9" = Ok (mk_datetime 2024 1 9 0 0 0) /\
  parse_date "2024-1-10" = Ok (mk_datetime 2024 1 10 0 0 0) /\
  datetime_leb (mk_datetime 2024 1 9 0 0 0) (mk_datetime 2024 1 10 0 0 0)
  = true /\
  datetime_leb (mk_datetime 2024 1 10 0 0 0) (mk_datetime 2024 1 9 0 0 0)
  = false /\
  group_by_period
    [mk_row "2024-1-9" 1 2 0 1; mk_row "2024-1-10" 3 5 2 4] "monthly"
  = Ok [mk_row "2024-01" 3 5 0 1].
Proof. repeat split. Qed.

(** C3, amended. For a resolution that groups rows, every row of the result
    stands for the non-empty bucket of its label: with the members of the
    bucket sorted by date string, its open is the open of the first member,
    its close the close of the last, its high the greatest high and its low
    the least low of the members; labels are not repeated and every input
    row is in the bucket of a result row.  Monthly aggregation of a non-empty
    list of rows of one month returns exactly one row, with the open of the
    first and the close of the last row in the order of the date strings;
    when the date strings are in the fixed-width forms, these are the
    chronologically first and last rows. *)
Theorem bucket_combination_rule
    (rows out : list row) (period : string) (y m : Z) :
  (String.eqb period "intraday" || String.eqb period "daily" = false ->
   group_by_period rows period = Ok out ->
   (forall s, In s out ->
      exists first others,
        sort_by date (members period rows (date s)) = first :: others /\
        open s = open first /\
        close s = close (last (first :: others) first) /\
        is_max (high s) (map high (first :: others)) /\
        is_min (low s) (map low (first :: others))) /\
   NoDup (map date out) /\
   (forall r, In r rows ->
      exists s, In s out /\ group_label period r = Ok (date s))) /\
  (rows <> [] ->
   (forall r, In r rows ->
      exists dt, parse_date (date r) = Ok dt /\ year dt = y /\ month dt = m) ->
   exists s first others,
     group_by_period rows "monthly" = Ok [s] /\
     sort_by date rows = first :: others /\
     open s = open first /\
     close s = close (last (first :: others) first) /\
     (forall r, In r rows ->
        by_date first r /\ by_date r (last (first :: others) first)) /\
     (forall r dt dt_first dt_last, In r rows ->
        dated r dt -> dated first dt_first ->
        dated (last (first :: others) first) dt_last ->
        datetime_leb dt_first dt = true /\ datetime_leb dt dt_last = true)).
Proof.
  split.
  - intros Hp Hg.
    destruct (group_by_period_inv _ _ _ Hp Hg) as (Hcomb & Hnd & Hcover & _).
    split; [|split]; trivial.
    intros s Hs.
    destruct (combine_inv _ _ _ (Hcomb s Hs))
      as (first & others & Hsort & _ & Ho & Hc & Hmax & Hmin).
    exists first, others. auto.
  - intros Hne Hmonth.
    set (label := str_int y ++ "-" ++ format_02d m).
    assert (Hlabel : forall r, In r rows -> group_label "monthly" r = Ok label).
    { intros r Hr. destruct (Hmonth r Hr) as (dt & Hp & Hy & Hm).
      now apply (monthly_label_same r dt). }
    destruct (group_by_period_defined "monthly" rows) as [res Hres].
    { apply Forall_forall. intros r Hr.
      destruct (Hmonth r Hr) as (dt & Hp & _). now exists dt. }
    destruct (group_by_period_inv "monthly" rows res eq_refl Hres)
      as (Hcomb & Hnd & Hcover & _).
    assert (Hdate : forall s, In s res -> date s = label).
    { intros s Hs. pose proof (Hcomb s Hs) as Hc.
      destruct (combine_inv _ _ _ Hc) as (f & o & Hsort & _).
      assert (Hin : In f (members "monthly" rows (date s))).
      { apply (sort_by_in date). rewrite Hsort. now left. }
      apply members_in in Hin as [Hin Hl]. rewrite (Hlabel f Hin) in Hl.
      congruence. }
    destruct rows as [|r0 rows0] eqn:Hrows; [contradiction|].
    rewrite <- Hrows in *.
    assert (Hr0 : In r0 rows) by (rewrite Hrows; now left).
    destruct (single_label_singleton res label Hnd Hdate) as [s ->].
    { destruct (Hcover r0 Hr0) as [s [Hs _]]. intros ->. contradiction. }
    pose proof (Hcomb s (or_introl eq_refl)) as Hc.
    rewrite (Hdate s (or_introl eq_refl)) in Hc.
    assert (Hall : members "monthly" rows label = rows).
    { apply filter_all. intros r Hr. unfold has_label.
      rewrite (Hlabel r Hr). apply String.eqb_refl. }
    rewrite Hall in Hc.
    destruct (combine_inv _ _ _ Hc) as (first & others & Hsort & _ & Ho & Hcl & _).
    exists s, first, others.
    split; [exact Hres|]. split; [exact Hsort|].
    split; [exact Ho|]. split; [exact Hcl|].
    assert (Horder : forall r, In r rows ->
              by_date first r /\ by_date r (last (first :: others) first)).
    { intros r Hr. split.
      - now apply (sort_by_head_least date rows first others Hsort).
      - rewrite <- Hsort. apply strongly_sorted_last.
        + apply sort_by_strongly_sorted.
        + now apply (sort_by_in date). }
    split; [exact Horder|].
    intros r dt dtf dtl Hr [Hpr Hfr] [Hpf Hff] [Hpl Hfl].
    destruct (Horder r Hr) as [Hlo Hhi].
    split.
    + apply (fixed_width_order (date first) (date r)); trivial;
        eapply parse_date_valid; eassumption.
    + apply (fixed_width_order (date r) (date (last (first :: others) first)));
        trivial; eapply parse_date_valid; eassumption.
Qed.

Lemma bucket_combination_rule_witness :
  NoDup (map date [mk_row "2024-01" 1 9 0 8]) /\
  exists s first others,
    group_by_period
      [mk_row "2024-01-15" 3 6 2 5; mk_row "2024-01-02" 1 2 0 1;
       mk_row "2024-01-31" 4 9 3 8] "monthly" = Ok [s] /\
    sort_by date
      [mk_row "2024-01-15" 3 6 2 5; mk_row "2024-01-02" 1 2 0 1;
       mk_row "2024-01-31" 4 9 3 8] = first :: others /\
    open s = open first /\
    close s = close (last (first :: others) first).
Proof.
  destruct (bucket_combination_rule
              [mk_row "2024-01-15" 3 6 2 5; mk_row "2024-01-02" 1 2 0 1;
               mk_row "2024-01-31" 4 9 3 8]
              [mk_row "2024-01" 1 9 0 8] "monthly" 2024 1) as [Hrule Hmonth].
  split.
  - destruct (Hrule eq_refl eq_refl) as (_ & Hnd & _). exact Hnd.
  - destruct Hmonth as (s & first & others & H1 & H2 & H3 & H4 & _).
    + discriminate.
    + intros r [<-|[<-|[<-|[]]]]; eexists; repeat split; reflexivity.
    + exists s, first, others. auto.
Defined.

(** ** Weekly buckets *)

(** C4. The weekly label of a row is the ISO year, "-W" and the ISO week
    number in two digits, year and week being those of the ISO-8601 week date
    of the day; rows of days with the same ISO year and week get the same
    label, as 2024-12-30 and 2025-01-02 do, which both get "2025-W01" and are
    merged into one row. *)
Theorem weekly_label_is_iso_week (r : row) (dt : datetime) :
  parse_date (date r) = Ok dt ->
  (exists iso_year week wday,
      iso_week_date (toordinal dt) iso_year week wday /\
      1 <= week <= 53 /\
      format_02d week = fixed_digits 2 week /\
      group_label "weekly" r = Ok (str_int iso_year ++ "-W" ++ format_02d week)) /\
  (forall r' dt' iso_year week wday wday',
      parse_date (date r') = Ok dt' ->
      iso_week_date (toordinal dt) iso_year week wday ->
      iso_week_date (toordinal dt') iso_year week wday' ->
      group_label "weekly" r = group_label "weekly" r') /\
  (forall o1 h1 l1 c1 o2 h2 l2 c2,
      group_label "weekly" (mk_row "2024-12-30" o1 h1 l1 c1) = Ok "2025-W01" /\
      group_label "weekly" (mk_row "2025-01-02" o2 h2 l2 c2) = Ok "2025-W01" /\
      exists s,
        group_by_period
          [mk_row "2024-12-30" o1 h1 l1 c1; mk_row "2025-01-02" o2 h2 l2 c2]
          "weekly" = Ok [s] /\
        date s = "2025-W01").
Proof.
  intros Hp. pose proof (parse_date_valid _ _ Hp) as Hv.
  pose proof (isocalendar_iso_week_date dt Hv) as Hiso.
  destruct (isocalendar dt) as [[y w] d] eqn:Hcal.
  destruct Hiso as (Hiso & Hw & _).
  assert (Hlabel : group_label "weekly" r
                   = Ok (str_int y ++ "-W" ++ format_02d w)).
  { unfold group_label, weekly_label. rewrite Hp. simpl. now rewrite Hcal. }
  split; [|split].
  - exists y, w, d. split; [exact Hiso|]. split; [lia|].
    split; [apply format_02d_fixed; lia|exact Hlabel].
  - intros r' dt' y0 w0 d0 d0' Hp' H1 H2.
    pose proof (parse_date_valid _ _ Hp') as Hv'.
    pose proof (isocalendar_iso_week_date dt' Hv') as Hiso'.
    destruct (isocalendar dt') as [[y' w'] d'] eqn:Hcal'.
    destruct Hiso' as (Hiso' & _ & _).
    destruct (iso_week_date_unique _ _ _ _ _ _ _ Hiso H1) as (-> & -> & _).
    destruct (iso_week_date_unique _ _ _ _ _ _ _ Hiso' H2) as (-> & -> & _).
    rewrite Hlabel. unfold group_label, weekly_label. rewrite Hp'. simpl.
    now rewrite Hcal'.
  - intros. split; [reflexivity|]. split; [reflexivity|].
    eexists. split; reflexivity.
Qed.

Lemma weekly_label_is_iso_week_witness :
  group_label "weekly" (mk_row "2024-12-30" 1 2 0 1) =
  group_label "weekly" (mk_row "2025-01-02" 3 5 2 4).
Proof.
  destruct (weekly_label_is_iso_week (mk_row "2024-12-30" 1 2 0 1)
              (mk_datetime 2024 12 30 0 0 0) eq_refl) as (_ & Hsame & _).
  apply (Hsame (mk_row "2025-01-02" 3 5 2 4) (mk_datetime 2025 1 2 0 0 0)
               2025 1 1 4).
  - reflexivity.
  - unfold iso_week_date. vm_compute. intuition discriminate.
  - unfold iso_week_date. vm_compute. intuition discriminate.
Defined.

(** ** Order of the result and of the labels *)

(** C7, as stated in the specification, fails for dates before the year
    1000, whose year is written with fewer than four digits: 0999-12-31 is
    before 1000-01-01, and 0999-12-26 before 1000-01-01, but the labels are in
    the opposite order, and so is the result of the aggregation. *)
Lemma label_order_fails_before_year_1000 :
  valid_datetime (mk_datetime 999 12 31 0 0 0) = true /\
  valid_datetime (mk_datetime 999 12 26 0 0 0) = true /\
  valid_datetime (mk_datetime 1000 1 1 0 0 0) = true /\
  datetime_leb (mk_datetime 999 12 31 0 0 0) (mk_datetime 1000 1 1 0 0 0) = true /\
  String.leb (monthly_label (mk_datetime 999 12 31 0 0 0))
             (monthly_label (mk_datetime 1000 1 1 0 0 0)) = false /\
  datetime_leb (mk_datetime 999 12 26 0 0 0) (mk_datetime 1000 1 1 0 0 0) = true /\
  String.leb (weekly_label (mk_datetime 999 12 26 0 0 0))
             (weekly_label (mk_datetime 1000 1 1 0 0 0)) = false /\
  group_by_period
    [mk_row "0999-12-31" 1 2 0 1; mk_row "1000-01-01" 3 5 2 4] "monthly"
  = Ok [mk_row "1000-01" 3 5 2 4; mk_row "999-12" 1 2 0 1].
Proof. repeat split. Qed.

(** C7, amended. The result of the aggregation is sorted ascending by
    label string, for every resolution; and for two dates d1 <= d2 of the year
    1000 or later, the weekly and the monthly label of d1 are not after those
    of d2 in the order of strings. *)
Theorem aggregation_sorted_and_labels_monotone
    (rows out : list row) (period : string) (dt1 dt2 : datetime) :
  (group_by_period rows period = Ok out -> Sorted by_date out) /\
  (valid_datetime dt1 = true ->
   valid_datetime dt2 = true ->
   1000 <= year dt1 ->
   datetime_leb dt1 dt2 = true ->
   String.leb (weekly_label dt1) (weekly_label dt2) = true /\
   String.leb (monthly_label dt1) (monthly_label dt2) = true).
Proof.
  split.
  - unfold group_by_period.
    destruct (String.eqb period "intraday" || String.eqb period "daily").
    + intros [= <-]. apply sort_by_sorted.
    + destruct (group_loop period rows []) as [g|e]; [|discriminate].
      cbn [bind]. destruct (combine_loop g []) as [out0|e]; [|discriminate].
      cbn [bind]. intros [= <-]. apply sort_by_sorted.
  - apply labels_monotone.
Qed.

Lemma aggregation_sorted_and_labels_monotone_witness :
  Sorted by_date [mk_row "2024-12" 1 2 0 1; mk_row "2025-01" 3 5 2 4] /\
  String.leb (weekly_label (mk_datetime 2024 12 29 0 0 0))
             (weekly_label (mk_datetime 2025 1 2 10 30 0)) = true /\
  String.leb (monthly_label (mk_datetime 2024 12 29 0 0 0))
             (monthly_label (mk_datetime 2025 1 2 10 30 0)) = true.
Proof.
  destruct (aggregation_sorted_and_labels_monotone
              [mk_row "2025-01-02" 3 5 2 4; mk_row "2024-12-30" 1 2 0 1]
              [mk_row "2024-12" 1 2 0 1; mk_row "2025-01" 3 5 2 4] "monthly"
              (mk_datetime 2024 12 29 0 0 0) (mk_datetime 2025 1 2 10 30 0))
    as [Hsorted Hlabels].
  split.
  - apply Hsorted. reflexivity.
  - apply Hlabels; [reflexivity|reflexivity|simpl; lia|reflexivity].
Defined.

(** * Further properties *)

(** ** Classification of the responses *)

Lemma time_series_key_spec (data : dict json) (key : string) :
  time_series_key data = Some key ->
  str_in "Time Series" key = true /\
  exists v, dict_get key data = Some v /\ In (key, v) data.
Proof.
  induction data as [|[k v] data IH]; simpl; [discriminate|].
  destruct (str_in "Time Series" k) eqn:Hk.
  - intros [= <-]. split; trivial. exists v.
    rewrite String.eqb_refl. split; [reflexivity|now left].
  - intros H. destruct (IH H) as (Hin & v' & Hget & Hmem).
    split; trivial.
    destruct (String.eqb k key) eqn:Heq.
    + apply String.eqb_eq in Heq. subst. congruence.
    + exists v'. split; [trivial|now right].
Qed.

Lemma time_series_key_none (data : dict json) :
  time_series_key data = None <->
  forall k v, In (k, v) data -> str_in "Time Series" k = false.
Proof.
  induction data as [|[k v] data IH]; simpl.
  - split; [intros _ ? ? []|reflexivity].
  - destruct (str_in "Time Series" k) eqn:Hk.
    + split; [discriminate|]. intros H. specialize (H k v (or_introl eq_refl)).
      congruence.
    + rewrite IH. split.
      * intros H k' v' [[= <- <-]|Hin]; eauto.
      * intros H k' v' Hin. apply (H k' v'). now right.
Qed.

Lemma extract_ok_inv (data : dict json) (key : string) (v : json) :
  extract_time_series_from_response data = Ok (key, v) ->
  time_series_key data = Some key /\
  str_in "Time Series" key = true /\
  dict_get key data = Some v.
Proof.
  unfold extract_time_series_from_response.
  destruct (time_series_key data) as [k|] eqn:Hk.
  - destruct (time_series_key_spec _ _ Hk) as (Hin & v' & Hget & _).
    rewrite Hget. intros [= <- <-]. auto.
  - destruct (dict_get "Error Message" data) as [msg|].
    + destruct (json_contains "Invalid API call" msg) as [[|]|]; simpl;
        try discriminate.
      destruct (json_contains "Invalid stock symbol" msg) as [[|]|]; simpl;
        discriminate.
    + destruct (dict_get "Note" data) as [note|]; [|discriminate].
      destruct (json_contains "API call frequency" note) as [[|]|]; simpl;
        try discriminate.
      destruct (json_lower note) as [l|]; simpl; [|discriminate].
      destruct (json_contains "rate limit" l) as [[|]|]; simpl;
        discriminate.
Qed.

(** X1. A response with a key that contains "Time Series" is never taken
    for an error: the extraction returns the first such key with its value,
    whatever else the response holds ("Error Message", "Note", ...); and it
    returns a result only for such a response. *)
Theorem time_series_key_has_priority (data : dict json) :
  ((exists k v, In (k, v) data /\ str_in "Time Series" k = true) <->
   exists key v, extract_time_series_from_response data = Ok (key, v)) /\
  (forall key v,
     extract_time_series_from_response data = Ok (key, v) ->
     time_series_key data = Some key /\
     str_in "Time Series" key = true /\
     dict_get key data = Some v).
Proof.
  split; [|apply extract_ok_inv]. split.
  - intros (k & v & Hin & Hk).
    destruct (time_series_key data) as [key|] eqn:Hkey.
    + destruct (time_series_key_spec _ _ Hkey) as (_ & v' & Hget & _).
      exists key, v'. unfold extract_time_series_from_response.
      now rewrite Hkey, Hget.
    + rewrite time_series_key_none in Hkey.
      rewrite (Hkey k v Hin) in Hk. discriminate.
  - intros (key & v & Hex).
    destruct (extract_ok_inv _ _ _ Hex) as (Hkey & Hin & _).
    destruct (time_series_key_spec _ _ Hkey) as (_ & v' & _ & Hmem).
    exists key, v'. auto.
Qed.

Lemma time_series_key_has_priority_witness :
  extract_time_series_from_response
    [("Error Message", JStr "Invalid API call");
     ("Weekly Time Series", JObj [])] = Ok ("Weekly Time Series", JObj []).
Proof.
  destruct (time_series_key_has_priority
              [("Error Message", JStr "Invalid API call");
               ("Weekly Time Series", JObj [])]) as [[Hex _] Hinv].
  destruct Hex as (key & v & Hkv).
  - exists "Weekly Time Series", (JObj []). split; [right; now left|reflexivity].
  - destruct (Hinv key v Hkv) as (Hk & _ & Hv).
    injection Hk as <-. injection Hv as <-. exact Hkv.
Defined.

(** X2. Without a time-series key, a response with a string under "Error
    Message" raises [StockSymbolNotFoundError] if the message has the
    invalid-symbol phrasing and [RuntimeError] if not, whether or not the
    response also holds a "Note"; without "Error Message", a string under
    "Note" raises [APIRateLimitError] if it contains "API call frequency" or,
    in lower case, "rate limit", and [RuntimeError] if not; with neither key
    the extraction raises [RuntimeError]. *)
Theorem error_responses_are_classified (data : dict json) :
  time_series_key data = None ->
  (forall msg,
     dict_get "Error Message" data = Some (JStr msg) ->
     extract_time_series_from_response data =
     Raise (if invalid_symbol_phrasing msg then StockSymbolNotFoundError
            else RuntimeError)) /\
  (forall note,
     dict_get "Error Message" data = None ->
     dict_get "Note" data = Some (JStr note) ->
     extract_time_series_from_response data =
     Raise (if rate_limit_phrasing note then APIRateLimitError
            else RuntimeError)) /\
  (dict_get "Error Message" data = None ->
   dict_get "Note" data = None ->
   extract_time_series_from_response data = Raise RuntimeError).
Proof.
  intros Hts. unfold extract_time_series_from_response. rewrite Hts.
  split; [|split].
  - intros msg ->. unfold invalid_symbol_phrasing. simpl.
    destruct (str_in "Invalid API call" msg); [reflexivity|]. simpl.
    now destruct (str_in "Invalid stock symbol" msg).
  - intros note -> ->. unfold rate_limit_phrasing. simpl.
    destruct (str_in "API call frequency" note); [reflexivity|]. simpl.
    now destruct (str_in "rate limit" (lower note)).
  - now intros -> ->.
Qed.

Lemma error_responses_are_classified_witness :
  extract_time_series_from_response
    [("Note", JStr "Thank you! Our standard API RATE LIMIT is 25 requests per day.")]
  = Raise APIRateLimitError /\
  extract_time_series_from_response
    [("Note", JStr "API call frequency exceeded");
     ("Error Message", JStr "the parameter apikey is invalid or missing")]
  = Raise RuntimeError /\
  extract_time_series_from_response
    [("Information", JStr "premium endpoint")] = Raise RuntimeError.
Proof.
  split; [|split].
  - destruct (error_responses_are_classified
                [("Note", JStr "Thank you! Our standard API RATE LIMIT is 25 requests per day.")]
                eq_refl) as (_ & Hnote & _).
    apply (Hnote _ eq_refl eq_refl).
  - destruct (error_responses_are_classified
                [("Note", JStr "API call frequency exceeded");
                 ("Error Message", JStr "the parameter apikey is invalid or missing")]
                eq_refl) as (Hmsg & _ & _).
    apply (Hmsg _ eq_refl).
  - destruct (error_responses_are_classified
                [("Information", JStr "premium endpoint")] eq_refl)
      as (_ & _ & Hnone).
    apply Hnone; reflexivity.
Defined.

(** ** Letter case and blanks *)

Lemma lower_upper_char (c : ascii) : lower_char (upper_char c) = lower_char c.
Proof. destruct c as [[] [] [] [] [] [] [] []]; reflexivity. Qed.

Lemma lower_lower_char (c : ascii) : lower_char (lower_char c) = lower_char c.
Proof. destruct c as [[] [] [] [] [] [] [] []]; reflexivity. Qed.

Lemma upper_upper_char (c : ascii) : upper_char (upper_char c) = upper_char c.
Proof. destruct c as [[] [] [] [] [] [] [] []]; reflexivity. Qed.

Lemma is_space_upper_char (c : ascii) : is_space (upper_char c) = is_space c.
Proof. destruct c as [[] [] [] [] [] [] [] []]; reflexivity. Qed.

Lemma str_map_map (f g : ascii -> ascii) (s : string) :
  str_map f (str_map g s) = str_map (fun c => f (g c)) s.
Proof. induction s as [|c s IH]; simpl; [reflexivity|now rewrite IH]. Qed.

Lemma str_map_ext (f g : ascii -> ascii) (s : string) :
  (forall c, f c = g c) -> str_map f s = str_map g s.
Proof.
  intros H. induction s as [|c s IH]; simpl; [reflexivity|now rewrite H, IH].
Qed.

Lemma lower_upper (s : string) : lower (upper s) = lower s.
Proof.
  unfold lower, upper. rewrite str_map_map. apply str_map_ext, lower_upper_char.
Qed.

Lemma lower_lower (s : string) : lower (lower s) = lower s.
Proof.
  unfold lower. rewrite str_map_map. apply str_map_ext, lower_lower_char.
Qed.

Lemma upper_upper (s : string) : upper (upper s) = upper s.
Proof.
  unfold upper. rewrite str_map_map. apply str_map_ext, upper_upper_char.
Qed.

Lemma str_truthy_upper (s : string) : str_truthy (upper s) = str_truthy s.
Proof. now destruct s. Qed.

Lemma lstrip_upper (s : string) : lstrip (upper s) = upper (lstrip s).
Proof.
  induction s as [|c s IH]; [reflexivity|].
  change (upper (String c s)) with (String (upper_char c) (upper s)).
  cbn [lstrip]. rewrite is_space_upper_char.
  destruct (is_space c); [exact IH|reflexivity].
Qed.

Lemma rstrip_upper (s : string) : rstrip (upper s) = upper (rstrip s).
Proof.
  induction s as [|c s IH]; [reflexivity|].
  change (upper (String c s)) with (String (upper_char c) (upper s)).
  cbn [rstrip]. rewrite IH, is_space_upper_char.
  destruct (rstrip s); [now destruct (is_space c)|reflexivity].
Qed.

Lemma strip_upper (s : string) : strip (upper s) = upper (strip s).
Proof. unfold strip. now rewrite lstrip_upper, rstrip_upper. Qed.

(** A string that does not begin with a blank. *)
Lemma lstrip_head (s : string) :
  match lstrip s with
  | EmptyString => True
  | String c _ => is_space c = false
  end.
Proof.
  induction s as [|c s IH]; simpl; trivial.
  destruct (is_space c) eqn:Hc; [exact IH|exact Hc].
Qed.

Lemma rstrip_keeps_head (c : ascii) (s : string) :
  is_space c = false -> exists s', rstrip (String c s) = String c s'.
Proof.
  intros Hc. cbn [rstrip]. destruct (rstrip s); [|eauto].
  rewrite Hc. eauto.
Qed.

Lemma rstrip_rstrip (s : string) : rstrip (rstrip s) = rstrip s.
Proof.
  induction s as [|c s IH]; [reflexivity|].
  cbn [rstrip]. destruct (rstrip s) as [|c' s'] eqn:Hr.
  - destruct (is_space c) eqn:Hc; [reflexivity|].
    cbn [rstrip]. now rewrite Hc.
  - cbn [rstrip]. cbn [rstrip] in IH. rewrite IH. reflexivity.
Qed.

Lemma strip_strip (s : string) : strip (strip s) = strip s.
Proof.
  unfold strip. pose proof (lstrip_head s) as Hh.
  destruct (lstrip s) as [|c t] eqn:Hl; [reflexivity|].
  destruct (rstrip_keeps_head c t Hh) as [t' Ht'].
  rewrite Ht'. cbn [lstrip]. rewrite Hh, <- Ht'. apply rstrip_rstrip.
Qed.

(** ** The provider function *)

(** X3. The provider function depends on the period only through its
    lower-case form: two periods with the same lower-case form get the same
    function and parameters, and so do a period of ASCII text and its
    upper-case form.  It is one of the four time-series functions, the
    intraday one exactly for a period that is "intraday" in lower case; and
    extra parameters (the interval, and "adjusted" set to "true") are sent
    for the intraday function only. *)
Theorem provider_function_ignores_case (period intraday_interval : string) :
  (forall other,
     lower other = lower period ->
     alpha_function_for_period other intraday_interval =
     alpha_function_for_period period intraday_interval) /\
  (ascii_text period ->
   alpha_function_for_period (upper period) intraday_interval =
   alpha_function_for_period period intraday_interval) /\
  alpha_function_for_period (lower period) intraday_interval =
  alpha_function_for_period period intraday_interval /\
  In (fst (alpha_function_for_period period intraday_interval))
     ["TIME_SERIES_INTRADAY"; "TIME_SERIES_DAILY"; "TIME_SERIES_WEEKLY";
      "TIME_SERIES_MONTHLY"] /\
  snd (alpha_function_for_period period intraday_interval) =
  (if String.eqb (fst (alpha_function_for_period period intraday_interval))
                 "TIME_SERIES_INTRADAY"
   then [("interval", intraday_interval); ("adjusted", "true")]
   else []) /\
  (String.eqb (lower period) "intraday" = true <->
   fst (alpha_function_for_period period intraday_interval)
   = "TIME_SERIES_INTRADAY").
Proof.
  split; [intros other Heq; unfold alpha_function_for_period; now rewrite Heq|].
  unfold alpha_function_for_period. rewrite lower_upper, lower_lower.
  split; [reflexivity|]. split; [reflexivity|].
  destruct (String.eqb (lower period) "intraday");
    [|destruct (String.eqb (lower period) "daily");
      [|destruct (String.eqb (lower period) "weekly");
        [|destruct (String.eqb (lower period) "monthly")]]];
    simpl; repeat split; auto; discriminate.
Qed.

Lemma provider_function_ignores_case_witness :
  alpha_function_for_period "INTRADAY" "5min"
  = alpha_function_for_period "intraday" "5min".
Proof.
  apply (proj1 (proj2 (provider_function_ignores_case "intraday" "5min"))).
  reflexivity.
Defined.

(** ** The symbol *)

Lemma provider_request_symbol
    (symbol period outputsize intraday_interval k : string) :
  dict_get "symbol"
    (params (provider_request symbol period outputsize intraday_interval k))
  = Some (upper (strip symbol)).
Proof.
  unfold provider_request, alpha_function_for_period.
  destruct (String.eqb (lower period) "intraday"); [reflexivity|].
  destruct (String.eqb (lower period) "daily"); [reflexivity|].
  destruct (String.eqb (lower period) "weekly"); [reflexivity|].
  destruct (String.eqb (lower period) "monthly"); reflexivity.
Qed.

(** X4. For a symbol that is ASCII text between the blanks around it, the
    fetch depends on the symbol only up to these blanks and letter case: the
    result for the symbol is the result for the symbol stripped and in upper
    case, which is what the request carries as "symbol".  A symbol of blanks
    only raises [ValueError] whatever the environment and the network
    are. *)
Theorem fetch_normalises_symbol
    (getenv : string -> option string)
    (requests_get : request -> http_outcome)
    (float_of_str : string -> option Q)
    (symbol period : string) (api_key : option string)
    (outputsize intraday_interval k : string) :
  (ascii_text (strip symbol) ->
   fetch_stock_rows_from_alpha_vantage getenv requests_get float_of_str
     symbol period api_key outputsize intraday_interval =
   fetch_stock_rows_from_alpha_vantage getenv requests_get float_of_str
     (upper (strip symbol)) period api_key outputsize intraday_interval /\
   dict_get "symbol"
     (params (provider_request symbol period outputsize intraday_interval k))
   = Some (upper (strip symbol))) /\
  (strip symbol = "" ->
   fetch_stock_rows_from_alpha_vantage getenv requests_get float_of_str
     symbol period api_key outputsize intraday_interval = Raise ValueError).
Proof.
  split; [intros _; split|].
  - unfold fetch_stock_rows_from_alpha_vantage.
    rewrite strip_upper, strip_strip, upper_upper, !str_truthy_upper.
    destruct (str_truthy (strip symbol)) eqn:Hs.
    + now rewrite (strip_truthy _ Hs).
    + now rewrite !orb_true_r.
  - apply provider_request_symbol.
  - intros Hs. unfold fetch_stock_rows_from_alpha_vantage. rewrite Hs.
    now rewrite orb_true_r.
Qed.

Lemma fetch_normalises_symbol_witness :
  dict_get "symbol"
    (params (provider_request " ibm " "daily" "full" "60min" "demo"))
  = Some "IBM" /\
  fetch_stock_rows_from_alpha_vantage (env_with_key "demo")
    (provider_returns []) (fun _ => None) "   " "daily" None "full" "60min"
  = Raise ValueError.
Proof.
  destruct (fetch_normalises_symbol (env_with_key "demo")
              (provider_returns []) (fun _ => None) " ibm " "daily" None
              "full" "60min" "demo") as (Hnorm & _).
  destruct (fetch_normalises_symbol (env_with_key "demo")
              (provider_returns []) (fun _ => None) "   " "daily" None
              "full" "60min" "demo") as (_ & Hblank).
  split.
  - apply Hnorm. reflexivity.
  - apply Hblank. reflexivity.
Defined.

(** ** The rows of a response *)

Lemma format_rows_inv (float_of_str : string -> option Q)
    (items : list (string * json)) (acc rows : list row) :
  format_rows float_of_str items acc = Ok rows ->
  exists new, rows = (acc ++ new)%list /\
              Forall2 (row_of_entry float_of_str) items new.
Proof.
  revert acc. induction items as [|[date_str values] items IH]; intros acc;
    cbn [format_rows].
  - intros [= <-]. exists []. split; [now rewrite app_nil_r|constructor].
  - destruct (field float_of_str values "1. open") as [o|] eqn:Ho;
      [|discriminate].
    destruct (field float_of_str values "2. high") as [h|] eqn:Hh;
      [|discriminate].
    destruct (field float_of_str values "3. low") as [l|] eqn:Hl;
      [|discriminate].
    destruct (field float_of_str values "4. close") as [c|] eqn:Hc;
      [|discriminate].
    cbn [bind]. intros H. destruct (IH _ H) as [new [-> Hall]].
    exists (mk_row date_str o h l c :: new).
    split; [now rewrite <- app_assoc|].
    constructor; [|exact Hall]. repeat split; assumption.
Qed.

Lemma format_rows_complete (float_of_str : string -> option Q)
    (items : list (string * json)) (acc : list row) :
  forallb (fun item => forallb is_ok (entry_fields float_of_str (snd item)))
          items = true ->
  exists rows, format_rows float_of_str items acc = Ok rows.
Proof.
  revert acc. induction items as [|[date_str values] items IH]; intros acc;
    cbn [format_rows forallb]; [eauto|].
  unfold entry_fields. cbn [map forallb snd].
  destruct (field float_of_str values "1. open"); [|discriminate].
  destruct (field float_of_str values "2. high"); [|discriminate].
  destruct (field float_of_str values "3. low"); [|discriminate].
  destruct (field float_of_str values "4. close"); [|discriminate].
  cbn [bind is_ok andb]. apply IH.
Qed.

Lemma format_rows_incomplete (float_of_str : string -> option Q)
    (items : list (string * json)) (acc : list row) :
  Forall (fun item =>
            Forall data_error_only (entry_fields float_of_str (snd item)))
         items ->
  forallb (fun item => forallb is_ok (entry_fields float_of_str (snd item)))
          items = false ->
  except_key_value (format_rows float_of_str items acc) RuntimeError
  = Raise RuntimeError.
Proof.
  intros Hall. revert acc.
  induction Hall as [|[date_str values] items Hitem _ IH]; intros acc;
    cbn [format_rows forallb]; [discriminate|].
  unfold entry_fields in *. cbn [map forallb snd] in *.
  inversion Hitem as [|? ? Ho Hitem1]; subst.
  inversion Hitem1 as [|? ? Hh Hitem2]; subst.
  inversion Hitem2 as [|? ? Hl Hitem3]; subst.
  inversion Hitem3 as [|? ? Hc _]; subst.
  destruct (field float_of_str values "1. open") as [o|e];
    [|destruct Ho as [-> | ->]; reflexivity].
  destruct (field float_of_str values "2. high") as [h|e];
    [|destruct Hh as [-> | ->]; reflexivity].
  destruct (field float_of_str values "3. low") as [l|e];
    [|destruct Hl as [-> | ->]; reflexivity].
  destruct (field float_of_str values "4. close") as [c|e];
    [|destruct Hc as [-> | ->]; reflexivity].
  cbn [bind is_ok andb]. apply IH.
Qed.

Lemma rows_of_response_inv (float_of_str : string -> option Q)
    (data : dict json) (rows : list row) :
  rows_of_response float_of_str data = Ok rows ->
  rows <> [] /\
  exists key items,
    time_series_key data = Some key /\
    dict_get key data = Some (JObj items) /\
    Forall2 (row_of_entry float_of_str) items rows.
Proof.
  unfold rows_of_response.
  destruct (extract_time_series_from_response data) as [[key v]|] eqn:Hex;
    [|discriminate].
  destruct (extract_ok_inv _ _ _ Hex) as (Hkey & _ & Hget).
  cbn [bind snd].
  destruct v as [|b|q|s|l|items]; cbn [json_truthy json_len json_items negb bind].
  - discriminate.
  - destruct b; discriminate.
  - destruct (Qeq_bool q 0); discriminate.
  - destruct (str_truthy s); cbn [negb bind]; [|discriminate].
    destruct (Z.of_nat (String.length s) =? 0); discriminate.
  - destruct l; cbn [negb bind]; [discriminate|].
    destruct (Z.of_nat _ =? 0); discriminate.
  - destruct items as [|item items]; cbn [negb bind]; [discriminate|].
    destruct (Z.of_nat _ =? 0); [discriminate|].
    destruct (format_rows float_of_str (item :: items) []) as [rs|e] eqn:Hf;
      [|destruct e; discriminate].
    cbn [except_key_value]. intros [= <-].
    destruct (format_rows_inv _ _ _ _ Hf) as [new [-> Hall]].
    cbn [app]. split.
    + inversion Hall; discriminate.
    + exists key, (item :: items). auto.
Qed.

Lemma fetch_ok_inv
    (getenv : string -> option string)
    (requests_get : request -> http_outcome)
    (float_of_str : string -> option Q)
    (symbol period : string) (api_key : option string)
    (outputsize intraday_interval : string) (rows : list row) :
  fetch_stock_rows_from_alpha_vantage getenv requests_get float_of_str
    symbol period api_key outputsize intraday_interval = Ok rows ->
  str_truthy (strip symbol) = true /\
  exists k data,
    getenv "ALPHA_VANTAGE_API_KEY" = Some k /\ str_truthy k = true /\
    requests_get (provider_request symbol period outputsize intraday_interval k)
    = Body data /\
    rows_of_response float_of_str data = Ok rows.
Proof.
  intros H.
  assert (Hs : str_truthy (strip symbol) = true).
  { unfold fetch_stock_rows_from_alpha_vantage in H.
    destruct (str_truthy (strip symbol)); trivial.
    rewrite orb_true_r in H. discriminate. }
  split; trivial.
  destruct (getenv "ALPHA_VANTAGE_API_KEY") as [k|] eqn:Hk.
  - destruct (str_truthy k) eqn:Hk'.
    + rewrite (fetch_sends_request _ _ _ _ _ _ _ _ k Hs Hk Hk') in H.
      exists k. destruct (requests_get _) as [| | | | |data] eqn:Hreq;
        try discriminate.
      exists data. auto.
    + unfold fetch_stock_rows_from_alpha_vantage in H.
      rewrite Hs, (strip_truthy _ Hs), Hk, Hk' in H. discriminate.
  - unfold fetch_stock_rows_from_alpha_vantage in H.
    rewrite Hs, (strip_truthy _ Hs), Hk in H. discriminate.
Qed.

(** X5. A fetch that returns rows never returns an empty list: the
    response held a time series that is an object with at least one entry, and
    the rows are its entries in their order, each dated by the key of its
    entry and with the four prices converted by [float], which rounds an
    integer to the nearest double. *)
Theorem fetched_rows_are_the_entries
    (getenv : string -> option string)
    (requests_get : request -> http_outcome)
    (float_of_str : string -> option Q)
    (symbol period : string) (api_key : option string)
    (outputsize intraday_interval : string) (rows : list row) :
  fetch_stock_rows_from_alpha_vantage getenv requests_get float_of_str
    symbol period api_key outputsize intraday_interval = Ok rows ->
  rows <> [] /\
  exists k data key items,
    getenv "ALPHA_VANTAGE_API_KEY" = Some k /\
    requests_get (provider_request symbol period outputsize intraday_interval k)
    = Body data /\
    time_series_key data = Some key /\
    dict_get key data = Some (JObj items) /\
    map date rows = map fst items /\
    Forall2 (row_of_entry float_of_str) items rows.
Proof.
  intros H. destruct (fetch_ok_inv _ _ _ _ _ _ _ _ _ H)
    as (_ & k & data & Hk & _ & Hreq & Hrows).
  destruct (rows_of_response_inv _ _ _ Hrows)
    as (Hne & key & items & Hkey & Hget & Hall).
  split; trivial. exists k, data, key, items.
  repeat (split; trivial).
  clear -Hall. induction Hall as [|item r items rows [Hd _] _ IH]; simpl;
    [reflexivity|]. now rewrite Hd, IH.
Qed.

Lemma fetched_rows_are_the_entries_witness :
  fetch_stock_rows_from_alpha_vantage (env_with_key "demo")
    (provider_returns
       [("Meta Data", JObj []);
        ("Time Series (Daily)",
         JObj [("2024-01-03",
                JObj [("1. open", JNum 9007199254740993); ("2. high", JStr "3");
                      ("3. low", JNum 2); ("4. close", JNum 2)]);
               ("2024-01-02",
                JObj [("1. open", JNum 1); ("2. high", JNum 1);
                      ("3. low", JNum 1); ("4. close", JNum 1)])])])
    (fun s => if String.eqb s "3" then Some 3%Q else None)
    "ibm" "daily" None "full" "60min"
  = Ok [mk_row "2024-01-03" 9007199254740992 3 2 2;
        mk_row "2024-01-02" 1 1 1 1] /\
  map date [mk_row "2024-01-03" 9007199254740992 3 2 2;
            mk_row "2024-01-02" 1 1 1 1]
  = ["2024-01-03"; "2024-01-02"].
Proof.
  destruct (fetched_rows_are_the_entries (env_with_key "demo")
              (provider_returns
                 [("Meta Data", JObj []);
                  ("Time Series (Daily)",
                   JObj [("2024-01-03",
                          JObj [("1. open", JNum 9007199254740993);
                                ("2. high", JStr "3");
                                ("3. low", JNum 2); ("4. close", JNum 2)]);
                         ("2024-01-02",
                          JObj [("1. open", JNum 1); ("2. high", JNum 1);
                                ("3. low", JNum 1); ("4. close", JNum 1)])])])
              (fun s => if String.eqb s "3" then Some 3%Q else None)
              "ibm" "daily" None "full" "60min"
              [mk_row "2024-01-03" 9007199254740992 3 2 2;
               mk_row "2024-01-02" 1 1 1 1])
    as [_ (k & data & key & items & _ & Hbody & Hkey & Hget & Hdates & _)].
  - reflexivity.
  - split; [reflexivity|].
    unfold provider_returns in Hbody. injection Hbody as <-.
    vm_compute in Hkey. injection Hkey as <-.
    vm_compute in Hget. injection Hget as <-. exact Hdates.
Defined.

(** X6. When the time series is a non-empty object and the conversions of
    the fields of its entries fail, if at all, with [KeyError] (a field is
    missing) or [ValueError] (a text is not a number), the fetch returns rows
    if every entry has the four fields "1. open", "2. high", "3. low",
    "4. close" and each converts to a number, and raises [RuntimeError]
    otherwise.  The other exceptions of a conversion, [TypeError] and
    [OverflowError], are not caught by the fetch. *)
Theorem malformed_entries_raise_runtime_error
    (getenv : string -> option string)
    (requests_get : request -> http_outcome)
    (float_of_str : string -> option Q)
    (symbol period : string) (api_key : option string)
    (outputsize intraday_interval k : string)
    (data : dict json) (key : string) (items : list (string * json)) :
  str_truthy (strip symbol) = true ->
  getenv "ALPHA_VANTAGE_API_KEY" = Some k ->
  str_truthy k = true ->
  requests_get (provider_request symbol period outputsize intraday_interval k)
    = Body data ->
  time_series_key data = Some key ->
  dict_get key data = Some (JObj items) ->
  items <> [] ->
  Forall (fun item =>
            Forall data_error_only (entry_fields float_of_str (snd item)))
         items ->
  if forallb (fun item => forallb is_ok (entry_fields float_of_str (snd item)))
             items
  then exists rows,
         fetch_stock_rows_from_alpha_vantage getenv requests_get float_of_str
           symbol period api_key outputsize intraday_interval = Ok rows
  else fetch_stock_rows_from_alpha_vantage getenv requests_get float_of_str
         symbol period api_key outputsize intraday_interval
       = Raise RuntimeError.
Proof.
  intros Hs Hk Hk' Hreq Hkey Hget Hne Hall.
  rewrite (fetch_sends_request _ _ _ _ _ _ _ _ k Hs Hk Hk'), Hreq.
  unfold rows_of_response, extract_time_series_from_response.
  rewrite Hkey, Hget. cbn [bind snd json_truthy json_len json_items].
  destruct items as [|item items]; [contradiction|].
  cbn [negb bind]. cbn [List.length]. rewrite Nat2Z.inj_succ.
  replace (Z.succ (Z.of_nat (List.length items)) =? 0) with false
    by (symmetry; apply Z.eqb_neq; lia).
  destruct (forallb _ (item :: items)) eqn:Hc.
  - destruct (format_rows_complete float_of_str _ [] Hc) as [rows Hrows].
    exists rows. now rewrite Hrows.
  - now apply format_rows_incomplete.
Qed.

Lemma malformed_entries_raise_runtime_error_witness :
  fetch_stock_rows_from_alpha_vantage (env_with_key "demo")
    (provider_returns
       [("Time Series (Daily)",
         JObj [("2024-01-03",
                JObj [("1. open", JNum 2); ("2. high", JNum 2);
                      ("3. low", JNum 2)])])])
    (fun _ => None) "ibm" "daily" None "full" "60min"
  = Raise RuntimeError.
Proof.
  apply (malformed_entries_raise_runtime_error (env_with_key "demo")
           (provider_returns
              [("Time Series (Daily)",
                JObj [("2024-01-03",
                       JObj [("1. open", JNum 2); ("2. high", JNum 2);
                             ("3. low", JNum 2)])])])
           (fun _ => None) "ibm" "daily" None "full" "60min" "demo"
           [("Time Series (Daily)",
             JObj [("2024-01-03",
                    JObj [("1. open", JNum 2); ("2. high", JNum 2);
                          ("3. low", JNum 2)])])]
           "Time Series (Daily)"
           [("2024-01-03",
             JObj [("1. open", JNum 2); ("2. high", JNum 2);
                   ("3. low", JNum 2)])]);
    try reflexivity.
  - discriminate.
  - repeat constructor.
Defined.

(** ** Reading fixed-width dates *)

Lemma range_forall (P : Z -> Prop) (lo : Z) (count : nat) :
  Forall P (map (fun i => lo + Z.of_nat i) (List.seq 0 count)) ->
  forall n, lo <= n < lo + Z.of_nat count -> P n.
Proof.
  rewrite Forall_forall. intros H n Hn. apply H.
  replace n with (lo + Z.of_nat (Z.to_nat (n - lo))) by lia.
  apply (in_map (fun i => lo + Z.of_nat i)). apply in_seq. lia.
Qed.

Ltac by_cases_from lo count :=
  match goal with
  | |- forall n, _ -> @?P n =>
      let H := fresh in
      assert (H : forall n, lo <= n < lo + Z.of_nat count -> P n);
      [ apply (range_forall P lo count);
        cbv [List.seq map Z.of_nat Pos.of_succ_nat Pos.succ Z.add Pos.add];
        repeat constructor
      | intros n Hn; apply H; lia ]
  end.

Lemma two_digits_fixed :
  forall n, 0 <= n <= 99 ->
  forall rest, two_digits 0 9 0 9 (fixed_digits 2 n ++ rest) = [(n, rest)].
Proof. by_cases_from 0 100%nat; intros; reflexivity. Qed.

Lemma fixed_digits_4_split (y : Z) :
  0 <= y <= 9999 ->
  fixed_digits 4 y = fixed_digits 2 (y / 100) ++ fixed_digits 2 (y mod 100).
Proof.
  intros Hy. cbn [fixed_digits append Z.of_nat].
  change (10 ^ Z.of_nat 3) with 1000. change (10 ^ Z.of_nat 2) with 100.
  change (10 ^ Z.of_nat 1) with 10. change (10 ^ Z.of_nat 0) with 1.
  repeat (f_equal; try (Z.div_mod_to_equations; lia)).
Qed.

Lemma re_Y_fixed (y : Z) (rest : string) :
  0 <= y <= 9999 -> re_Y (fixed_digits 4 y ++ rest) = [(y, rest)].
Proof.
  intros Hy. rewrite (fixed_digits_4_split y Hy), append_assoc.
  unfold re_Y, seq.
  rewrite two_digits_fixed by (Z.div_mod_to_equations; lia).
  cbn [flat_map]. rewrite two_digits_fixed by (Z.div_mod_to_equations; lia).
  cbn [map app]. repeat f_equal. Z.div_mod_to_equations. lia.
Qed.

Lemma seq_single {A B : Type} (p : matcher A) (q : A -> matcher B)
    (s rest : string) (a : A) :
  p s = [(a, rest)] -> seq p q s = q a rest.
Proof. intros H. unfold seq. rewrite H. cbn [flat_map]. apply app_nil_r. Qed.

Lemma seq_head {A B : Type} (p : matcher A) (q : A -> matcher B)
    (s rest rest' : string) (a : A) (b : B) :
  (exists tl, p s = (a, rest) :: tl) ->
  (exists tl, q a rest = (b, rest') :: tl) ->
  exists tl, seq p q s = (b, rest') :: tl.
Proof.
  intros [tl Hp] [tl' Hq]. unfold seq. rewrite Hp. cbn [flat_map].
  rewrite Hq. cbn [app]. eauto.
Qed.

Lemma lit_cons (c : ascii) (rest : string) : lit c (String c rest) = [(tt, rest)].
Proof. unfold lit. now rewrite Ascii.eqb_refl. Qed.

(** The month, followed by the hyphen. *)
Lemma re_m_fixed :
  forall m, 1 <= m <= 12 ->
  forall (B : Type) (k : Z -> matcher B) (rest : string),
    seq re_m (fun m' => seq (lit "-") (fun _ => k m'))
        (fixed_digits 2 m ++ String "-" rest) = k m rest.
Proof.
  by_cases_from 1 12%nat; intros; cbn; rewrite ?app_nil_r; reflexivity.
Qed.

(** The day, at the end of the text, followed by a blank, or in front of
    the blanks the longer format asks for. *)
Lemma re_d_fixed_end :
  forall d, 1 <= d <= 31 -> exists tl, re_d (fixed_digits 2 d) = (d, "") :: tl.
Proof. by_cases_from 1 31%nat; eexists; reflexivity. Qed.

Lemma re_d_fixed_blank :
  forall d, 1 <= d <= 31 ->
  forall rest, exists tl,
    re_d (fixed_digits 2 d ++ String " " rest) = (d, String " " rest) :: tl.
Proof. by_cases_from 1 31%nat; intros; eexists; reflexivity. Qed.

Lemma re_d_fixed_no_blank :
  forall d, 1 <= d <= 31 ->
  forall (B : Type) (k : Z -> matcher B),
    seq re_d (fun d' => seq spaces (fun _ => k d')) (fixed_digits 2 d) = [].
Proof. by_cases_from 1 31%nat; intros; reflexivity. Qed.

Lemma re_d_fixed_time :
  forall d, 1 <= d <= 31 ->
  forall (B : Type) (k : Z -> matcher B) (c : ascii) (rest : string),
    is_space c = false ->
    seq re_d (fun d' => seq spaces (fun _ => k d'))
        (fixed_digits 2 d ++ String " " (String c rest)) = k d (String c rest).
Proof.
  by_cases_from 1 31%nat; intros B k c rest Hc;
    cbn; rewrite Hc; cbn; rewrite ?app_nil_r; reflexivity.
Qed.

Lemma re_H_fixed :
  forall h, 0 <= h <= 23 ->
  forall (B : Type) (k : Z -> matcher B) (rest : string),
    seq re_H (fun h' => seq (lit ":") (fun _ => k h'))
        (fixed_digits 2 h ++ String ":" rest) = k h rest.
Proof.
  by_cases_from 0 24%nat; intros; cbn; rewrite ?app_nil_r; reflexivity.
Qed.

Lemma re_M_fixed :
  forall m, 0 <= m <= 59 ->
  forall (B : Type) (k : Z -> matcher B) (rest : string),
    seq re_M (fun m' => seq (lit ":") (fun _ => k m'))
        (fixed_digits 2 m ++ String ":" rest) = k m rest.
Proof.
  by_cases_from 0 60%nat; intros; cbn; rewrite ?app_nil_r; reflexivity.
Qed.

Lemma re_S_fixed_end :
  forall s, 0 <= s <= 59 -> exists tl, re_S (fixed_digits 2 s) = (s, "") :: tl.
Proof. by_cases_from 0 60%nat; eexists; reflexivity. Qed.

Lemma hour_digit_not_blank :
  forall h, 0 <= h <= 23 ->
  exists c rest, fixed_digits 2 h = String c rest /\ is_space c = false.
Proof. by_cases_from 0 24%nat; eexists; eexists; split; reflexivity. Qed.

Section FixedWidth.
Variables y m d hh mm ss : Z.
Hypothesis Hy : 0 <= y <= 9999.
Hypothesis Hm : 1 <= m <= 12.
Hypothesis Hd : 1 <= d <= 31.

Lemma re_date_date_text :
  exists tl, re_date (date_text (mk_datetime y m d 0 0 0))
             = (mk_datetime y m d 0 0 0, "") :: tl.
Proof.
  unfold date_text, re_date. cbn [year month day append].
  rewrite (seq_single re_Y _ _ _ _ (re_Y_fixed y _ Hy)).
  rewrite (seq_single (lit "-") _ _ _ _ (lit_cons "-" _)).
  rewrite (re_m_fixed m Hm _
             (fun m' => seq re_d (fun d' s => [(mk_datetime y m' d' 0 0 0, s)]))).
  destruct (re_d_fixed_end d Hd) as [tl Htl].
  unfold seq. rewrite Htl. cbn [flat_map app]. eauto.
Qed.

Lemma re_datetime_date_text :
  re_datetime (date_text (mk_datetime y m d 0 0 0)) = [].
Proof.
  unfold date_text, re_datetime. cbn [year month day append].
  rewrite (seq_single re_Y _ _ _ _ (re_Y_fixed y _ Hy)).
  rewrite (seq_single (lit "-") _ _ _ _ (lit_cons "-" _)).
  rewrite (re_m_fixed m Hm _
             (fun m' =>
                seq re_d (fun d' => seq spaces (fun _ =>
                  seq re_H (fun h' => seq (lit ":") (fun _ =>
                    seq re_M (fun mi' => seq (lit ":") (fun _ =>
                      seq re_S (fun s' s =>
                        [(mk_datetime y m' d' h' mi' s', s)]))))))))).
  apply (re_d_fixed_no_blank d Hd).
Qed.

Hypothesis Hhh : 0 <= hh <= 23.
Hypothesis Hmm : 0 <= mm <= 59.
Hypothesis Hss : 0 <= ss <= 59.

Lemma datetime_text_shape :
  date_text (mk_datetime y m d hh mm ss) ++ time_text (mk_datetime y m d hh mm ss)
  = fixed_digits 4 y ++ String "-" (fixed_digits 2 m ++ String "-"
      (fixed_digits 2 d ++ String " " (fixed_digits 2 hh ++ String ":"
         (fixed_digits 2 mm ++ String ":" (fixed_digits 2 ss))))).
Proof.
  unfold date_text, time_text. cbn [year month day hour minute second].
  rewrite !append_assoc. cbn [append]. rewrite ?append_assoc. reflexivity.
Qed.

Lemma re_date_datetime_text :
  exists tl rest,
    re_date (date_text (mk_datetime y m d hh mm ss)
             ++ time_text (mk_datetime y m d hh mm ss))
    = (mk_datetime y m d 0 0 0, String " " rest) :: tl.
Proof.
  rewrite datetime_text_shape. unfold re_date.
  rewrite (seq_single re_Y _ _ _ _ (re_Y_fixed y _ Hy)).
  rewrite (seq_single (lit "-") _ _ _ _ (lit_cons "-" _)).
  rewrite (re_m_fixed m Hm _
             (fun m' => seq re_d (fun d' s => [(mk_datetime y m' d' 0 0 0, s)]))).
  destruct (re_d_fixed_blank d Hd
              (fixed_digits 2 hh ++ String ":"
                 (fixed_digits 2 mm ++ String ":" (fixed_digits 2 ss))))
    as [tl Htl].
  unfold seq. rewrite Htl. cbn [flat_map app]. eauto.
Qed.

Lemma re_datetime_datetime_text :
  exists tl,
    re_datetime (date_text (mk_datetime y m d hh mm ss)
                 ++ time_text (mk_datetime y m d hh mm ss))
    = (mk_datetime y m d hh mm ss, "") :: tl.
Proof.
  rewrite datetime_text_shape. unfold re_datetime.
  rewrite (seq_single re_Y _ _ _ _ (re_Y_fixed y _ Hy)).
  rewrite (seq_single (lit "-") _ _ _ _ (lit_cons "-" _)).
  rewrite (re_m_fixed m Hm _
             (fun m' =>
                seq re_d (fun d' => seq spaces (fun _ =>
                  seq re_H (fun h' => seq (lit ":") (fun _ =>
                    seq re_M (fun mi' => seq (lit ":") (fun _ =>
                      seq re_S (fun s' s =>
                        [(mk_datetime y m' d' h' mi' s', s)]))))))))).
  destruct (hour_digit_not_blank hh Hhh) as (c & rest & Hc & Hsp).
  rewrite Hc. cbn [append].
  rewrite (re_d_fixed_time d Hd _
             (fun d' =>
                seq re_H (fun h' => seq (lit ":") (fun _ =>
                  seq re_M (fun mi' => seq (lit ":") (fun _ =>
                    seq re_S (fun s' s =>
                      [(mk_datetime y m d' h' mi' s', s)]))))))
             c _ Hsp).
  change (String c (rest ++ String ":"
            (fixed_digits 2 mm ++ String ":" (fixed_digits 2 ss))))
    with (String c rest ++ String ":"
            (fixed_digits 2 mm ++ String ":" (fixed_digits 2 ss))).
  rewrite <- Hc.
  rewrite (re_H_fixed hh Hhh _
             (fun h' =>
                seq re_M (fun mi' => seq (lit ":") (fun _ =>
                  seq re_S (fun s' s =>
                    [(mk_datetime y m d h' mi' s', s)]))))).
  rewrite (re_M_fixed mm Hmm _
             (fun mi' =>
                seq re_S (fun s' s => [(mk_datetime y m d hh mi' s', s)]))).
  destruct (re_S_fixed_end ss Hss) as [tl Htl].
  unfold seq. rewrite Htl. cbn [flat_map app]. eauto.
Qed.
End FixedWidth.

Lemma days_in_month_bounds (y m : Z) : 28 <= days_in_month y m <= 31.
Proof.
  unfold days_in_month.
  destruct (m =? 2); [destruct (is_leap y); lia|].
  destruct ((m =? 4) || (m =? 6) || (m =? 9) || (m =? 11)); lia.
Qed.

(** X7. A date string in one of the two fixed-width forms is read back as
    the date-time it was written from: [YYYY-MM-DD] as midnight of the day,
    [YYYY-MM-DD HH:MM:SS] with its time of day. *)
Theorem parse_date_reads_fixed_width (text : string) (dt : datetime) :
  valid_datetime dt = true ->
  fixed_width text dt ->
  parse_date text = Ok dt.
Proof.
  intros Hv Hfw.
  destruct (valid_datetime_date dt Hv) as ((Hy & Hm & Hd) & Hh & Hmi & Hs).
  pose proof (days_in_month_bounds (year dt) (month dt)) as Hd31.
  destruct dt as [y m d hh mm ss]. cbn [year month day hour minute second] in *.
  unfold parse_date.
  destruct Hfw as [(-> & Hh0 & Hm0 & Hs0)| ->].
  - cbn [hour minute second] in *. subst hh mm ss.
    destruct (re_date_date_text y m d ltac:(lia) Hm ltac:(lia)) as [tl Htl].
    unfold date_text in *. cbn [year month day] in *.
    unfold strptime. rewrite Htl, Hv. reflexivity.
  - destruct (re_date_datetime_text y m d hh mm ss ltac:(lia) Hm ltac:(lia))
      as (tl & rest & Htl).
    destruct (re_datetime_datetime_text y m d hh mm ss
                ltac:(lia) Hm ltac:(lia) Hh Hmi Hs) as [tl' Htl'].
    unfold strptime at 1. rewrite Htl.
    unfold strptime. rewrite Htl', Hv. reflexivity.
Qed.

Lemma parse_date_reads_fixed_width_witness :
  parse_date "2024-02-29 09:05:00" = Ok (mk_datetime 2024 2 29 9 5 0).
Proof.
  apply (parse_date_reads_fixed_width "2024-02-29 09:05:00"
           (mk_datetime 2024 2 29 9 5 0)).
  - reflexivity.
  - right. reflexivity.
Defined.

(** X8. A text [YYYY-MM-DD] with a month from 01 to 12 and a day from 01 to
    31 is accepted exactly when the day exists in the calendar and the year is
    not 0000; otherwise [parse_date] raises [ValueError].  So February 29 is
    read in leap years only. *)
Theorem parse_date_checks_the_calendar (y m d : Z) :
  0 <= y <= 9999 -> 1 <= m <= 12 -> 1 <= d <= 31 ->
  parse_date (date_text (mk_datetime y m d 0 0 0)) =
  (if (1 <=? y) && (d <=? days_in_month y m)
   then Ok (mk_datetime y m d 0 0 0) else Raise ValueError) /\
  (m = 2 -> d = 29 -> 1 <= y ->
   (exists dt, parse_date (date_text (mk_datetime y m d 0 0 0)) = Ok dt) <->
   is_leap y = true).
Proof.
  intros Hy Hm Hd.
  assert (Hparse :
    parse_date (date_text (mk_datetime y m d 0 0 0)) =
    (if (1 <=? y) && (d <=? days_in_month y m)
     then Ok (mk_datetime y m d 0 0 0) else Raise ValueError)).
  { destruct (re_date_date_text y m d Hy Hm Hd) as [tl Htl].
    pose proof (re_datetime_date_text y m d Hy Hm Hd) as Hnone.
    unfold parse_date, strptime. rewrite Htl, Hnone.
    assert (Hvalid : valid_datetime (mk_datetime y m d 0 0 0)
                     = (1 <=? y) && (d <=? days_in_month y m)).
    { unfold valid_datetime. cbn [year month day hour minute second].
      replace (y <=? 9999) with true by (symmetry; apply Z.leb_le; lia).
      replace (1 <=? m) with true by (symmetry; apply Z.leb_le; lia).
      replace (m <=? 12) with true by (symmetry; apply Z.leb_le; lia).
      replace (1 <=? d) with true by (symmetry; apply Z.leb_le; lia).
      cbn. now rewrite !andb_true_r. }
    rewrite Hvalid. now destruct ((1 <=? y) && (d <=? days_in_month y m)). }
  split; [exact Hparse|].
  intros -> -> Hy1. rewrite Hparse.
  replace (1 <=? y) with true by (symmetry; apply Z.leb_le; lia).
  unfold days_in_month. cbn [Z.eqb andb].
  destruct (is_leap y); cbn; split; intros H; eauto; try discriminate.
  destruct H as [dt H]. discriminate.
Qed.

Lemma parse_date_checks_the_calendar_witness :
  parse_date "2023-02-29" = Raise ValueError /\
  parse_date "2024-04-31" = Raise ValueError /\
  parse_date "0000-01-01" = Raise ValueError.
Proof.
  split; [|split].
  - apply (parse_date_checks_the_calendar 2023 2 29); lia.
  - apply (parse_date_checks_the_calendar 2024 4 31); lia.
  - apply (parse_date_checks_the_calendar 0 1 1); lia.
Defined.

(** ** Outcomes of the date filter *)

Lemma datetime_ltb_false_leb (a b : datetime) :
  datetime_ltb b a = false -> datetime_leb a b = true.
Proof.
  unfold datetime_leb, datetime_ltb.
  rewrite (lex_compare_antisym (datetime_key b)).
  destruct (lex_compare (datetime_key a) (datetime_key b)); simpl; congruence.
Qed.

Lemma parses_dec (r : row) : {parses r} + {~ parses r}.
Proof.
  unfold parses. destruct (parse_date (date r)) as [dt|e].
  - left. now exists dt.
  - right. intros [dt H]. discriminate.
Qed.

Lemma filter_loop_cases (start end_ : datetime) (rows acc : list row) :
  (Forall parses rows /\
   filter_loop start end_ rows acc
   = Ok (acc ++ filter (in_window start end_) rows)%list) \/
  (Exists (fun r => ~ parses r) rows /\
   filter_loop start end_ rows acc = Raise ValueError).
Proof.
  destruct (Forall_Exists_dec parses parses_dec rows) as [Hall|Hex].
  - left. split; trivial. now apply filter_loop_parsed.
  - right. split; trivial. now apply filter_loop_unparsed.
Qed.

Lemma filter_by_date_bad_bound (rows : list row) (start_date end_date : string) :
  (forall start end_,
     parse_date start_date = Ok start -> parse_date end_date = Ok end_ ->
     False) ->
  filter_by_date rows start_date end_date = Raise ValueError.
Proof.
  intros H. unfold filter_by_date.
  destruct (parse_date start_date) as [start|e] eqn:Hs.
  - destruct (parse_date end_date) as [end_|e] eqn:He.
    + exfalso. eauto.
    + now rewrite (parse_date_raise _ _ He).
  - now rewrite (parse_date_raise _ _ Hs).
Qed.

Lemma filter_by_date_bounds (rows : list row) (start_date end_date : string)
    (start end_ : datetime) :
  parse_date start_date = Ok start ->
  parse_date end_date = Ok end_ ->
  filter_by_date rows start_date end_date =
  if datetime_ltb end_ start then Raise ValueError
  else
    filtered_rows <- filter_loop start end_ rows [] ;;
    match filtered_rows with
    | [] => Raise NoDataAvailableError
    | _ => Ok (sort_by date filtered_rows)
    end.
Proof. intros Hs He. unfold filter_by_date. now rewrite Hs, He. Qed.

(** X9. The date filter fails with [ValueError] or [NoDataAvailableError]
    only.  The order of the bounds is checked before any row is read: bounds
    that parse with the start after the end raise [ValueError] whatever the
    rows are.  [NoDataAvailableError] is raised exactly when both bounds parse,
    are in order, the date of every row parses and no row passes the test of
    the window; a row whose date does not parse raises [ValueError] even when
    other rows are in the window. *)
Theorem filter_failures_are_classified
    (rows : list row) (start_date end_date : string) :
  (forall e, filter_by_date rows start_date end_date = Raise e ->
             e = ValueError \/ e = NoDataAvailableError) /\
  (forall start end_,
     parse_date start_date = Ok start -> parse_date end_date = Ok end_ ->
     datetime_ltb end_ start = true ->
     filter_by_date rows start_date end_date = Raise ValueError) /\
  (filter_by_date rows start_date end_date = Raise NoDataAvailableError <->
   exists start end_,
     parse_date start_date = Ok start /\ parse_date end_date = Ok end_ /\
     datetime_leb start end_ = true /\ Forall parses rows /\
     filter (in_window start end_) rows = []) /\
  (forall start end_,
     parse_date start_date = Ok start -> parse_date end_date = Ok end_ ->
     Exists (fun r => ~ parses r) rows ->
     filter_by_date rows start_date end_date = Raise ValueError).
Proof.
  assert (Hcases :
    (filter_by_date rows start_date end_date = Raise ValueError /\
     forall start end_,
       parse_date start_date = Ok start -> parse_date end_date = Ok end_ ->
       datetime_leb start end_ = true -> Forall parses rows -> False) \/
    exists start end_,
      parse_date start_date = Ok start /\ parse_date end_date = Ok end_ /\
      datetime_leb start end_ = true /\ Forall parses rows /\
      filter_by_date rows start_date end_date =
      match filter (in_window start end_) rows with
      | [] => Raise NoDataAvailableError
      | kept => Ok (sort_by date kept)
      end).
  { destruct (parse_date start_date) as [start|e] eqn:Hs.
    2: { left. split; [|intros; discriminate].
         apply filter_by_date_bad_bound. intros. congruence. }
    destruct (parse_date end_date) as [end_|e] eqn:He.
    2: { left. split; [|intros; discriminate].
         apply filter_by_date_bad_bound. intros. congruence. }
    destruct (datetime_ltb end_ start) eqn:Hlt.
    - left. split.
      + rewrite (filter_by_date_bounds rows _ _ start end_ Hs He). now rewrite Hlt.
      + intros s0 e0 [= <-] [= <-] Hle _.
        rewrite (datetime_leb_not_ltb _ _ Hle) in Hlt. discriminate.
    - destruct (filter_loop_cases start end_ rows []) as [[Hall _]|[Hex Hloop]].
      + right. exists start, end_. repeat (split; trivial).
        * now apply datetime_ltb_false_leb.
        * apply filter_by_date_parsed; trivial.
          now apply datetime_ltb_false_leb.
      + left. split.
        * rewrite (filter_by_date_bounds rows _ _ start end_ Hs He).
          now rewrite Hlt, Hloop.
        * intros s0 e0 _ _ _ Hall. apply Exists_exists in Hex as (r & Hr & Hn).
          rewrite Forall_forall in Hall. auto. }
  split; [|split; [|split]].
  - intros e He. destruct Hcases as [[Hv _]|(start & end_ & _ & _ & _ & _ & Hf)].
    + left. congruence.
    + rewrite Hf in He. destruct (filter _ rows); [|discriminate].
      right. congruence.
  - intros start end_ Hs He Hlt.
    rewrite (filter_by_date_bounds rows _ _ start end_ Hs He). now rewrite Hlt.
  - split.
    + intros Hno.
      destruct Hcases as [[Hv _]|(start & end_ & Hs & He & Hle & Hall & Hf)];
        [congruence|].
      exists start, end_. repeat (split; trivial).
      rewrite Hf in Hno. now destruct (filter _ rows).
    + intros (start & end_ & Hs & He & Hle & Hall & Hnone).
      rewrite (filter_by_date_parsed rows _ _ start end_); trivial.
      now rewrite Hnone.
  - intros start end_ Hs He Hex.
    rewrite (filter_by_date_bounds rows _ _ start end_ Hs He).
    destruct (datetime_ltb end_ start); trivial.
    now rewrite (filter_loop_unparsed _ _ _ _ Hex).
Qed.

Lemma filter_failures_are_classified_witness :
  filter_by_date [mk_row "not a date" 1 1 1 1] "2024-03-01" "2024-01-01"
  = Raise ValueError /\
  filter_by_date [mk_row "2024-02-01" 1 1 1 1; mk_row "2024-13-01" 1 1 1 1]
    "2024-01-01" "2024-03-01" = Raise ValueError.
Proof.
  split.
  - destruct (filter_failures_are_classified [mk_row "not a date" 1 1 1 1]
                "2024-03-01" "2024-01-01") as (_ & Hrange & _).
    apply (Hrange (mk_datetime 2024 3 1 0 0 0) (mk_datetime 2024 1 1 0 0 0));
      reflexivity.
  - destruct (filter_failures_are_classified
                [mk_row "2024-02-01" 1 1 1 1; mk_row "2024-13-01" 1 1 1 1]
                "2024-01-01" "2024-03-01") as (_ & _ & _ & Hrow).
    apply (Hrow (mk_datetime 2024 1 1 0 0 0) (mk_datetime 2024 3 1 0 0 0));
      try reflexivity.
    apply Exists_cons_tl, Exists_cons_hd. intros [dt H]. discriminate.
Defined.

(** ** Results of the date filter *)

Lemma filter_by_date_ok_inv (rows out : list row) (start_date end_date : string) :
  filter_by_date rows start_date end_date = Ok out ->
  exists start end_,
    parse_date start_date = Ok start /\ parse_date end_date = Ok end_ /\
    datetime_leb start end_ = true /\ Forall parses rows /\
    filter (in_window start end_) rows <> [] /\
    out = sort_by date (filter (in_window start end_) rows).
Proof.
  intros H.
  destruct (parse_date start_date) as [start|e] eqn:Hs.
  2: { rewrite filter_by_date_bad_bound in H; [discriminate|].
       intros. congruence. }
  destruct (parse_date end_date) as [end_|e] eqn:He.
  2: { rewrite filter_by_date_bad_bound in H; [discriminate|].
       intros. congruence. }
  rewrite (filter_by_date_bounds rows _ _ start end_ Hs He) in H.
  destruct (datetime_ltb end_ start) eqn:Hlt; [discriminate|].
  destruct (filter_loop_cases start end_ rows []) as [[Hall Hl]|[_ Hl]];
    rewrite Hl in H; [|discriminate].
  cbn [bind app] in H.
  exists start, end_. repeat (split; trivial).
  - now apply datetime_ltb_false_leb.
  - intros Hnil. rewrite Hnil in H. discriminate.
  - destruct (filter (in_window start end_) rows); [discriminate|].
    now injection H as <-.
Qed.

Lemma sort_by_sorted_id {A : Type} (key : A -> string) (l : list A) :
  Sorted (ascending_by key) l -> sort_by key l = l.
Proof.
  induction 1 as [|x l Hs IH Hhd]; [reflexivity|].
  cbn [sort_by]. rewrite IH. destruct Hhd as [|y l' Hxy]; [reflexivity|].
  cbn [insert_by].
  destruct (String.ltb (key y) (key x)) eqn:Hlt; [|reflexivity].
  apply string_ltb_iff in Hlt. unfold ascending_by in Hxy.
  apply string_leb_iff in Hxy. rewrite String.compare_antisym, Hlt in Hxy.
  now contradiction Hxy.
Qed.

Lemma in_window_parses (start end_ : datetime) (r : row) :
  in_window start end_ r = true -> parses r.
Proof.
  unfold in_window, parses. destruct (parse_date (date r)) as [dt|];
    [eauto|discriminate].
Qed.

(** X10. When the date filter returns rows, the list is not empty and is
    sorted ascending by date string; it holds exactly the rows of the input
    that pass the test of the window, as often as the input does; and the date
    of every row of the input parsed. *)
Theorem filter_returns_the_rows_in_the_window
    (rows out : list row) (start_date end_date : string) :
  filter_by_date rows start_date end_date = Ok out ->
  out <> [] /\
  Sorted by_date out /\
  Forall parses rows /\
  exists start end_,
    parse_date start_date = Ok start /\ parse_date end_date = Ok end_ /\
    datetime_leb start end_ = true /\
    Permutation out (filter (in_window start end_) rows) /\
    (forall r, In r out <-> In r rows /\ in_window start end_ r = true).
Proof.
  intros H.
  destruct (filter_by_date_ok_inv _ _ _ _ H)
    as (start & end_ & Hs & He & Hle & Hall & Hne & ->).
  split; [|split; [|split]].
  - intros Hnil. apply sort_by_nil_inv in Hnil. contradiction.
  - apply sort_by_sorted.
  - exact Hall.
  - exists start, end_.
    split; [exact Hs|]. split; [exact He|]. split; [exact Hle|].
    split; [apply sort_by_perm|].
    intros r. rewrite (sort_by_in date), filter_In. reflexivity.
Qed.

Lemma filter_returns_the_rows_in_the_window_witness :
  [mk_row "2024-01-02" 1 2 0 1; mk_row "2024-01-05" 3 5 2 4] <> [].
Proof.
  destruct (filter_returns_the_rows_in_the_window
              [mk_row "2024-01-05" 3 5 2 4; mk_row "2024-02-01" 7 7 7 7;
               mk_row "2024-01-02" 1 2 0 1]
              [mk_row "2024-01-02" 1 2 0 1; mk_row "2024-01-05" 3 5 2 4]
              "2024-01-01" "2024-01-31" eq_refl) as [Hne _].
  exact Hne.
Defined.

(** X11. Filtering is idempotent: filtering the result of the filter again
    with the same bounds returns it unchanged. *)
Theorem filter_is_idempotent
    (rows out : list row) (start_date end_date : string) :
  filter_by_date rows start_date end_date = Ok out ->
  filter_by_date out start_date end_date = Ok out.
Proof.
  intros H.
  destruct (filter_by_date_ok_inv _ _ _ _ H)
    as (start & end_ & Hs & He & Hle & Hall & Hne & ->).
  set (kept := filter (in_window start end_) rows) in *.
  assert (Hin : forall r, In r (sort_by date kept) ->
                          in_window start end_ r = true).
  { intros r Hr. apply (proj1 (sort_by_in date _ _)) in Hr.
    now apply filter_In in Hr. }
  rewrite (filter_by_date_parsed _ _ _ start end_ Hs He Hle).
  - rewrite (filter_all _ _ Hin).
    pose proof (sort_by_sorted_id date _ (sort_by_sorted date kept)) as Hid.
    destruct (sort_by date kept) as [|r l] eqn:Hsort.
    + apply sort_by_nil_inv in Hsort. contradiction.
    + now rewrite Hid.
  - apply Forall_forall. intros r Hr. eapply in_window_parses. eauto.
Qed.

Lemma filter_is_idempotent_witness :
  filter_by_date [mk_row "2024-01-02" 1 2 0 1; mk_row "2024-01-05" 3 5 2 4]
    "2024-01-01" "2024-01-31"
  = Ok [mk_row "2024-01-02" 1 2 0 1; mk_row "2024-01-05" 3 5 2 4].
Proof.
  apply (filter_is_idempotent
           [mk_row "2024-01-05" 3 5 2 4; mk_row "2024-02-01" 7 7 7 7;
            mk_row "2024-01-02" 1 2 0 1]).
  reflexivity.
Defined.

(** ** Outcomes of the aggregation *)

Lemma group_label_raise (period : string) (r : row) (e : exn) :
  group_label period r = Raise e -> e = ValueError /\ ~ parses r.
Proof.
  unfold group_label, parses.
  destruct (parse_date (date r)) as [dt|e'] eqn:Hp; cbn [bind].
  - destruct (String.eqb period "weekly"); [discriminate|].
    destruct (String.eqb period "monthly"); discriminate.
  - intros [= <-]. split; [now apply parse_date_raise in Hp|].
    intros [dt H]. discriminate.
Qed.

Lemma group_label_parses (period : string) (r : row) (l : string) :
  group_label period r = Ok l -> parses r.
Proof.
  unfold group_label, parses.
  destruct (parse_date (date r)) as [dt|e']; [eauto|discriminate].
Qed.

Lemma group_loop_raise (period : string) (rows : list row)
    (g : dict (list row)) (e : exn) :
  group_loop period rows g = Raise e ->
  e = ValueError /\ Exists (fun r => ~ parses r) rows.
Proof.
  revert g. induction rows as [|r rows IH]; intros g; cbn [group_loop];
    [discriminate|].
  destruct (group_label period r) as [lab|e'] eqn:Hlab; cbn [bind].
  - destruct (dict_append_defined lab r
                (if dict_mem lab g then g else dict_set lab [] g)) as [g2 Hg2].
    { destruct (dict_mem lab g) eqn:Hm; trivial.
      unfold dict_mem. now rewrite dict_get_set, String.eqb_refl. }
    rewrite Hg2. intros H. destruct (IH _ H) as [He Hex].
    split; [exact He|now apply Exists_cons_tl].
  - intros [= <-]. destruct (group_label_raise _ _ _ Hlab) as [-> Hn].
    split; [reflexivity|now apply Exists_cons_hd].
Qed.

Lemma group_loop_length (period : string) (rows : list row)
    (g g' : dict (list row)) :
  group_loop period rows g = Ok g' ->
  (List.length g' <= List.length g + List.length rows)%nat.
Proof.
  revert g. induction rows as [|r rows IH]; intros g; cbn [group_loop].
  - intros [= <-]. lia.
  - destruct (group_label period r) as [lab|e']; [|discriminate]. cbn [bind].
    destruct (dict_append lab r _) as [g2|] eqn:Happ; [|discriminate].
    intros H. apply IH in H.
    assert (Hlen : (List.length g2 <= S (List.length g))%nat).
    { rewrite <- (length_map fst g2), (dict_keys_append _ _ _ _ Happ).
      destruct (dict_mem lab g) eqn:Hm; [rewrite length_map; lia|].
      rewrite dict_keys_set, Hm, length_app, length_map. simpl. lia. }
    cbn [List.length]. lia.
Qed.

Lemma combine_loop_length (g : dict (list row)) (acc out : list row) :
  combine_loop g acc = Ok out ->
  List.length out = (List.length acc + List.length g)%nat.
Proof.
  intros H. destruct (combine_loop_inv _ _ _ H) as [ss [-> Hall]].
  rewrite length_app. f_equal. symmetry. eapply Forall2_length. eassumption.
Qed.

Lemma group_by_period_sorted (rows out : list row) (period : string) :
  group_by_period rows period = Ok out -> Sorted by_date out.
Proof.
  unfold group_by_period.
  destruct (String.eqb period "intraday" || String.eqb period "daily").
  - intros [= <-]. apply sort_by_sorted.
  - destruct (group_loop period rows []) as [g|e]; [|discriminate].
    cbn [bind]. destruct (combine_loop g []) as [out0|e]; [|discriminate].
    cbn [bind]. intros [= <-]. apply sort_by_sorted.
Qed.

Lemma group_by_period_size (rows out : list row) (period : string) :
  group_by_period rows period = Ok out ->
  (List.length out <= List.length rows)%nat /\ (rows <> [] -> out <> []).
Proof.
  unfold group_by_period.
  destruct (String.eqb period "intraday" || String.eqb period "daily") eqn:Hp.
  - intros [= <-]. rewrite sort_by_length. split; [lia|].
    intros Hne Hnil. apply sort_by_nil_inv in Hnil. contradiction.
  - destruct (group_loop period rows []) as [g|e] eqn:Hg; [|discriminate].
    cbn [bind]. destruct (combine_loop g []) as [out0|e] eqn:Hc;
      [|discriminate].
    cbn [bind]. intros [= <-]. rewrite sort_by_length.
    pose proof (group_loop_length _ _ _ _ Hg) as Hlen.
    pose proof (combine_loop_length _ _ _ Hc) as Hlen'.
    cbn [List.length] in *. split; [lia|].
    intros Hne Hnil. apply sort_by_nil_inv in Hnil. subst out0.
    destruct rows as [|r rows]; [contradiction|].
    destruct (grouped_rows_inv _ _ _ _ Hg Hc) as (_ & _ & Hcover).
    destruct (Hcover r (or_introl eq_refl)) as [s [[] _]].
Qed.

(** With a resolution that groups, a row whose date cannot be read makes the
    aggregation raise [ValueError]. *)
Lemma group_by_period_unreadable (rows : list row) (period : string) :
  String.eqb period "intraday" || String.eqb period "daily" = false ->
  Exists (fun r => ~ parses r) rows ->
  group_by_period rows period = Raise ValueError.
Proof.
  intros Hp Hex.
  destruct (group_by_period rows period) as [out|e] eqn:Hg.
  - exfalso. apply Exists_exists in Hex as (r & Hr & Hn).
    destruct (group_by_period_inv _ _ _ Hp Hg) as (_ & _ & Hcover & _).
    destruct (Hcover r Hr) as (s & _ & Hl).
    apply Hn. eapply group_label_parses. eassumption.
  - unfold group_by_period in Hg. rewrite Hp in Hg.
    destruct (group_loop period rows []) as [g|e'] eqn:Hloop; cbn [bind] in Hg.
    + destruct (combine_loop_defined g []) as [out0 Hout].
      { eapply Forall_impl; [|apply (group_loop_entries _ _ _ Hloop)].
        intros entry [_ H]. exact H. }
      rewrite Hout in Hg. discriminate.
    + injection Hg as <-. now destruct (group_loop_raise _ _ _ _ Hloop) as [-> _].
Qed.

(** X12. The aggregation fails only for a resolution other than "intraday"
    and "daily", only with [ValueError], and exactly when the date of some
    row does not parse; for "intraday" and "daily" it returns a permutation of
    the rows whatever their dates are. *)
Theorem aggregation_fails_only_on_unreadable_dates
    (rows : list row) (period : string) :
  (forall e, group_by_period rows period = Raise e ->
             e = ValueError /\
             String.eqb period "intraday" || String.eqb period "daily" = false /\
             Exists (fun r => ~ parses r) rows) /\
  (String.eqb period "intraday" || String.eqb period "daily" = false ->
   Exists (fun r => ~ parses r) rows ->
   group_by_period rows period = Raise ValueError) /\
  (String.eqb period "intraday" || String.eqb period "daily" = true ->
   exists out, group_by_period rows period = Ok out /\ Permutation out rows).
Proof.
  split; [|split].
  - intros e. unfold group_by_period.
    destruct (String.eqb period "intraday" || String.eqb period "daily");
      [discriminate|].
    destruct (group_loop period rows []) as [g|e'] eqn:Hg; cbn [bind].
    + destruct (combine_loop_defined g []) as [out0 ->]; [|discriminate].
      eapply Forall_impl; [|apply (group_loop_entries _ _ _ Hg)].
      intros entry [_ H]. exact H.
    + intros [= <-]. destruct (group_loop_raise _ _ _ _ Hg) as [-> Hex]. auto.
  - apply group_by_period_unreadable.
  - intros Hp. unfold group_by_period. rewrite Hp.
    eexists. split; [reflexivity|apply sort_by_perm].
Qed.

Lemma aggregation_fails_only_on_unreadable_dates_witness :
  group_by_period [mk_row "2024-01-02" 1 2 0 1; mk_row "2024-01" 3 5 2 4]
    "monthly" = Raise ValueError.
Proof.
  destruct (aggregation_fails_only_on_unreadable_dates
              [mk_row "2024-01-02" 1 2 0 1; mk_row "2024-01" 3 5 2 4] "monthly")
    as (_ & Hfail & _).
  apply Hfail; [reflexivity|].
  apply Exists_cons_tl, Exists_cons_hd. intros [dt H]. discriminate.
Defined.

(** X13. The stages compose: on the rows the date filter returns, the
    aggregation returns a result for every resolution; this result is not
    empty, has at most as many rows as the filter returned, and is sorted
    ascending by label. *)
Theorem aggregation_succeeds_after_filter
    (rows filtered : list row) (start_date end_date period : string) :
  filter_by_date rows start_date end_date = Ok filtered ->
  exists grouped,
    group_by_period filtered period = Ok grouped /\
    grouped <> [] /\
    (List.length grouped <= List.length filtered)%nat /\
    Sorted by_date grouped.
Proof.
  intros H.
  destruct (filter_by_date_ok_inv _ _ _ _ H)
    as (start & end_ & _ & _ & _ & _ & Hne & ->).
  set (kept := filter (in_window start end_) rows) in *.
  destruct (group_by_period_defined period (sort_by date kept)) as [g Hg].
  { apply Forall_forall. intros r Hr.
    apply (proj1 (sort_by_in date _ _)) in Hr. apply filter_In in Hr.
    eapply in_window_parses. apply Hr. }
  exists g. split; [exact Hg|].
  destruct (group_by_period_size _ _ _ Hg) as [Hlen Hnonempty].
  split; [|split; [exact Hlen|exact (group_by_period_sorted _ _ _ Hg)]].
  apply Hnonempty. intros Hnil. apply sort_by_nil_inv in Hnil. contradiction.
Qed.

Lemma aggregation_succeeds_after_filter_witness :
  exists grouped,
    group_by_period [mk_row "2024-01-02" 1 2 0 1; mk_row "2024-01-05" 3 5 2 4]
      "weekly" = Ok grouped /\
    grouped <> [].
Proof.
  destruct (aggregation_succeeds_after_filter
              [mk_row "2024-01-05" 3 5 2 4; mk_row "2024-02-01" 7 7 7 7;
               mk_row "2024-01-02" 1 2 0 1]
              [mk_row "2024-01-02" 1 2 0 1; mk_row "2024-01-05" 3 5 2 4]
              "2024-01-01" "2024-01-31" "weekly" eq_refl)
    as (g & Hg & Hne & _).
  exists g. auto.
Defined.

(** ** Buckets and labels *)

Lemma lex_compare_pair_eq (a b c d : Z) :
  lex_compare [a; b] [c; d] = Eq <-> a = c /\ b = d.
Proof.
  cbn [lex_compare].
  destruct (Z.compare_spec a c) as [Hac|Hac|Hac];
    destruct (Z.compare_spec b d) as [Hbd|Hbd|Hbd];
    split; intros Heq; try discriminate; try lia; reflexivity.
Qed.

Lemma label_eq_iff (sep : string) (y1 w1 y2 w2 : Z) :
  0 <= y1 <= 9999 -> 0 <= y2 <= 9999 -> 0 <= w1 <= 99 -> 0 <= w2 <= 99 ->
  fixed_digits 4 y1 ++ sep ++ fixed_digits 2 w1
  = fixed_digits 4 y2 ++ sep ++ fixed_digits 2 w2 <->
  y1 = y2 /\ w1 = w2.
Proof.
  intros Hy1 Hy2 Hw1 Hw2. rewrite <- lex_compare_pair_eq.
  rewrite <- (label_compare sep) by trivial. split.
  - intros ->. apply string_compare_refl.
  - apply String.compare_eq_iff.
Qed.

(** X14. For dates of the year 1000 or later, the buckets are the calendar
    months and the ISO weeks: two dates get the same monthly label exactly
    when they agree in year and month, and the same weekly label exactly when
    they have the same ISO year and ISO week. *)
Theorem buckets_are_months_and_iso_weeks (dt1 dt2 : datetime) :
  valid_datetime dt1 = true -> valid_datetime dt2 = true ->
  1000 <= year dt1 -> 1000 <= year dt2 ->
  (monthly_label dt1 = monthly_label dt2 <->
   year dt1 = year dt2 /\ month dt1 = month dt2) /\
  (weekly_label dt1 = weekly_label dt2 <->
   exists iso_year week wday1 wday2,
     iso_week_date (toordinal dt1) iso_year week wday1 /\
     iso_week_date (toordinal dt2) iso_year week wday2).
Proof.
  intros Hv1 Hv2 Hy1 Hy2.
  pose proof (valid_datetime_date _ Hv1) as [(Hr1 & Hm1 & _) _].
  pose proof (valid_datetime_date _ Hv2) as [(Hr2 & Hm2 & _) _].
  split.
  - rewrite !monthly_label_fixed by lia. apply label_eq_iff; lia.
  - pose proof (isocalendar_iso_week_date dt1 Hv1) as H1.
    pose proof (isocalendar_iso_week_date dt2 Hv2) as H2.
    destruct (isocalendar dt1) as [[y1 w1] d1] eqn:E1.
    destruct (isocalendar dt2) as [[y2 w2] d2] eqn:E2.
    destruct H1 as (Hiso1 & Hw1 & _), H2 as (Hiso2 & Hw2 & _).
    pose proof (iso_year_range _ _ _ _ Hv1 Hy1 Hiso1) as Hyr1.
    pose proof (iso_year_range _ _ _ _ Hv2 Hy2 Hiso2) as Hyr2.
    rewrite (weekly_label_fixed _ _ _ _ E1 Hyr1 Hw1).
    rewrite (weekly_label_fixed _ _ _ _ E2 Hyr2 Hw2).
    rewrite label_eq_iff by lia. split.
    + intros [-> ->]. exists y2, w2, d1, d2. auto.
    + intros (y & w & e1 & e2 & Ha & Hb).
      destruct (iso_week_date_unique _ _ _ _ _ _ _ Hiso1 Ha) as (-> & -> & _).
      destruct (iso_week_date_unique _ _ _ _ _ _ _ Hiso2 Hb) as (-> & -> & _).
      auto.
Qed.

Lemma buckets_are_months_and_iso_weeks_witness :
  weekly_label (mk_datetime 2024 12 29 0 0 0)
  <> weekly_label (mk_datetime 2024 12 30 0 0 0) /\
  monthly_label (mk_datetime 2024 12 29 0 0 0)
  = monthly_label (mk_datetime 2024 12 30 0 0 0).
Proof.
  destruct (buckets_are_months_and_iso_weeks
              (mk_datetime 2024 12 29 0 0 0) (mk_datetime 2024 12 30 0 0 0))
    as [Hmonth Hweek]; try reflexivity; try (simpl; lia).
  split.
  - intros Heq. apply Hweek in Heq. destruct Heq as (y & w & a & b & Ha & Hb).
    assert (H1 : iso_week_date (toordinal (mk_datetime 2024 12 29 0 0 0))
                   2024 52 7)
      by (unfold iso_week_date; vm_compute; intuition discriminate).
    assert (H2 : iso_week_date (toordinal (mk_datetime 2024 12 30 0 0 0))
                   2025 1 1)
      by (unfold iso_week_date; vm_compute; intuition discriminate).
    destruct (iso_week_date_unique _ _ _ _ _ _ _ Ha H1) as (-> & _).
    destruct (iso_week_date_unique _ _ _ _ _ _ _ Hb H2) as (Hy & _).
    discriminate Hy.
  - apply Hmonth. split; reflexivity.
Defined.

(** ** The chart of a run *)

Lemma sorted_dates (g : list row) :
  Sorted by_date g ->
  Sorted (fun a b => String.leb a b = true) (map date g).
Proof.
  induction 1 as [|r g Hs IH Hhd]; cbn [map]; constructor; trivial.
  destruct Hhd; cbn [map]; constructor. assumption.
Qed.

Lemma aggregated_rows_inv
    (getenv : string -> option string)
    (requests_get : request -> http_outcome)
    (float_of_str : string -> option Q)
    (symbol period start_date end_date : string)
    (api_key : option string) (intraday_interval : string)
    (grouped : list row) :
  aggregated_rows getenv requests_get float_of_str symbol period
    start_date end_date api_key intraday_interval = Ok grouped ->
  exists all_rows filtered,
    fetch_stock_rows_from_alpha_vantage getenv requests_get float_of_str
      symbol period api_key "full" intraday_interval = Ok all_rows /\
    filter_by_date all_rows start_date end_date = Ok filtered /\
    group_by_period filtered period = Ok grouped /\
    grouped <> [] /\
    (List.length grouped <= List.length filtered <= List.length all_rows)%nat /\
    Sorted by_date grouped.
Proof.
  unfold aggregated_rows.
  destruct (fetch_stock_rows_from_alpha_vantage _ _ _ _ _ _ _ _)
    as [all_rows|e] eqn:Hfetch; [|discriminate]. cbn [bind].
  destruct (filter_by_date all_rows start_date end_date) as [filtered|e]
    eqn:Hfilter; [|discriminate]. cbn [bind].
  intros Hg. exists all_rows, filtered.
  destruct (filter_by_date_ok_inv _ _ _ _ Hfilter)
    as (start & end_ & _ & _ & _ & _ & Hne & Hout).
  destruct (group_by_period_size _ _ _ Hg) as [Hlen Hnonempty].
  repeat (split; trivial).
  - apply Hnonempty. rewrite Hout. intros Hnil.
    apply sort_by_nil_inv in Hnil. contradiction.
  - rewrite Hout, sort_by_length. apply filter_length_le.
  - exact (group_by_period_sorted _ _ _ Hg).
Qed.

Lemma ok_inj {A : Type} (a b : A) : Ok a = Ok b -> a = b.
Proof. now intros [= ->]. Qed.

Lemma dict_get_cons {V : Type} (k k' : string) (v : V) (rest : dict V) :
  dict_get k ((k', v) :: rest) =
  if String.eqb k' k then Some v else dict_get k rest.
Proof. reflexivity. Qed.

Lemma generate_chart_for_web_inv
    (getenv : string -> option string)
    (requests_get : request -> http_outcome)
    (float_of_str : string -> option Q)
    (symbol period start_date end_date chart_type : string)
    (api_key : option string) (intraday_interval : string) (c : chart) :
  generate_chart_for_web getenv requests_get float_of_str symbol period
    start_date end_date chart_type api_key intraday_interval = Ok c ->
  exists grouped,
    aggregated_rows getenv requests_get float_of_str symbol period
      start_date end_date api_key intraday_interval = Ok grouped /\
    title c = chart_title symbol period /\
    x_labels c = map date grouped /\
    added c = ohlc_series grouped /\
    chart_kind c = (if String.eqb (lower chart_type) "bar" then Bar else Line).
Proof.
  unfold generate_chart_for_web, aggregated_rows.
  destruct (fetch_stock_rows_from_alpha_vantage _ _ _ _ _ _ _ _)
    as [all_rows|e]; [|discriminate]. cbn [bind].
  destruct (filter_by_date all_rows start_date end_date) as [filtered|e];
    [|discriminate]. cbn [bind].
  destruct (group_by_period filtered period) as [grouped|e]; [|discriminate].
  cbn [bind]. intros Hc. apply ok_inj in Hc. subst c. exists grouped.
  split; [reflexivity|]. split; [reflexivity|]. split; [reflexivity|].
  split; [reflexivity|].
  unfold chart_add. cbn [chart_kind]. rewrite !dict_get_cons.
  destruct (String.eqb "line" (lower chart_type)) eqn:Hl.
  - apply String.eqb_eq in Hl. rewrite <- Hl. reflexivity.
  - rewrite (String.eqb_sym (lower chart_type) "bar").
    now destruct (String.eqb "bar" (lower chart_type)).
Qed.

Lemma generate_chart_from_api_inv
    (getenv : string -> option string)
    (requests_get : request -> http_outcome)
    (float_of_str : string -> option Q)
    (symbol period start_date end_date chart_type : string)
    (api_key : option string) (intraday_interval : string) (c : chart) :
  generate_chart_from_api getenv requests_get float_of_str symbol period
    start_date end_date chart_type api_key intraday_interval = Ok c ->
  exists grouped,
    aggregated_rows getenv requests_get float_of_str symbol period
      start_date end_date api_key intraday_interval = Ok grouped /\
    title c = chart_title symbol period /\
    x_labels c = map date grouped /\
    added c = ohlc_series grouped.
Proof.
  unfold generate_chart_from_api, aggregated_rows.
  destruct (fetch_stock_rows_from_alpha_vantage _ _ _ _ _ _ _ _)
    as [all_rows|e]; [|discriminate]. cbn [bind].
  destruct (filter_by_date all_rows start_date end_date) as [filtered|e];
    [|discriminate]. cbn [bind].
  destruct (group_by_period filtered period) as [grouped|e]; [|discriminate].
  cbn [bind]. intros Hc. apply ok_inj in Hc. subst c. exists grouped.
  split; [reflexivity|]. split; [reflexivity|]. split; reflexivity.
Qed.

(** X15. A run of either entry point that returns a chart returns one with
    at least one x label; the x labels are sorted ascending as strings, every
    one of the four series has as many values as there are x labels, at most
    as many as the provider returned rows, and the title is the symbol in
    upper case followed by "Stock Prices" and the capitalized period. *)
Theorem chart_of_a_successful_run
    (getenv : string -> option string)
    (requests_get : request -> http_outcome)
    (float_of_str : string -> option Q)
    (symbol period start_date end_date chart_type : string)
    (api_key : option string) (intraday_interval : string) (c : chart) :
  generate_chart_for_web getenv requests_get float_of_str symbol period
    start_date end_date chart_type api_key intraday_interval = Ok c \/
  generate_chart_from_api getenv requests_get float_of_str symbol period
    start_date end_date chart_type api_key intraday_interval = Ok c ->
  x_labels c <> [] /\
  Sorted (fun a b => String.leb a b = true) (x_labels c) /\
  map label (added c) = ["Open"; "High"; "Low"; "Close"] /\
  Forall (fun s => List.length (values s) = List.length (x_labels c)) (added c) /\
  title c = upper symbol ++ " Stock Prices (" ++ capitalize period ++ ")" /\
  exists all_rows,
    fetch_stock_rows_from_alpha_vantage getenv requests_get float_of_str
      symbol period api_key "full" intraday_interval = Ok all_rows /\
    (List.length (x_labels c) <= List.length all_rows)%nat.
Proof.
  intros H.
  assert (Hinv : exists grouped,
             aggregated_rows getenv requests_get float_of_str symbol period
               start_date end_date api_key intraday_interval = Ok grouped /\
             title c = chart_title symbol period /\
             x_labels c = map date grouped /\
             added c = ohlc_series grouped).
  { destruct H as [H|H].
    - destruct (generate_chart_for_web_inv _ _ _ _ _ _ _ _ _ _ _ H)
        as (g & H1 & H2 & H3 & H4 & _). eauto.
    - destruct (generate_chart_from_api_inv _ _ _ _ _ _ _ _ _ _ _ H)
        as (g & H1 & H2 & H3 & H4). eauto. }
  destruct Hinv as (g & Hagg & Ht & Hx & Ha).
  destruct (aggregated_rows_inv _ _ _ _ _ _ _ _ _ _ Hagg)
    as (all_rows & filtered & Hfetch & _ & _ & Hne & Hlen & Hsorted).
  rewrite Hx, Ha, Ht.
  split; [|split; [|split; [|split; [|split]]]].
  - destruct g; [contradiction|discriminate].
  - now apply sorted_dates.
  - reflexivity.
  - rewrite length_map. apply ohlc_series_lengths.
  - reflexivity.
  - exists all_rows. split; [exact Hfetch|]. rewrite length_map. lia.
Qed.

Lemma chart_of_a_successful_run_witness :
  x_labels
    (mk_chart Line "IBM Stock Prices (Daily)" ["2024-01-02"]
       (ohlc_series [mk_row "2024-01-02" 1 2 0 1])) <> [].
Proof.
  destruct (chart_of_a_successful_run (env_with_key "demo")
              (provider_returns
                 [("Time Series (Daily)",
                   JObj [("2024-01-02",
                          JObj [("1. open", JNum 1); ("2. high", JNum 2);
                                ("3. low", JNum 0); ("4. close", JNum 1)])])])
              (fun _ => None) "ibm" "daily" "2024-01-01" "2024-01-31" "line"
              None "60min"
              (mk_chart Line "IBM Stock Prices (Daily)" ["2024-01-02"]
                 (ohlc_series [mk_row "2024-01-02" 1 2 0 1])))
    as [Hne _].
  - left. reflexivity.
  - exact Hne.
Defined.

(** X16. The chart type selects the class of the chart and nothing else:
    for any two chart types, [render_chart] and [generate_chart_for_web] give
    charts with the same title, x labels and series.  The class is looked up
    by the chart type in lower case, so that two types with the same
    lower-case form, and a type of ASCII text and its upper-case form, give
    the same class, with the line chart for a type that is not known; the
    web entry point knows "line" and "bar" only, so that "stacked_bar" and
    "xy" give a line chart there. *)
Theorem chart_type_selects_only_the_class
    (getenv : string -> option string)
    (requests_get : request -> http_outcome)
    (float_of_str : string -> option Q)
    (symbol period start_date end_date : string)
    (api_key : option string) (intraday_interval t : string)
    (grouped : list row) (type1 type2 : string) :
  (title (render_chart grouped t type1),
   x_labels (render_chart grouped t type1),
   added (render_chart grouped t type1)) =
  (title (render_chart grouped t type2),
   x_labels (render_chart grouped t type2),
   added (render_chart grouped t type2)) /\
  result_map (fun c => (title c, x_labels c, added c))
    (generate_chart_for_web getenv requests_get float_of_str symbol period
       start_date end_date type1 api_key intraday_interval) =
  result_map (fun c => (title c, x_labels c, added c))
    (generate_chart_for_web getenv requests_get float_of_str symbol period
       start_date end_date type2 api_key intraday_interval) /\
  (lower type1 = lower type2 ->
   chart_kind (render_chart grouped t type1)
   = chart_kind (render_chart grouped t type2)) /\
  (ascii_text type1 ->
   chart_kind (render_chart grouped t (upper type1))
   = chart_kind (render_chart grouped t type1)) /\
  (chart_kind (render_chart grouped t type1) <> Line ->
   In (lower type1) ["bar"; "stacked_bar"; "xy"]) /\
  result_map chart_kind
    (generate_chart_for_web getenv requests_get float_of_str symbol period
       start_date end_date type1 api_key intraday_interval) =
  result_map (fun _ => if String.eqb (lower type1) "bar" then Bar else Line)
    (generate_chart_for_web getenv requests_get float_of_str symbol period
       start_date end_date type1 api_key intraday_interval).
Proof.
  split; [reflexivity|]. split; [|split; [|split; [|split]]].
  - unfold generate_chart_for_web.
    destruct (fetch_stock_rows_from_alpha_vantage _ _ _ _ _ _ _ _)
      as [all_rows|e]; [|reflexivity]. cbn [bind].
    destruct (filter_by_date all_rows start_date end_date) as [filtered|e];
      [|reflexivity]. cbn [bind].
    destruct (group_by_period filtered period) as [g|e]; reflexivity.
  - intros Heq. unfold render_chart. now rewrite Heq.
  - intros _. unfold render_chart. now rewrite lower_upper.
  - unfold render_chart. cbn [chart_kind]. rewrite !dict_get_cons.
    destruct (String.eqb "line" (lower type1)); [intros H; now contradiction H|].
    destruct (String.eqb "bar" (lower type1)) eqn:H1;
      [apply String.eqb_eq in H1; rewrite <- H1; intros _; now left|].
    destruct (String.eqb "stacked_bar" (lower type1)) eqn:H2;
      [apply String.eqb_eq in H2; rewrite <- H2; intros _; right; now left|].
    destruct (String.eqb "xy" (lower type1)) eqn:H3;
      [apply String.eqb_eq in H3; rewrite <- H3; intros _; right; right; now left|].
    intros H. now contradiction H.
  - destruct (generate_chart_for_web getenv requests_get float_of_str symbol
                period start_date end_date type1 api_key intraday_interval)
      as [c|e] eqn:Hc; [|reflexivity].
    destruct (generate_chart_for_web_inv _ _ _ _ _ _ _ _ _ _ _ Hc)
      as (g & _ & _ & _ & _ & Hk).
    unfold result_map. cbn [bind]. now rewrite Hk.
Qed.

Lemma chart_type_selects_only_the_class_witness :
  chart_kind (render_chart [mk_row "2024-01-02" 1 2 0 1] "IBM" "BAR")
  = chart_kind (render_chart [mk_row "2024-01-02" 1 2 0 1] "IBM" "bar").
Proof.
  apply (proj1 (proj2 (proj2 (proj2
           (chart_type_selects_only_the_class (env_with_key "demo")
              (fun _ => Timeout) (fun _ => None) "ibm" "daily" "2024-01-01"
              "2024-01-31" None "60min" "IBM"
              [mk_row "2024-01-02" 1 2 0 1] "bar" "line"))))).
  reflexivity.
Defined.

(** ** The list of symbols (app.py) *)

Lemma csv_field_cases (r : csv_row) (name : string) :
  (dict_get name r = Some None /\ csv_field r name = Raise AttributeError) \/
  (dict_get name r <> Some None /\ exists v, csv_field r name = Ok v).
Proof.
  unfold csv_field. destruct (dict_get name r) as [[v|]|].
  - right. split; [discriminate|eauto].
  - left. auto.
  - right. split; [discriminate|eauto].
Qed.

Lemma short_row_dec (r : csv_row) : short_row r \/ ~ short_row r.
Proof.
  unfold short_row.
  destruct (csv_field_cases r "symbol") as [[H _]|[H1 _]];
    [left; exists "symbol"; simpl; auto|].
  destruct (csv_field_cases r "name") as [[H _]|[H2 _]];
    [left; exists "name"; simpl; auto|].
  destruct (csv_field_cases r "status") as [[H _]|[H3 _]];
    [left; exists "status"; simpl; auto|].
  right. intros (name & [<-|[<-|[<-|[]]]] & H); contradiction.
Qed.

Lemma short_row_raises (r : csv_row) :
  short_row r ->
  (symbol <- csv_field r "symbol" ;;
   name <- csv_field r "name" ;;
   status <- csv_field r "status" ;;
   Ok (symbol, name, status)) = Raise AttributeError.
Proof.
  intros (name & Hin & Hnone).
  destruct (csv_field_cases r "symbol") as [[_ ->]|[H1 [s ->]]];
    [reflexivity|]. cbn [bind].
  destruct (csv_field_cases r "name") as [[_ ->]|[H2 [n ->]]];
    [reflexivity|]. cbn [bind].
  destruct (csv_field_cases r "status") as [[_ ->]|[H3 [t ->]]];
    [reflexivity|]. cbn [bind].
  destruct Hin as [<-|[<-|[<-|[]]]]; contradiction.
Qed.

Lemma complete_row_fields (r : csv_row) :
  ~ short_row r ->
  exists symbol name status,
    csv_field r "symbol" = Ok symbol /\ csv_field r "name" = Ok name /\
    csv_field r "status" = Ok status.
Proof.
  intros Hc.
  destruct (csv_field_cases r "symbol") as [[H _]|[_ [s Hs]]];
    [exfalso; apply Hc; exists "symbol"; simpl; auto|].
  destruct (csv_field_cases r "name") as [[H _]|[_ [n Hn]]];
    [exfalso; apply Hc; exists "name"; simpl; auto|].
  destruct (csv_field_cases r "status") as [[H _]|[_ [t Ht]]];
    [exfalso; apply Hc; exists "status"; simpl; auto|].
  eauto 6.
Qed.

Lemma str_truthy_iff (s : string) : str_truthy s = true <-> s <> "".
Proof. destruct s; simpl; split; congruence. Qed.

Lemma active_symbols_short (rows : list csv_row) (acc : list (string * string)) :
  Exists short_row rows -> active_symbols rows acc = Raise AttributeError.
Proof.
  intros Hex. revert acc.
  induction Hex as [r rows Hr|r rows Hex IH]; intros acc; cbn [active_symbols].
  - pose proof (short_row_raises r Hr) as Hraise.
    destruct (csv_field r "symbol") as [s|e]; cbn [bind] in *;
      [|now injection Hraise as ->].
    destruct (csv_field r "name") as [n|e]; cbn [bind] in *; [|now injection Hraise as ->].
    destruct (csv_field r "status") as [t|e]; cbn [bind] in *;
      [discriminate|now injection Hraise as ->].
  - destruct (short_row_dec r) as [Hr|Hr].
    + pose proof (short_row_raises r Hr) as Hraise.
      destruct (csv_field r "symbol") as [s|e]; cbn [bind] in *;
        [|now injection Hraise as ->].
      destruct (csv_field r "name") as [n|e]; cbn [bind] in *;
        [|now injection Hraise as ->].
      destruct (csv_field r "status") as [t|e]; cbn [bind] in *;
        [discriminate|now injection Hraise as ->].
    + destruct (complete_row_fields r Hr) as (s & n & t & -> & -> & ->).
      cbn [bind]. apply IH.
Qed.

Lemma active_symbols_inv (rows : list csv_row)
    (acc out : list (string * string)) :
  active_symbols rows acc = Ok out ->
  Forall (fun r => ~ short_row r) rows /\
  forall p, In p out <->
            In p acc \/ exists r, In r rows /\ active_row r (fst p) (snd p).
Proof.
  revert acc. induction rows as [|r rows IH]; intros acc; cbn [active_symbols].
  - intros [= <-]. split; [constructor|].
    intros p. split; [auto|]. intros [H|(r & [] & _)]. exact H.
  - destruct (short_row_dec r) as [Hr|Hr].
    { pose proof (short_row_raises r Hr) as Hraise.
      destruct (csv_field r "symbol") as [s|e]; cbn [bind] in *;
        [|discriminate].
      destruct (csv_field r "name") as [n|e]; cbn [bind] in *;
        [|discriminate].
      destruct (csv_field r "status") as [t|e]; cbn [bind] in *;
        discriminate. }
    destruct (complete_row_fields r Hr) as (s & n & t & Hs & Hn & Ht).
    rewrite Hs, Hn, Ht. cbn [bind]. intros Hout.
    apply IH in Hout. destruct Hout as [Hall Hin].
    split; [now constructor|].
    intros p. rewrite Hin. clear Hin IH.
    destruct (str_truthy s && str_truthy n && String.eqb t "Active") eqn:Hc.
    + apply andb_prop in Hc. destruct Hc as [Hc Hact].
      apply andb_prop in Hc. destruct Hc as [Hts Htn].
      apply String.eqb_eq in Hact. subst t.
      apply str_truthy_iff in Hts, Htn.
      rewrite in_app_iff. cbn [In]. split.
      * intros [[H|[<-|[]]]|(r' & Hr' & Ha)].
        -- now left.
        -- right. exists r. split; [now left|]. unfold active_row.
           cbn [fst snd]. auto.
        -- right. exists r'. split; [now right|exact Ha].
      * intros [H|(r' & [<-|Hr'] & Ha)].
        -- left. now left.
        -- left. right. left. destruct Ha as (Ha1 & Ha2 & _).
           rewrite Hs in Ha1. rewrite Hn in Ha2.
           injection Ha1 as E1. injection Ha2 as E2.
           destruct p as [ps pn]. cbn [fst snd] in E1, E2. now subst.
        -- right. eauto.
    + split.
      * intros [H|(r' & Hr' & Ha)]; [now left|].
        right. exists r'. split; [now right|exact Ha].
      * intros [H|(r' & [<-|Hr'] & Ha)]; [now left| |right; eauto].
        exfalso. destruct Ha as (Ha1 & Ha2 & Ha3 & Hne1 & Hne2).
        rewrite Hs in Ha1. rewrite Hn in Ha2. rewrite Ht in Ha3.
        injection Ha1 as E1. injection Ha2 as E2. injection Ha3 as E3.
        rewrite <- E1 in Hne1. rewrite <- E2 in Hne2. subst t.
        apply str_truthy_iff in Hne1, Hne2.
        rewrite Hne1, Hne2 in Hc. discriminate.
Qed.

Lemma active_symbols_complete (rows : list csv_row)
    (acc : list (string * string)) :
  Forall (fun r => ~ short_row r) rows ->
  exists out, active_symbols rows acc = Ok out.
Proof.
  intros Hall. revert acc.
  induction Hall as [|r rows Hr Hall IH]; intros acc; cbn [active_symbols].
  - eauto.
  - destruct (complete_row_fields r Hr) as (s & n & t & -> & -> & ->).
    cbn [bind]. apply IH.
Qed.

(** The test of the comprehension that keeps the standard symbols. *)
Lemma standard_filter_spec (l : list (string * string)) (p : string * string) :
  In p (filter (fun '(sym, name) =>
                  (Z.of_nat (String.length sym) <=? 5) && isalpha sym) l) <->
  In p l /\ (Z.of_nat (String.length (fst p)) <=? 5) && isalpha (fst p) = true.
Proof. rewrite filter_In. now destruct p. Qed.

Lemma strongly_sorted_filter {A : Type} (R : A -> A -> Prop)
    (f : A -> bool) (l : list A) :
  StronglySorted R l -> StronglySorted R (filter f l).
Proof.
  induction 1 as [|x l Hs IH Hall]; cbn [filter]; [constructor|].
  destruct (f x); [|exact IH]. constructor; [exact IH|].
  rewrite Forall_forall in *. intros y Hy. apply Hall.
  apply filter_In in Hy. tauto.
Qed.

Lemma strongly_sorted_firstn {A : Type} (R : A -> A -> Prop)
    (n : nat) (l : list A) :
  StronglySorted R l -> StronglySorted R (firstn n l).
Proof.
  intros Hs. revert n.
  induction Hs as [|x l Hs IH Hall]; intros [|n]; cbn [firstn];
    try constructor.
  - apply IH.
  - rewrite Forall_forall in *. intros y Hy. apply Hall.
    revert Hy. clear. revert n. induction l as [|z l IHl]; intros [|n];
      cbn [firstn In]; try tauto.
    intros [H|H]; [now left|right; eauto].
Qed.

Lemma in_firstn {A : Type} (n : nat) (l : list A) (x : A) :
  In x (firstn n l) -> In x l.
Proof.
  revert n. induction l as [|z l IHl]; intros [|n]; cbn [firstn In];
    try tauto.
  intros [H|H]; [now left|right; eauto].
Qed.

Lemma fallback_list_facts :
  get_fallback_stock_list <> [] /\
  List.length get_fallback_stock_list = 51%nat /\
  forallb standard_entry get_fallback_stock_list = true.
Proof. split; [discriminate|split; vm_compute; reflexivity]. Qed.

(** The outcomes of the loading: the fallback list, or the first thousand of
    the standard symbols of the listing. *)
Lemma load_stock_symbols_cases
    (getenv : string -> option string)
    (requests_get_listing : request -> listing_outcome) :
  load_stock_symbols_from_api getenv requests_get_listing
  = get_fallback_stock_list \/
  exists api_key csv_data stock_symbols,
    getenv "ALPHA_VANTAGE_API_KEY" = Some api_key /\ api_key <> "" /\
    requests_get_listing (listing_request api_key) = ListingRows csv_data /\
    active_symbols csv_data [] = Ok stock_symbols /\
    filter (fun '(sym, name) =>
              (Z.of_nat (String.length sym) <=? 5) && isalpha sym)
           (sort_by fst stock_symbols) <> [] /\
    load_stock_symbols_from_api getenv requests_get_listing
    = firstn 1000
        (filter (fun '(sym, name) =>
                   (Z.of_nat (String.length sym) <=? 5) && isalpha sym)
                (sort_by fst stock_symbols)).
Proof.
  unfold load_stock_symbols_from_api, listing_request.
  destruct (getenv "ALPHA_VANTAGE_API_KEY") as [api_key|]; [|now left].
  destruct (str_truthy api_key) eqn:Hkey; cbn [negb]; [|now left].
  destruct (requests_get_listing _) as [|csv_data] eqn:Hreq; [now left|].
  destruct (active_symbols csv_data []) as [stock_symbols|e] eqn:Hact;
    [|now left].
  destruct (filter _ (sort_by fst stock_symbols)) as [|p l] eqn:Hf;
    [now left|].
  right. exists api_key, csv_data, stock_symbols.
  rewrite Hf. repeat split; trivial.
  - now apply str_truthy_iff.
  - discriminate.
Qed.

(** X17. The list of symbols the page offers is never empty and has at most
    1000 entries, whatever the environment and the network are; every entry
    has a symbol of one to five letters and a name that is not empty. *)
Theorem symbol_list_is_never_empty
    (getenv : string -> option string)
    (requests_get_listing : request -> listing_outcome) :
  let STOCK_SYMBOLS :=
    load_stock_symbols_from_api getenv requests_get_listing in
  STOCK_SYMBOLS <> [] /\
  (List.length STOCK_SYMBOLS <= 1000)%nat /\
  Forall (fun p => (1 <= String.length (fst p) <= 5)%nat /\
                   isalpha (fst p) = true /\ snd p <> "") STOCK_SYMBOLS.
Proof.
  assert (Hentry : forall p, standard_entry p = true ->
            (1 <= String.length (fst p) <= 5)%nat /\
            isalpha (fst p) = true /\ snd p <> "").
  { intros p Hp. unfold standard_entry in Hp.
    apply andb_prop in Hp. destruct Hp as [Hp Hname].
    apply andb_prop in Hp. destruct Hp as [Hlen Halpha].
    apply Z.leb_le in Hlen. apply str_truthy_iff in Hname.
    repeat split; trivial; [|lia].
    unfold isalpha in Halpha. apply andb_prop in Halpha.
    destruct Halpha as [Ht _]. destruct (fst p); [discriminate|simpl; lia]. }
  cbv zeta.
  destruct (load_stock_symbols_cases getenv requests_get_listing)
    as [->|(key & rows & out & _ & _ & _ & Hact & Hne & ->)].
  - destruct fallback_list_facts as (Hne & Hlen & Hall).
    split; [exact Hne|]. split; [rewrite Hlen; lia|].
    rewrite forallb_forall in Hall. apply Forall_forall.
    intros p Hp. apply Hentry, Hall, Hp.
  - split; [|split].
    + destruct (filter _ (sort_by fst out)); [contradiction|discriminate].
    + rewrite length_firstn. lia.
    + apply Forall_forall. intros p Hp. apply in_firstn in Hp.
      apply standard_filter_spec in Hp. destruct Hp as [Hin Hstd].
      apply Hentry. unfold standard_entry. rewrite Hstd. cbn [andb].
      apply (proj1 (sort_by_in fst _ _)) in Hin.
      destruct (active_symbols_inv _ _ _ Hact) as [_ Hiff].
      apply Hiff in Hin. destruct Hin as [[]|(r & _ & Ha)].
      destruct Ha as (_ & _ & _ & _ & Hname). now apply str_truthy_iff.
Qed.

(** X18. The loading falls back to the built-in list of 51 stocks when the
    credential is not configured, whatever the network is; when the request
    for the listing fails; when one row of the listing ends before the
    symbol, the name or the status, whatever the other rows are; and when no
    row is an active stock with a symbol of one to five letters. *)
Theorem symbol_list_falls_back
    (getenv : string -> option string)
    (requests_get_listing : request -> listing_outcome) :
  (no_credential getenv ->
   load_stock_symbols_from_api getenv requests_get_listing
   = get_fallback_stock_list) /\
  (forall api_key,
     getenv "ALPHA_VANTAGE_API_KEY" = Some api_key ->
     requests_get_listing (listing_request api_key) = ListingFailed ->
     load_stock_symbols_from_api getenv requests_get_listing
     = get_fallback_stock_list) /\
  (forall api_key csv_data,
     getenv "ALPHA_VANTAGE_API_KEY" = Some api_key ->
     requests_get_listing (listing_request api_key) = ListingRows csv_data ->
     Exists short_row csv_data \/
     (forall r symbol name,
        In r csv_data -> active_row r symbol name ->
        standard_entry (symbol, name) = false) ->
     load_stock_symbols_from_api getenv requests_get_listing
     = get_fallback_stock_list).
Proof.
  split; [|split].
  - unfold load_stock_symbols_from_api. now intros [->| ->].
  - intros api_key Hkey Hreq.
    destruct (load_stock_symbols_cases getenv requests_get_listing)
      as [H|(key & rows & out & Hkey' & _ & Hreq' & _)]; [exact H|].
    rewrite Hkey in Hkey'. injection Hkey' as <-.
    rewrite Hreq in Hreq'. discriminate.
  - intros api_key csv_data Hkey Hreq Hrows.
    destruct (load_stock_symbols_cases getenv requests_get_listing)
      as [H|(key & rows & out & Hkey' & _ & Hreq' & Hact & Hne & _)];
      [exact H|].
    exfalso.
    rewrite Hkey in Hkey'. injection Hkey' as <-.
    rewrite Hreq in Hreq'. injection Hreq' as <-.
    destruct Hrows as [Hshort|Hnone].
    + rewrite (active_symbols_short _ _ Hshort) in Hact. discriminate.
    + destruct (filter _ (sort_by fst out)) as [|p l] eqn:Hf;
        [now apply Hne|].
      assert (Hp : In p (p :: l)) by now left.
      rewrite <- Hf in Hp. apply standard_filter_spec in Hp.
      destruct Hp as [Hin Hstd]. apply (proj1 (sort_by_in fst _ _)) in Hin.
      destruct (active_symbols_inv _ _ _ Hact) as [_ Hiff].
      apply Hiff in Hin. destruct Hin as [[]|(r & Hr & Ha)].
      pose proof (Hnone r _ _ Hr Ha) as Hfalse.
      unfold standard_entry in Hfalse. cbn [fst snd] in Hfalse.
      rewrite Hstd in Hfalse. cbn [andb] in Hfalse.
      destruct Ha as (_ & _ & _ & _ & Hname).
      apply str_truthy_iff in Hname. congruence.
Qed.

Lemma symbol_list_falls_back_witness :
  load_stock_symbols_from_api
    (env_with_key "demo")
    (fun _ => ListingRows
       [[("symbol", Some "IBM"); ("name", Some "IBM Corp");
         ("status", Some "Active")];
        [("symbol", Some "BRK-B"); ("name", None); ("status", None)]])
  = get_fallback_stock_list.
Proof.
  refine (proj2 (proj2 (symbol_list_falls_back (env_with_key "demo") _))
            "demo" _ eq_refl eq_refl _).
  left. right. left. exists "name". simpl. auto.
Defined.

(** X19. With a credential, a listing whose rows are complete and that has
    an active stock with a standard symbol gives a list sorted ascending by
    symbol; every entry of it is an active stock of the listing with a symbol
    of one to five letters, with the symbol and the name stripped; and when
    the listing has at most 1000 rows every such stock is in the list. *)
Theorem symbol_list_from_the_listing
    (getenv : string -> option string)
    (requests_get_listing : request -> listing_outcome)
    (api_key : string) (csv_data : list csv_row) :
  getenv "ALPHA_VANTAGE_API_KEY" = Some api_key -> api_key <> "" ->
  requests_get_listing (listing_request api_key) = ListingRows csv_data ->
  Forall (fun r => ~ short_row r) csv_data ->
  Exists (fun r => exists symbol name,
            active_row r symbol name /\
            standard_entry (symbol, name) = true) csv_data ->
  let STOCK_SYMBOLS :=
    load_stock_symbols_from_api getenv requests_get_listing in
  Sorted by_symbol STOCK_SYMBOLS /\
  (forall p, In p STOCK_SYMBOLS ->
     standard_entry p = true /\
     exists r, In r csv_data /\ active_row r (fst p) (snd p)) /\
  ((List.length csv_data <= 1000)%nat ->
   forall r symbol name,
     In r csv_data -> active_row r symbol name ->
     standard_entry (symbol, name) = true ->
     In (symbol, name) STOCK_SYMBOLS).
Proof.
  intros Hkey Hne Hreq Hcomplete Hex. cbv zeta.
  destruct (active_symbols_complete csv_data [] Hcomplete) as [out Hact].
  destruct (active_symbols_inv _ _ _ Hact) as [_ Hiff].
  assert (Hstd : forall p,
            In p (filter (fun '(sym, name) =>
                            (Z.of_nat (String.length sym) <=? 5)
                            && isalpha sym) (sort_by fst out)) <->
            standard_entry p = true /\
            exists r, In r csv_data /\ active_row r (fst p) (snd p)).
  { intros p. rewrite standard_filter_spec, (sort_by_in fst), Hiff.
    unfold standard_entry. split.
    - intros [[[]|(r & Hr & Ha)] Hs]. split; [|eauto].
      rewrite Hs. cbn [andb]. destruct Ha as (_ & _ & _ & _ & Hname).
      now apply str_truthy_iff.
    - intros [Hs Hr]. split; [now right|].
      apply andb_prop in Hs. tauto. }
  assert (Hload : load_stock_symbols_from_api getenv requests_get_listing
                  = firstn 1000
                      (filter (fun '(sym, name) =>
                                 (Z.of_nat (String.length sym) <=? 5)
                                 && isalpha sym) (sort_by fst out))).
  { unfold load_stock_symbols_from_api. rewrite Hkey.
    apply str_truthy_iff in Hne. rewrite Hne. cbn [negb].
    fold (listing_request api_key). rewrite Hreq, Hact.
    destruct (filter _ (sort_by fst out)) as [|p l] eqn:Hf; [|reflexivity].
    exfalso. apply Exists_exists in Hex.
    destruct Hex as (r & Hr & s & n & Ha & Hs).
    assert (Hin : In (s, n) []); [|contradiction].
    apply Hstd. split; [exact Hs|]. exists r. split; [exact Hr|exact Ha]. }
  rewrite Hload. split; [|split].
  - apply StronglySorted_Sorted, strongly_sorted_firstn,
      strongly_sorted_filter, sort_by_strongly_sorted.
  - intros p Hp. apply in_firstn in Hp. now apply Hstd.
  - intros Hlen r s n Hr Ha Hs. rewrite firstn_all2.
    + apply Hstd. split; [exact Hs|]. exists r. split; [exact Hr|exact Ha].
    + etransitivity; [apply filter_length_le|].
      rewrite sort_by_length.
      clear - Hact Hlen. 
      assert (Hgen : forall rows acc res,
                active_symbols rows acc = Ok res ->
                (List.length res <= List.length acc + List.length rows)%nat).
      { induction rows as [|r rows IH]; intros acc res;
          cbn [active_symbols].
        - intros [= <-]. simpl. lia.
        - destruct (csv_field r "symbol"); cbn [bind]; [|discriminate].
          destruct (csv_field r "name"); cbn [bind]; [|discriminate].
          destruct (csv_field r "status"); cbn [bind]; [|discriminate].
          intros H. apply IH in H.
          destruct (_ && _) in H; [rewrite length_app in H|]; simpl in *; lia. }
      apply Hgen in Hact. simpl in Hact. lia.
Qed.

Lemma symbol_list_from_the_listing_witness :
  In ("IBM", "IBM Corp")
    (load_stock_symbols_from_api
       (env_with_key "demo")
       (fun _ => ListingRows
          [[("symbol", Some " IBM "); ("name", Some "IBM Corp");
            ("status", Some "Active")];
           [("symbol", Some "BRK-B"); ("name", Some "Berkshire");
            ("status", Some "Active")]])).
Proof.
  pose proof (symbol_list_from_the_listing (env_with_key "demo")
    (fun _ => ListingRows
       [[("symbol", Some " IBM "); ("name", Some "IBM Corp");
         ("status", Some "Active")];
        [("symbol", Some "BRK-B"); ("name", Some "Berkshire");
         ("status", Some "Active")]]) "demo"
    [[("symbol", Some " IBM "); ("name", Some "IBM Corp");
      ("status", Some "Active")];
     [("symbol", Some "BRK-B"); ("name", Some "Berkshire");
      ("status", Some "Active")]] eq_refl) as H.
  assert (Hc : forall r : csv_row,
             In r [[("symbol", Some " IBM "); ("name", Some "IBM Corp");
                    ("status", Some "Active")];
                   [("symbol", Some "BRK-B"); ("name", Some "Berkshire");
                    ("status", Some "Active")]] -> ~ short_row r).
  { intros r [<-|[<-|[]]] (name & [<-|[<-|[<-|[]]]] & Hn); discriminate Hn. }
  assert (Ha : active_row [("symbol", Some " IBM "); ("name", Some "IBM Corp");
                           ("status", Some "Active")] "IBM" "IBM Corp").
  { unfold active_row. repeat split; discriminate. }
  destruct H as (_ & _ & Hin).
  - discriminate.
  - reflexivity.
  - apply Forall_forall. exact Hc.
  - left. exists "IBM", "IBM Corp". split; [exact Ha|reflexivity].
  - apply (Hin ltac:(simpl; lia) _ "IBM" "IBM Corp"
             (or_introl eq_refl) Ha eq_refl).
Defined.

(** ** The page (app.py) *)

Lemma extract_not_value_error (data : dict json) :
  extract_time_series_from_response data <> Raise ValueError.
Proof.
  unfold extract_time_series_from_response.
  destruct (time_series_key data) as [key|];
    [destruct (dict_get key data); discriminate|].
  destruct (dict_get "Error Message" data) as [error_msg|].
  - destruct error_msg; cbn [json_contains bind]; try discriminate;
      repeat match goal with
             | |- context [if ?b then _ else _] => destruct b; cbn [bind]
             end; discriminate.
  - destruct (dict_get "Note" data) as [note_msg|]; [|discriminate].
    destruct note_msg; cbn [json_contains json_lower bind]; try discriminate;
      repeat match goal with
             | |- context [if ?b then _ else _] => destruct b; cbn [bind]
             end; discriminate.
Qed.

Lemma rows_of_response_not_value_error
    (float_of_str : string -> option Q) (data : dict json) :
  rows_of_response float_of_str data <> Raise ValueError.
Proof.
  unfold rows_of_response.
  pose proof (extract_not_value_error data) as Hx.
  destruct (extract_time_series_from_response data) as [[key ts]|e];
    cbn [bind snd]; [|congruence].
  destruct (negb (json_truthy ts)); cbn [bind]; [discriminate|].
  destruct (json_len ts) as [n|e] eqn:Hlen; cbn [bind];
    [|destruct ts; try discriminate Hlen; injection Hlen as <-; discriminate].
  destruct (n =? 0); [discriminate|].
  destruct (json_items ts) as [items|e] eqn:Hitems; cbn [bind];
    [|destruct ts; try discriminate Hitems; injection Hitems as <-;
      discriminate].
  destruct (format_rows float_of_str items []) as [rows|[]];
    cbn [except_key_value]; discriminate.
Qed.

(** The fetch raises [ValueError] for a blank symbol and for a credential
    that is not configured, and in no other case. *)
Lemma fetch_value_error
    (getenv : string -> option string)
    (requests_get : request -> http_outcome)
    (float_of_str : string -> option Q)
    (symbol period : string) (api_key : option string)
    (outputsize intraday_interval : string) :
  fetch_stock_rows_from_alpha_vantage getenv requests_get float_of_str
    symbol period api_key outputsize intraday_interval = Raise ValueError <->
  strip symbol = "" \/ no_credential getenv.
Proof.
  unfold no_credential.
  destruct (str_truthy (strip symbol)) eqn:Hs.
  - destruct (getenv "ALPHA_VANTAGE_API_KEY") as [k|] eqn:Hk.
    + destruct (str_truthy k) eqn:Hk'.
      * rewrite (fetch_sends_request _ _ _ _ _ _ _ _ k Hs Hk Hk').
        apply str_truthy_iff in Hs, Hk'. split.
        -- intros H. exfalso.
           destruct (requests_get _); try discriminate H.
           now apply rows_of_response_not_value_error in H.
        -- intros [H|[H|H]]; [contradiction|discriminate|congruence].
      * unfold fetch_stock_rows_from_alpha_vantage.
        rewrite Hs, (strip_truthy _ Hs), Hk, Hk'. cbn.
        split; [|reflexivity]. intros _. right. right.
        destruct k; [reflexivity|discriminate].
    + unfold fetch_stock_rows_from_alpha_vantage.
      rewrite Hs, (strip_truthy _ Hs), Hk. cbn. tauto.
  - unfold fetch_stock_rows_from_alpha_vantage. rewrite Hs.
    rewrite orb_true_r. split; [|reflexivity]. intros _. left.
    destruct (strip symbol); [reflexivity|discriminate].
Qed.

(** The ways the date filter raises when its bounds parse in order. *)
Lemma filter_raise_cases (rows : list row) (start_date end_date : string)
    (start end_ : datetime) (e : exn) :
  parse_date start_date = Ok start -> parse_date end_date = Ok end_ ->
  datetime_ltb end_ start = false ->
  (filter_by_date rows start_date end_date = Raise e <->
   (e = ValueError /\ Exists (fun r => ~ parses r) rows) \/
   (e = NoDataAvailableError /\ Forall parses rows /\
    filter (in_window start end_) rows = [])).
Proof.
  intros Hs He Hord. rewrite (filter_by_date_bounds _ _ _ _ _ Hs He), Hord.
  destruct (filter_loop_cases start end_ rows []) as [[Hall ->]|[Hex ->]];
    cbn [bind app].
  - destruct (filter (in_window start end_) rows) as [|r l] eqn:Hf.
    + split.
      * intros [= <-]. right. auto.
      * intros [[_ Hex]|[-> _]]; [|reflexivity].
        exfalso. apply Exists_exists in Hex. destruct Hex as (r & Hr & Hn).
        rewrite Forall_forall in Hall. exact (Hn (Hall r Hr)).
    + split; [discriminate|].
      intros [[_ Hex]|[_ [_ H]]]; [|discriminate].
      exfalso. apply Exists_exists in Hex. destruct Hex as (r' & Hr & Hn).
      rewrite Forall_forall in Hall. exact (Hn (Hall r' Hr)).
  - split.
    + intros [= <-]. left. auto.
    + intros [[-> _]|[_ [Hall _]]]; [reflexivity|].
      exfalso. apply Exists_exists in Hex. destruct Hex as (r & Hr & Hn).
      rewrite Forall_forall in Hall. exact (Hn (Hall r Hr)).
Qed.

(** The web entry point raises what the fetch raises, or what the date filter
    raises on the rows fetched; the later stages do not raise. *)
Lemma generate_chart_for_web_raise
    (getenv : string -> option string)
    (requests_get : request -> http_outcome)
    (float_of_str : string -> option Q)
    (symbol period start_date end_date chart_type : string)
    (api_key : option string) (intraday_interval : string) (e : exn) :
  generate_chart_for_web getenv requests_get float_of_str symbol period
    start_date end_date chart_type api_key intraday_interval = Raise e <->
  fetch_stock_rows_from_alpha_vantage getenv requests_get float_of_str
    symbol period api_key "full" intraday_interval = Raise e \/
  exists all_rows,
    fetch_stock_rows_from_alpha_vantage getenv requests_get float_of_str
      symbol period api_key "full" intraday_interval = Ok all_rows /\
    filter_by_date all_rows start_date end_date = Raise e.
Proof.
  unfold generate_chart_for_web.
  destruct (fetch_stock_rows_from_alpha_vantage _ _ _ _ _ _ _ _)
    as [all_rows|e0]; cbn [bind].
  - destruct (filter_by_date all_rows start_date end_date) as [filtered|e0]
      eqn:Hfilter; cbn [bind].
    + destruct (filter_by_date_ok_inv _ _ _ _ Hfilter)
        as (start & end_ & _ & _ & _ & _ & _ & Hout).
      destruct (group_by_period_defined period filtered) as [g ->].
      { subst filtered. apply Forall_forall. intros r Hr.
        apply (proj1 (sort_by_in date _ _)) in Hr. apply filter_In in Hr.
        eapply in_window_parses. apply Hr. }
      cbn [bind]. split; [discriminate|].
      intros [H|(rows & H1 & H2)]; [discriminate|].
      injection H1 as <-. rewrite Hfilter in H2. discriminate.
    + split.
      * intros H. right. exists all_rows.
        split; [reflexivity|]. rewrite Hfilter. now injection H as ->.
      * intros [H|(rows & H1 & H2)]; [discriminate|].
        injection H1 as <-. rewrite Hfilter in H2. now injection H2 as ->.
  - split.
    + intros H. left. now injection H as ->.
    + intros [H|(rows & H1 & _)]; [now injection H as ->|discriminate].
Qed.

Lemma strptime_blank (d : datetime) :
  strptime re_date "" <> Ok d.
Proof. vm_compute. discriminate. Qed.

Lemma strptime_parse_date (text : string) (d : datetime) :
  strptime re_date text = Ok d -> parse_date text = Ok d.
Proof. intros H. unfold parse_date. now rewrite H. Qed.

(** What [index] does with a form that passes its checks. *)
Lemma index_accepted
    (getenv : string -> option string)
    (requests_get : request -> http_outcome)
    (float_of_str : string -> option Q)
    (STOCK_SYMBOLS : list (string * string)) (form : dict string) :
  form_accepted form ->
  index getenv requests_get float_of_str STOCK_SYMBOLS "POST" form =
  match generate_chart_for_web getenv requests_get float_of_str
          (upper (strip (form_get form "symbol" "")))
          (form_get form "time_series" "daily")
          (strip (form_get form "start_date" ""))
          (strip (form_get form "end_date" ""))
          (form_get form "chart_type" "line") None "60min" with
  | Ok chart_svg =>
      mk_page STOCK_SYMBOLS (Some chart_svg)
        (Some (mk_chart_info (upper (strip (form_get form "symbol" "")))
                 (capitalize (form_get form "chart_type" "line"))
                 (capitalize (form_get form "time_series" "daily"))
                 (strip (form_get form "start_date" ""))
                 (strip (form_get form "end_date" ""))))
        [ChartGenerated]
  | Raise e => mk_page STOCK_SYMBOLS None None [flash_of_exception e]
  end.
Proof.
  intros (Hsym & start & end_ & Hs & He & Hord). unfold index.
  rewrite String.eqb_refl, str_truthy_upper.
  apply str_truthy_iff in Hsym. rewrite Hsym. cbn [negb].
  assert (Hsd : str_truthy (strip (form_get form "start_date" "")) = true).
  { destruct (strip (form_get form "start_date" "")); [|reflexivity].
    now apply strptime_blank in Hs. }
  assert (Hed : str_truthy (strip (form_get form "end_date" "")) = true).
  { destruct (strip (form_get form "end_date" "")); [|reflexivity].
    now apply strptime_blank in He. }
  rewrite Hsd, Hed, Hs, He. cbn [negb orb bind]. rewrite Hord.
  destruct (generate_chart_for_web _ _ _ _ _ _ _ _ _ _); reflexivity.
Qed.

(** The symbol [index] passes on is not blank for the fetch. *)
Lemma accepted_symbol (form : dict string) :
  form_accepted form ->
  strip (upper (strip (form_get form "symbol" ""))) <> "".
Proof.
  intros [Hsym _]. rewrite strip_upper, strip_strip.
  apply str_truthy_iff. rewrite str_truthy_upper. now apply str_truthy_iff.
Qed.

(** X20. The page always offers the list of symbols loaded at start.  A
    request that is not a POST flashes nothing and shows no chart; a POST
    flashes exactly one message, and the chart and its description are shown
    exactly when that message is the one of success. *)
Theorem page_flashes_one_message_per_post
    (getenv : string -> option string)
    (requests_get : request -> http_outcome)
    (float_of_str : string -> option Q)
    (STOCK_SYMBOLS : list (string * string))
    (method : string) (form : dict string) :
  let p := index getenv requests_get float_of_str STOCK_SYMBOLS method form in
  page_stock_symbols p = STOCK_SYMBOLS /\
  (page_chart_svg p = None <-> page_chart_info p = None) /\
  (method <> "POST" ->
   page_flashed p = [] /\ page_chart_svg p = None) /\
  (method = "POST" ->
   exists m, page_flashed p = [m] /\
             (m = ChartGenerated <-> page_chart_svg p <> None)).
Proof.
  cbv zeta. unfold index.
  destruct (String.eqb_spec method "POST") as [->|Hm].
  - match goal with
    | |- context [if ?b then _ else _] => destruct b
    end; [cbn; repeat split; try easy;
          eexists; split; [reflexivity|]; split; [discriminate|easy]|].
    match goal with
    | |- context [if ?b then _ else _] => destruct b
    end; [cbn; repeat split; try easy;
          eexists; split; [reflexivity|]; split; [discriminate|easy]|].
    match goal with
    | |- context [match ?a with Ok _ => _ | Raise _ => _ end] =>
        destruct a as [[[c info]|]|e]
    end; cbn [page_stock_symbols page_chart_svg page_chart_info page_flashed].
    + repeat split; try easy. eexists. split; [reflexivity|].
      split; [discriminate|reflexivity].
    + repeat split; try easy. eexists. split; [reflexivity|].
      split; [discriminate|easy].
    + repeat split; try easy. eexists. split; [reflexivity|].
      split; [destruct e; discriminate|easy].
  - cbn. repeat split; try easy.
Qed.

(** X21. The form is checked before anything is fetched: for a form that the
    checks reject, the page does not depend on the environment and the
    network.  A blank symbol asks for a symbol whatever the dates are; with a
    symbol, a blank date asks for both dates; with a symbol and two dates, a
    date that does not read as year-month-day reports the date format; and
    two dates with the end before the start report the order. *)
Theorem form_is_checked_before_the_fetch
    (getenv getenv' : string -> option string)
    (requests_get requests_get' : request -> http_outcome)
    (float_of_str float_of_str' : string -> option Q)
    (STOCK_SYMBOLS : list (string * string)) (form : dict string) :
  let p := index getenv requests_get float_of_str STOCK_SYMBOLS "POST" form in
  let symbol := strip (form_get form "symbol" "") in
  let start_date := strip (form_get form "start_date" "") in
  let end_date := strip (form_get form "end_date" "") in
  (~ form_accepted form ->
   index getenv' requests_get' float_of_str' STOCK_SYMBOLS "POST" form = p /\
   page_chart_svg p = None) /\
  (symbol = "" -> page_flashed p = [PleaseSelectSymbol]) /\
  (symbol <> "" -> start_date = "" \/ end_date = "" ->
   page_flashed p = [PleaseProvideDates]) /\
  (symbol <> "" -> start_date <> "" -> end_date <> "" ->
   strptime re_date start_date = Raise ValueError \/
   strptime re_date end_date = Raise ValueError ->
   page_flashed p = [InvalidDateFormat]) /\
  (symbol <> "" ->
   forall start end_,
     strptime re_date start_date = Ok start ->
     strptime re_date end_date = Ok end_ ->
     datetime_ltb end_ start = true ->
     page_flashed p = [EndBeforeStart]).
Proof.
  cbv zeta. split; [|split; [|split; [|split]]].
  - intros Hrej. unfold index, form_accepted in *.
    rewrite !String.eqb_refl, !str_truthy_upper.
    destruct (str_truthy (strip (form_get form "symbol" ""))) eqn:Hsym;
      cbn [negb]; [|split; reflexivity].
    apply str_truthy_iff in Hsym.
    destruct (negb (str_truthy (strip (form_get form "start_date" "")))
              || negb (str_truthy (strip (form_get form "end_date" ""))));
      [split; reflexivity|].
    destruct (strptime re_date (strip (form_get form "start_date" "")))
      as [start|e1] eqn:Hs; cbn [bind]; [|split; reflexivity].
    destruct (strptime re_date (strip (form_get form "end_date" "")))
      as [end_|e2] eqn:He; cbn [bind]; [|split; reflexivity].
    destruct (datetime_ltb end_ start) eqn:Hord; [split; reflexivity|].
    exfalso. apply Hrej. split; [exact Hsym|]. exists start, end_. auto.
  - intros Hsym. unfold index. rewrite String.eqb_refl, str_truthy_upper, Hsym.
    reflexivity.
  - intros Hsym Hblank. unfold index.
    rewrite String.eqb_refl, str_truthy_upper.
    apply str_truthy_iff in Hsym. rewrite Hsym. cbn [negb].
    destruct Hblank as [-> | ->]; cbn [str_truthy negb orb];
      [reflexivity|]. rewrite orb_true_r. reflexivity.
  - intros Hsym Hsd Hed Hbad. unfold index.
    rewrite String.eqb_refl, str_truthy_upper.
    apply str_truthy_iff in Hsym, Hsd, Hed. rewrite Hsym, Hsd, Hed.
    cbn [negb orb].
    destruct Hbad as [-> | Hbad]; cbn [bind]; [reflexivity|].
    destruct (strptime re_date (strip (form_get form "start_date" "")))
      as [start|e1] eqn:Hs; cbn [bind].
    + rewrite Hbad. reflexivity.
    + apply strptime_raise in Hs. subst e1. reflexivity.
  - intros Hsym start end_ Hs He Hord. unfold index.
    rewrite String.eqb_refl, str_truthy_upper.
    apply str_truthy_iff in Hsym. rewrite Hsym. cbn [negb].
    assert (Hsd : str_truthy (strip (form_get form "start_date" "")) = true).
    { destruct (strip (form_get form "start_date" "")); [|reflexivity].
      now apply strptime_blank in Hs. }
    assert (Hed : str_truthy (strip (form_get form "end_date" "")) = true).
    { destruct (strip (form_get form "end_date" "")); [|reflexivity].
      now apply strptime_blank in He. }
    rewrite Hsd, Hed, Hs, He. cbn [negb orb bind]. rewrite Hord. reflexivity.
Qed.

Lemma form_is_checked_before_the_fetch_witness :
  page_flashed
    (index (env_with_key "demo") (fun _ => Timeout) (fun _ => None) []
       "POST" [("symbol", "ibm"); ("start_date", "2024-03-01");
               ("end_date", "2024-01-01")])
  = [EndBeforeStart].
Proof.
  refine (proj2 (proj2 (proj2 (proj2
            (form_is_checked_before_the_fetch
               (env_with_key "demo") (env_with_key "demo")
               (fun _ => Timeout) (fun _ => Timeout)
               (fun _ => None) (fun _ => None) []
               [("symbol", "ibm"); ("start_date", "2024-03-01");
                ("end_date", "2024-01-01")]))))
            _ (mk_datetime 2024 3 1 0 0 0) (mk_datetime 2024 1 1 0 0 0)
            _ _ _).
  - discriminate.
  - reflexivity.
  - reflexivity.
  - reflexivity.
Defined.

(** X22. The handler of [ValueError] also catches what the chart generation
    raises: for a form that passes the checks, the page reports an invalid
    date format exactly when the credential is not configured, or the
    provider returned a row whose date cannot be read. *)
Theorem date_format_message_after_the_checks
    (getenv : string -> option string)
    (requests_get : request -> http_outcome)
    (float_of_str : string -> option Q)
    (STOCK_SYMBOLS : list (string * string)) (form : dict string) :
  form_accepted form ->
  (page_flashed
     (index getenv requests_get float_of_str STOCK_SYMBOLS "POST" form)
   = [InvalidDateFormat] <->
   no_credential getenv \/
   exists all_rows,
     fetch_stock_rows_from_alpha_vantage getenv requests_get float_of_str
       (upper (strip (form_get form "symbol" "")))
       (form_get form "time_series" "daily") None "full" "60min"
     = Ok all_rows /\
     Exists (fun r => ~ parses r) all_rows).
Proof.
  intros Hacc. rewrite (index_accepted _ _ _ _ _ Hacc).
  pose proof (accepted_symbol form Hacc) as Hsym.
  destruct Hacc as (_ & start & end_ & Hs & He & Hord).
  apply strptime_parse_date in Hs, He.
  pose proof (generate_chart_for_web_raise getenv requests_get float_of_str
                (upper (strip (form_get form "symbol" "")))
                (form_get form "time_series" "daily")
                (strip (form_get form "start_date" ""))
                (strip (form_get form "end_date" ""))
                (form_get form "chart_type" "line") None "60min" ValueError)
    as Hraise.
  rewrite fetch_value_error in Hraise.
  assert (Hiff : generate_chart_for_web getenv requests_get float_of_str
                   (upper (strip (form_get form "symbol" "")))
                   (form_get form "time_series" "daily")
                   (strip (form_get form "start_date" ""))
                   (strip (form_get form "end_date" ""))
                   (form_get form "chart_type" "line") None "60min"
                 = Raise ValueError <->
                 no_credential getenv \/
                 exists all_rows,
                   fetch_stock_rows_from_alpha_vantage getenv requests_get
                     float_of_str (upper (strip (form_get form "symbol" "")))
                     (form_get form "time_series" "daily") None "full" "60min"
                   = Ok all_rows /\
                   Exists (fun r => ~ parses r) all_rows).
  { rewrite Hraise. split.
    - intros [[H|H]|(rows & Hf & Hv)]; [contradiction|now left|].
      right. exists rows. split; [exact Hf|].
      apply (filter_raise_cases _ _ _ _ _ _ Hs He Hord) in Hv.
      destruct Hv as [[_ Hex]|[Hne _]]; [exact Hex|discriminate].
    - intros [H|(rows & Hf & Hex)]; [left; now right|].
      right. exists rows. split; [exact Hf|].
      apply (filter_raise_cases _ _ _ _ _ _ Hs He Hord). left. auto. }
  rewrite <- Hiff.
  destruct (generate_chart_for_web _ _ _ _ _ _ _ _ _ _) as [c|e];
    cbn [page_flashed].
  - split; discriminate.
  - split.
    + intros H. destruct e; try discriminate H. reflexivity.
    + intros [= ->]. reflexivity.
Qed.

Lemma date_format_message_after_the_checks_witness :
  page_flashed
    (index (fun _ => None) (fun _ => Timeout) (fun _ => None) []
       "POST" [("symbol", "ibm"); ("start_date", "2024-01-01");
               ("end_date", "2024-03-01")])
  = [InvalidDateFormat].
Proof.
  apply (date_format_message_after_the_checks (fun _ => None)
           (fun _ => Timeout) (fun _ => None) []
           [("symbol", "ibm"); ("start_date", "2024-01-01");
            ("end_date", "2024-03-01")]).
  - split; [discriminate|].
    exists (mk_datetime 2024 1 1 0 0 0), (mk_datetime 2024 3 1 0 0 0).
    repeat split; reflexivity.
  - left. left. reflexivity.
Defined.

(** X23. For a form that passes the checks and whose symbol is ASCII text
    between the blanks around it, the message names the stage that failed:
    the symbol and the rate limit messages are shown exactly when the fetch
    raised the exception of that name, and the message of no data exactly
    when the fetch raised it or the dates of all rows fetched can be read
    and none is in the window; on success the page shows the chart
    generated, described, when the chart type and the resolution are ASCII
    text, by the symbol in upper case, the capitalized chart type and
    resolution, and the dates as entered without blanks around. *)
Theorem page_message_names_the_stage
    (getenv : string -> option string)
    (requests_get : request -> http_outcome)
    (float_of_str : string -> option Q)
    (STOCK_SYMBOLS : list (string * string)) (form : dict string) :
  form_accepted form ->
  ascii_text (strip (form_get form "symbol" "")) ->
  let symbol := upper (strip (form_get form "symbol" "")) in
  let chart_type := form_get form "chart_type" "line" in
  let time_series := form_get form "time_series" "daily" in
  let start_date := strip (form_get form "start_date" "") in
  let end_date := strip (form_get form "end_date" "") in
  let fetched :=
    fetch_stock_rows_from_alpha_vantage getenv requests_get float_of_str
      symbol time_series None "full" "60min" in
  let p := index getenv requests_get float_of_str STOCK_SYMBOLS "POST" form in
  (ascii_text chart_type -> ascii_text time_series ->
   forall c,
     generate_chart_for_web getenv requests_get float_of_str symbol
       time_series start_date end_date chart_type None "60min" = Ok c ->
     p = mk_page STOCK_SYMBOLS (Some c)
           (Some (mk_chart_info symbol (capitalize chart_type)
                    (capitalize time_series) start_date end_date))
           [ChartGenerated]) /\
  (page_flashed p = [ChartGenerated] -> page_chart_svg p <> None) /\
  (page_flashed p = [SymbolNotFoundFlash] <->
   fetched = Raise StockSymbolNotFoundError) /\
  (page_flashed p = [RateLimitFlash] <-> fetched = Raise APIRateLimitError) /\
  (page_flashed p = [NoDataFlash] <->
   fetched = Raise NoDataAvailableError \/
   exists all_rows start end_,
     fetched = Ok all_rows /\ Forall parses all_rows /\
     parse_date start_date = Ok start /\ parse_date end_date = Ok end_ /\
     filter (in_window start end_) all_rows = []).
Proof.
  intros Hacc _. cbv zeta. rewrite (index_accepted _ _ _ _ _ Hacc).
  destruct Hacc as (_ & start & end_ & Hs & He & Hord).
  apply strptime_parse_date in Hs, He.
  assert (Hraise : forall e,
            e <> ValueError ->
            (generate_chart_for_web getenv requests_get float_of_str
               (upper (strip (form_get form "symbol" "")))
               (form_get form "time_series" "daily")
               (strip (form_get form "start_date" ""))
               (strip (form_get form "end_date" ""))
               (form_get form "chart_type" "line") None "60min" = Raise e <->
             fetch_stock_rows_from_alpha_vantage getenv requests_get
               float_of_str (upper (strip (form_get form "symbol" "")))
               (form_get form "time_series" "daily") None "full" "60min"
             = Raise e \/
             (e = NoDataAvailableError /\
              exists all_rows,
                fetch_stock_rows_from_alpha_vantage getenv requests_get
                  float_of_str (upper (strip (form_get form "symbol" "")))
                  (form_get form "time_series" "daily") None "full" "60min"
                = Ok all_rows /\ Forall parses all_rows /\
                filter (in_window start end_) all_rows = []))).
  { intros e Hne. rewrite generate_chart_for_web_raise. split.
    - intros [H|(rows & Hf & Hr)]; [now left|].
      apply (filter_raise_cases _ _ _ _ _ _ Hs He Hord) in Hr.
      destruct Hr as [[-> _]|[-> [Hall Hnil]]]; [contradiction|].
      right. split; [reflexivity|]. exists rows. auto.
    - intros [H|[-> (rows & Hf & Hall & Hnil)]]; [now left|].
      right. exists rows. split; [exact Hf|].
      apply (filter_raise_cases _ _ _ _ _ _ Hs He Hord). right. auto. }
  split; [|split; [|split; [|split]]].
  - intros _ _ c ->. reflexivity.
  - destruct (generate_chart_for_web _ _ _ _ _ _ _ _ _ _) as [c|e];
      cbn [page_flashed page_chart_svg]; [discriminate|].
    destruct e; discriminate.
  - pose proof (Hraise StockSymbolNotFoundError ltac:(discriminate)) as H.
    destruct (generate_chart_for_web _ _ _ _ _ _ _ _ _ _) as [c|e];
      cbn [page_flashed].
    + split; [discriminate|]. intros Hf. exfalso.
      assert (Hc : @Ok chart c = Raise StockSymbolNotFoundError)
        by (apply H; now left). discriminate Hc.
    + split.
      * intros Hm. assert (e = StockSymbolNotFoundError)
          by (destruct e; try discriminate Hm; reflexivity). subst e.
        destruct (proj1 H eq_refl) as [Hf|[Hd _]];
          [exact Hf|discriminate Hd].
      * intros Hf. assert (Hc : @Raise chart e = Raise StockSymbolNotFoundError)
          by (apply H; now left). injection Hc as ->. reflexivity.
  - pose proof (Hraise APIRateLimitError ltac:(discriminate)) as H.
    destruct (generate_chart_for_web _ _ _ _ _ _ _ _ _ _) as [c|e];
      cbn [page_flashed].
    + split; [discriminate|]. intros Hf. exfalso.
      assert (Hc : @Ok chart c = Raise APIRateLimitError)
        by (apply H; now left). discriminate Hc.
    + split.
      * intros Hm. assert (e = APIRateLimitError)
          by (destruct e; try discriminate Hm; reflexivity). subst e.
        destruct (proj1 H eq_refl) as [Hf|[Hd _]];
          [exact Hf|discriminate Hd].
      * intros Hf. assert (Hc : @Raise chart e = Raise APIRateLimitError)
          by (apply H; now left). injection Hc as ->. reflexivity.
  - pose proof (Hraise NoDataAvailableError ltac:(discriminate)) as H.
    assert (Hrhs :
      (fetch_stock_rows_from_alpha_vantage getenv requests_get float_of_str
         (upper (strip (form_get form "symbol" "")))
         (form_get form "time_series" "daily") None "full" "60min"
       = Raise NoDataAvailableError \/
       exists all_rows start0 end0,
         fetch_stock_rows_from_alpha_vantage getenv requests_get float_of_str
           (upper (strip (form_get form "symbol" "")))
           (form_get form "time_series" "daily") None "full" "60min"
         = Ok all_rows /\ Forall parses all_rows /\
         parse_date (strip (form_get form "start_date" "")) = Ok start0 /\
         parse_date (strip (form_get form "end_date" "")) = Ok end0 /\
         filter (in_window start0 end0) all_rows = []) <->
      generate_chart_for_web getenv requests_get float_of_str
        (upper (strip (form_get form "symbol" "")))
        (form_get form "time_series" "daily")
        (strip (form_get form "start_date" ""))
        (strip (form_get form "end_date" ""))
        (form_get form "chart_type" "line") None "60min"
      = Raise NoDataAvailableError).
    { rewrite H. split.
      - intros [Hf|(rows & s0 & e0 & Hf & Hall & Hs0 & He0 & Hnil)];
          [now left|].
        rewrite Hs in Hs0. rewrite He in He0.
        injection Hs0 as <-. injection He0 as <-.
        right. split; [reflexivity|]. exists rows. auto.
      - intros [Hf|[_ (rows & Hf & Hall & Hnil)]]; [now left|].
        right. exists rows, start, end_. auto 6. }
    rewrite Hrhs.
    destruct (generate_chart_for_web _ _ _ _ _ _ _ _ _ _) as [c|e];
      cbn [page_flashed].
    + split; discriminate.
    + split.
      * intros Hm. destruct e; try discriminate Hm. reflexivity.
      * intros [= ->]. reflexivity.
Qed.

Lemma page_message_names_the_stage_witness :
  page_flashed
    (index (env_with_key "demo")
       (provider_returns [("Note", JStr "API call frequency exceeded")])
       (fun _ => None) []
       "POST" [("symbol", "ibm"); ("start_date", "2024-01-01");
               ("end_date", "2024-03-01")])
  = [RateLimitFlash].
Proof.
  destruct (page_message_names_the_stage (env_with_key "demo")
              (provider_returns [("Note", JStr "API call frequency exceeded")])
              (fun _ => None) []
              [("symbol", "ibm"); ("start_date", "2024-01-01");
               ("end_date", "2024-03-01")])
    as (_ & _ & _ & Hrate & _).
  - split; [discriminate|].
    exists (mk_datetime 2024 1 1 0 0 0), (mk_datetime 2024 3 1 0 0 0).
    repeat split; reflexivity.
  - reflexivity.
  - apply Hrate. reflexivity.
Defined.

(** ** The prompts (main.py) *)

Lemma first_accepted_eof {A : Type} (accept : string -> option A)
    (stdin : list string) :
  first_accepted accept stdin = EOF <->
  Forall (fun line => accept line = None) stdin.
Proof.
  induction stdin as [|line rest IH]; cbn [first_accepted].
  - split; [constructor|reflexivity].
  - destruct (accept line) as [a|] eqn:Ha.
    + split; [discriminate|]. intros H. inversion H; congruence.
    + rewrite IH. split; [now constructor|]. intros H. now inversion H.
Qed.

Lemma first_accepted_return {A : Type} (accept : string -> option A)
    (stdin : list string) (a : A) (rest : list string) :
  first_accepted accept stdin = Return a rest <->
  exists skipped line,
    stdin = (skipped ++ line :: rest)%list /\
    Forall (fun line => accept line = None) skipped /\
    accept line = Some a.
Proof.
  induction stdin as [|l stdin IH]; cbn [first_accepted].
  - split; [discriminate|].
    intros (skipped & line & H & _). now destruct skipped.
  - destruct (accept l) as [a'|] eqn:Ha.
    + split.
      * intros [= -> ->]. exists [], l. repeat split; [constructor|exact Ha].
      * intros ([|l' skipped] & line & Heq & Hsk & Hline);
          cbn [app] in Heq; injection Heq as -> Heq.
        -- subst. congruence.
        -- inversion Hsk; congruence.
    + rewrite IH. split.
      * intros (skipped & line & -> & Hsk & Hline).
        exists (l :: skipped), line. repeat split; [now constructor|exact Hline].
      * intros ([|l' skipped] & line & Heq & Hsk & Hline);
          cbn [app] in Heq; injection Heq as -> Heq.
        -- congruence.
        -- exists skipped, line. inversion Hsk. auto.
Qed.

Lemma get_stock_symbol_loop (stdin : list string) :
  get_stock_symbol stdin =
  first_accepted (fun line => let symbol := upper (strip line) in
                              if str_truthy symbol then Some symbol else None)
    stdin.
Proof.
  induction stdin as [|line rest IH]; cbn [get_stock_symbol first_accepted];
    [reflexivity|].
  cbv zeta. destruct (str_truthy (upper (strip line))); [reflexivity|exact IH].
Qed.

Lemma get_chart_type_loop (stdin : list string) :
  get_chart_type stdin =
  first_accepted (fun line => dict_get (strip line) [("1", "line"); ("2", "bar")])
    stdin.
Proof.
  induction stdin as [|line rest IH]; cbn [get_chart_type first_accepted];
    [reflexivity|].
  cbv zeta. destruct (dict_get (strip line) _); [reflexivity|exact IH].
Qed.

Lemma get_time_series_loop (stdin : list string) :
  get_time_series stdin =
  first_accepted
    (fun line => dict_get (strip line)
                   [("1", "intraday"); ("2", "daily"); ("3", "weekly");
                    ("4", "monthly")])
    stdin.
Proof.
  induction stdin as [|line rest IH]; cbn [get_time_series first_accepted];
    [reflexivity|].
  cbv zeta. destruct (dict_get (strip line) _); [reflexivity|exact IH].
Qed.

Lemma get_date_loop (stdin : list string) :
  get_date stdin =
  first_accepted (fun line => match strptime re_date (strip line) with
                              | Ok date_obj => Some (strip line, date_obj)
                              | Raise _ => None
                              end)
    stdin.
Proof.
  induction stdin as [|line rest IH]; cbn [get_date first_accepted];
    [reflexivity|].
  cbv zeta. destruct (strptime re_date (strip line)); [reflexivity|exact IH].
Qed.

(** The fuel of the loop for the end date is enough: every turn reads a
    line. *)
Lemma end_date_loop_fuel (start_date_str : string) (start_date_obj : datetime)
    (stdin : list string) (fuel : nat) :
  (List.length stdin < fuel)%nat ->
  end_date_loop fuel start_date_str start_date_obj stdin =
  first_accepted (fun line => match strptime re_date (strip line) with
                              | Ok end_date_obj =>
                                  if datetime_leb start_date_obj end_date_obj
                                  then Some (start_date_str, strip line)
                                  else None
                              | Raise _ => None
                              end)
    stdin.
Proof.
  revert fuel. induction stdin as [|line rest IH]; intros [|fuel] Hlen;
    cbn [List.length] in Hlen; try lia.
  - reflexivity.
  - cbn [end_date_loop get_date first_accepted]. cbv zeta.
    destruct (strptime re_date (strip line)) as [d|e].
    + destruct (datetime_leb start_date_obj d); [reflexivity|].
      apply IH. lia.
    + rewrite <- (IH (S fuel)) by lia. reflexivity.
Qed.

Lemma ask_continue_loop (stdin : list string) :
  ask_continue stdin =
  first_accepted (fun line => let response := lower (strip line) in
                              if String.eqb response "n" then Some false
                              else if String.eqb response "y"
                                      || String.eqb response ""
                                   then Some true else None)
    stdin.
Proof.
  induction stdin as [|line rest IH]; cbn [ask_continue first_accepted];
    [reflexivity|].
  cbv zeta. destruct (String.eqb (lower (strip line)) "n"); [reflexivity|].
  destruct (String.eqb (lower (strip line)) "y"
            || String.eqb (lower (strip line)) ""); [reflexivity|exact IH].
Qed.

(** X24. [get_stock_symbol] skips the blank lines and takes the first line
    that is not blank; the lines after it are left unread, and the input
    ends before a symbol is read exactly when every line is blank.  When the
    line taken is ASCII text between the blanks around it, the symbol
    returned is that text in upper case, and the fetch leaves it as it
    is. *)
Theorem symbol_prompt_takes_first_nonblank_line (stdin : list string) :
  (get_stock_symbol stdin = EOF <->
   Forall (fun line => strip line = "") stdin) /\
  (forall symbol rest,
     get_stock_symbol stdin = Return symbol rest ->
     symbol <> "" /\
     exists skipped line,
       stdin = (skipped ++ line :: rest)%list /\
       Forall (fun line => strip line = "") skipped /\
       strip line <> "" /\
       (ascii_text (strip line) ->
        symbol = upper (strip line) /\ upper (strip symbol) = symbol)) /\
  (forall skipped line rest,
     stdin = (skipped ++ line :: rest)%list ->
     Forall (fun line => strip line = "") skipped ->
     strip line <> "" -> ascii_text (strip line) ->
     get_stock_symbol stdin = Return (upper (strip line)) rest).
Proof.
  assert (Hacc : forall line,
            (if str_truthy (upper (strip line))
             then Some (upper (strip line)) else None) = None <->
            strip line = "").
  { intros line. rewrite str_truthy_upper.
    destruct (strip line); cbn [str_truthy]; split; congruence. }
  assert (Hret : forall symbol rest,
            get_stock_symbol stdin = Return symbol rest <->
            exists skipped line,
              stdin = (skipped ++ line :: rest)%list /\
              Forall (fun line => strip line = "") skipped /\
              strip line <> "" /\ symbol = upper (strip line)).
  { intros symbol rest.
    rewrite get_stock_symbol_loop, first_accepted_return. cbv zeta.
    split; intros (skipped & line & Heq & Hsk & Hline);
      exists skipped, line; (split; [exact Heq|]); split.
    - eapply Forall_impl; [|exact Hsk]. intros l. apply Hacc.
    - rewrite str_truthy_upper in Hline.
      destruct (strip line) eqn:Hl; cbn [str_truthy] in Hline;
        [discriminate|].
      injection Hline as <-. split; [discriminate|reflexivity].
    - eapply Forall_impl; [|exact Hsk]. intros l. apply Hacc.
    - destruct Hline as [Hne ->]. rewrite str_truthy_upper.
      apply str_truthy_iff in Hne. now rewrite Hne. }
  split; [|split].
  - rewrite get_stock_symbol_loop, first_accepted_eof. cbv zeta.
    split; intros H; (eapply Forall_impl; [|exact H]); intros l; apply Hacc.
  - intros symbol rest H. apply Hret in H.
    destruct H as (skipped & line & Heq & Hsk & Hne & ->). split.
    + apply str_truthy_iff. rewrite str_truthy_upper.
      now apply str_truthy_iff.
    + exists skipped, line. repeat (split; trivial).
      now rewrite strip_upper, strip_strip, upper_upper.
  - intros skipped line rest Heq Hsk Hne _. apply Hret.
    exists skipped, line. auto.
Qed.

Lemma symbol_prompt_takes_first_nonblank_line_witness :
  get_stock_symbol [""; "  "; " ibm "; "1"] = Return "IBM" ["1"].
Proof.
  apply (proj2 (proj2 (symbol_prompt_takes_first_nonblank_line
                         [""; "  "; " ibm "; "1"]))
           [""; "  "] " ibm " ["1"]).
  - reflexivity.
  - repeat constructor.
  - discriminate.
  - reflexivity.
Defined.

(** X25. The menus of [get_chart_type] and [get_time_series] take the first
    line that is one of the numbers offered, blanks around it apart, and skip
    every other line.  The chart type returned is "line" or "bar"; the
    resolution returned is one the pipeline knows by name, and the fetch asks
    the provider for the function of that name. *)
Theorem menu_prompts_take_first_valid_choice (stdin : list string) :
  (forall chart_type rest,
     get_chart_type stdin = Return chart_type rest <->
     exists skipped line,
       stdin = (skipped ++ line :: rest)%list /\
       Forall (fun line => ~ In (strip line) ["1"; "2"]) skipped /\
       In (strip line, chart_type) [("1", "line"); ("2", "bar")]) /\
  (get_chart_type stdin = EOF <->
   Forall (fun line => ~ In (strip line) ["1"; "2"]) stdin) /\
  (forall period rest,
     get_time_series stdin = Return period rest <->
     exists skipped line,
       stdin = (skipped ++ line :: rest)%list /\
       Forall (fun line => ~ In (strip line) ["1"; "2"; "3"; "4"]) skipped /\
       In (strip line, period)
          [("1", "intraday"); ("2", "daily"); ("3", "weekly");
           ("4", "monthly")]) /\
  (get_time_series stdin = EOF <->
   Forall (fun line => ~ In (strip line) ["1"; "2"; "3"; "4"]) stdin) /\
  (forall period rest intraday_interval,
     get_time_series stdin = Return period rest ->
     recognized period = true /\
     fst (alpha_function_for_period period intraday_interval)
     = "TIME_SERIES_" ++ upper period).
Proof.
  assert (Hc_none : forall choice,
            dict_get choice [("1", "line"); ("2", "bar")] = None <->
            ~ In choice ["1"; "2"]).
  { intros choice. cbn [dict_get In].
    destruct (String.eqb_spec "1" choice) as [<-|H1];
      [split; [discriminate|tauto]|].
    destruct (String.eqb_spec "2" choice) as [<-|H2];
      [split; [discriminate|tauto]|].
    split; [tauto|reflexivity]. }
  assert (Hc_some : forall choice chart_type,
            dict_get choice [("1", "line"); ("2", "bar")] = Some chart_type <->
            In (choice, chart_type) [("1", "line"); ("2", "bar")]).
  { intros choice chart_type. cbn [dict_get In].
    destruct (String.eqb_spec "1" choice) as [<-|H1].
    { split; [intros [= <-]; now left|].
      intros [H|[H|[]]]; congruence. }
    destruct (String.eqb_spec "2" choice) as [<-|H2].
    { split; [intros [= <-]; right; now left|].
      intros [H|[H|[]]]; congruence. }
    split; [discriminate|]. intros [H|[H|[]]]; congruence. }
  assert (Hp_none : forall choice,
            dict_get choice [("1", "intraday"); ("2", "daily");
                             ("3", "weekly"); ("4", "monthly")] = None <->
            ~ In choice ["1"; "2"; "3"; "4"]).
  { intros choice. cbn [dict_get In].
    destruct (String.eqb_spec "1" choice) as [<-|H1];
      [split; [discriminate|tauto]|].
    destruct (String.eqb_spec "2" choice) as [<-|H2];
      [split; [discriminate|tauto]|].
    destruct (String.eqb_spec "3" choice) as [<-|H3];
      [split; [discriminate|tauto]|].
    destruct (String.eqb_spec "4" choice) as [<-|H4];
      [split; [discriminate|tauto]|].
    split; [tauto|reflexivity]. }
  assert (Hp_some : forall choice period,
            dict_get choice [("1", "intraday"); ("2", "daily");
                             ("3", "weekly"); ("4", "monthly")]
            = Some period <->
            In (choice, period)
               [("1", "intraday"); ("2", "daily"); ("3", "weekly");
                ("4", "monthly")]).
  { intros choice period. cbn [dict_get In].
    destruct (String.eqb_spec "1" choice) as [<-|H1].
    { split; [intros [= <-]; now left|].
      intros [H|[H|[H|[H|[]]]]]; congruence. }
    destruct (String.eqb_spec "2" choice) as [<-|H2].
    { split; [intros [= <-]; right; now left|].
      intros [H|[H|[H|[H|[]]]]]; congruence. }
    destruct (String.eqb_spec "3" choice) as [<-|H3].
    { split; [intros [= <-]; right; right; now left|].
      intros [H|[H|[H|[H|[]]]]]; congruence. }
    destruct (String.eqb_spec "4" choice) as [<-|H4].
    { split; [intros [= <-]; right; right; right; now left|].
      intros [H|[H|[H|[H|[]]]]]; congruence. }
    split; [discriminate|]. intros [H|[H|[H|[H|[]]]]]; congruence. }
  assert (Hperiod : forall period rest,
            get_time_series stdin = Return period rest <->
            exists skipped line,
              stdin = (skipped ++ line :: rest)%list /\
              Forall (fun line => ~ In (strip line) ["1"; "2"; "3"; "4"])
                skipped /\
              In (strip line, period)
                 [("1", "intraday"); ("2", "daily"); ("3", "weekly");
                  ("4", "monthly")]).
  { intros period rest. rewrite get_time_series_loop, first_accepted_return.
    split; intros (skipped & line & Heq & Hsk & Hline);
      exists skipped, line; (split; [exact Heq|]); split;
      try (eapply Forall_impl; [|exact Hsk]; intros l; apply Hp_none);
      now apply Hp_some. }
  split; [|split; [|split; [|split]]].
  - intros chart_type rest. rewrite get_chart_type_loop, first_accepted_return.
    split; intros (skipped & line & Heq & Hsk & Hline);
      exists skipped, line; (split; [exact Heq|]); split;
      try (eapply Forall_impl; [|exact Hsk]; intros l; apply Hc_none);
      now apply Hc_some.
  - rewrite get_chart_type_loop, first_accepted_eof.
    split; intros H; (eapply Forall_impl; [|exact H]); intros l;
      apply Hc_none.
  - exact Hperiod.
  - rewrite get_time_series_loop, first_accepted_eof.
    split; intros H; (eapply Forall_impl; [|exact H]); intros l;
      apply Hp_none.
  - intros period rest intraday_interval H. apply Hperiod in H.
    destruct H as (_ & line & _ & _ & Hin). cbn [In] in Hin.
    destruct Hin as [H|[H|[H|[H|[]]]]]; injection H as _ <-;
      split; reflexivity.
Qed.

Lemma date_accept_none (line : string) :
  match strptime re_date (strip line) with
  | Ok date_obj => Some (strip line, date_obj)
  | Raise _ => None
  end = None <-> not_a_date line.
Proof.
  unfold not_a_date. destruct (strptime re_date (strip line)) as [d|e].
  - split; [discriminate|]. intros H. now contradiction (H d).
  - split; [discriminate|reflexivity].
Qed.

Lemma end_date_accept_none (start_date_str : string) (start : datetime)
    (line : string) :
  match strptime re_date (strip line) with
  | Ok end_date_obj =>
      if datetime_leb start end_date_obj
      then Some (start_date_str, strip line) else None
  | Raise _ => None
  end = None <-> not_an_end_date start line.
Proof.
  unfold not_an_end_date.
  destruct (strptime re_date (strip line)) as [d|e].
  - destruct (datetime_leb start d) eqn:Hle.
    + split; [discriminate|]. intros H. specialize (H d eq_refl). congruence.
    + split; [|reflexivity]. intros _ d' [= <-]. exact Hle.
  - split; [discriminate|reflexivity].
Qed.

(** What [get_date_range] does, in terms of the lines it reads. *)
Lemma get_date_range_loop (stdin : list string) :
  get_date_range stdin =
  match first_accepted (fun line => match strptime re_date (strip line) with
                                    | Ok date_obj => Some (strip line, date_obj)
                                    | Raise _ => None
                                    end) stdin with
  | EOF => EOF
  | Return (start_date_str, start_date_obj) rest =>
      first_accepted (fun line => match strptime re_date (strip line) with
                                  | Ok end_date_obj =>
                                      if datetime_leb start_date_obj
                                           end_date_obj
                                      then Some (start_date_str, strip line)
                                      else None
                                  | Raise _ => None
                                  end) rest
  end.
Proof.
  unfold get_date_range. rewrite get_date_loop.
  destruct (first_accepted _ stdin) as [[s ds] rest|]; [|reflexivity].
  apply end_date_loop_fuel. lia.
Qed.

Lemma get_date_range_return (stdin : list string)
    (start_date end_date : string) (rest : list string) :
  get_date_range stdin = Return (start_date, end_date) rest <->
  exists skipped first again last start end_,
    stdin = (skipped ++ first :: again ++ last :: rest)%list /\
    Forall not_a_date skipped /\
    start_date = strip first /\ strptime re_date start_date = Ok start /\
    Forall (not_an_end_date start) again /\
    end_date = strip last /\ strptime re_date end_date = Ok end_ /\
    datetime_leb start end_ = true.
Proof.
  rewrite get_date_range_loop. split.
  - destruct (first_accepted _ stdin) as [[s ds] rest1|] eqn:H1;
      [|discriminate].
    apply first_accepted_return in H1.
    destruct H1 as (skipped & first & -> & Hsk & Hfirst).
    intros H2. apply first_accepted_return in H2.
    destruct H2 as (again & last & -> & Hag & Hlast).
    destruct (strptime re_date (strip first)) as [d1|] eqn:Hd1;
      [|discriminate].
    injection Hfirst as <- <-.
    destruct (strptime re_date (strip last)) as [d2|] eqn:Hd2;
      [|discriminate].
    destruct (datetime_leb d1 d2) eqn:Hle; [|discriminate].
    injection Hlast as <- <-.
    exists skipped, first, again, last, d1, d2.
    split; [reflexivity|]. split.
    { eapply Forall_impl; [|exact Hsk]. intros l. apply date_accept_none. }
    split; [reflexivity|]. split; [exact Hd1|]. split.
    { eapply Forall_impl; [|exact Hag]. intros l.
      apply end_date_accept_none. }
    auto.
  - intros (skipped & first & again & last & start & end_ & -> & Hsk & -> &
            Hs & Hag & -> & He & Hle).
    assert (H1 : first_accepted
                   (fun line => match strptime re_date (strip line) with
                                | Ok date_obj => Some (strip line, date_obj)
                                | Raise _ => None
                                end)
                   (skipped ++ first :: again ++ last :: rest)%list
                 = Return (strip first, start) (again ++ last :: rest)%list).
    { apply first_accepted_return. exists skipped, first.
      split; [reflexivity|]. split.
      - eapply Forall_impl; [|exact Hsk]. intros l. apply date_accept_none.
      - now rewrite Hs. }
    rewrite H1. apply first_accepted_return. exists again, last.
    split; [reflexivity|]. split.
    + eapply Forall_impl; [|exact Hag]. intros l.
      apply end_date_accept_none.
    + now rewrite He, Hle.
Qed.

(** X26. [get_date_range] takes the first line that reads as a date for the
    start, and then the first line that reads as a date on or after the
    start for the end, asking again after every other line; the two texts it
    returns are stripped, read as dates in order, and are bounds that the
    date filter accepts.  The input ends before that exactly when no line
    reads as a date, or none after the start date reads as a date on or
    after it. *)
Theorem date_range_prompt_returns_ordered_dates (stdin : list string) :
  (forall start_date end_date rest,
     get_date_range stdin = Return (start_date, end_date) rest <->
     exists skipped first again last start end_,
       stdin = (skipped ++ first :: again ++ last :: rest)%list /\
       Forall not_a_date skipped /\
       start_date = strip first /\ strptime re_date start_date = Ok start /\
       Forall (not_an_end_date start) again /\
       end_date = strip last /\ strptime re_date end_date = Ok end_ /\
       datetime_leb start end_ = true) /\
  (get_date_range stdin = EOF <->
   Forall not_a_date stdin \/
   exists skipped first rest start,
     stdin = (skipped ++ first :: rest)%list /\
     Forall not_a_date skipped /\
     strptime re_date (strip first) = Ok start /\
     Forall (not_an_end_date start) rest) /\
  (forall start_date end_date rest rows,
     get_date_range stdin = Return (start_date, end_date) rest ->
     filter_by_date rows start_date end_date = Raise ValueError ->
     Exists (fun r => ~ parses r) rows).
Proof.
  split; [|split].
  - intros start_date end_date rest. apply get_date_range_return.
  - rewrite get_date_range_loop. split.
    + destruct (first_accepted _ stdin) as [[s ds] rest1|] eqn:H1.
      * intros H2. right. apply first_accepted_return in H1.
        destruct H1 as (skipped & first & -> & Hsk & Hfirst).
        apply first_accepted_eof in H2.
        destruct (strptime re_date (strip first)) as [d1|] eqn:Hd1;
          [|discriminate].
        injection Hfirst as <- <-.
        exists skipped, first, rest1, d1. split; [reflexivity|]. split.
        { eapply Forall_impl; [|exact Hsk]. intros l.
          apply date_accept_none. }
        split; [exact Hd1|].
        eapply Forall_impl; [|exact H2]. intros l.
        apply end_date_accept_none.
      * intros _. left. apply first_accepted_eof in H1.
        eapply Forall_impl; [|exact H1]. intros l. apply date_accept_none.
    + intros [Hall|(skipped & first & rest & start & -> & Hsk & Hs & Hrest)].
      * assert (H1 : first_accepted
                       (fun line => match strptime re_date (strip line) with
                                    | Ok date_obj => Some (strip line, date_obj)
                                    | Raise _ => None
                                    end) stdin = EOF).
        { apply first_accepted_eof. eapply Forall_impl; [|exact Hall].
          intros l. apply date_accept_none. }
        now rewrite H1.
      * assert (H1 : first_accepted
                       (fun line => match strptime re_date (strip line) with
                                    | Ok date_obj => Some (strip line, date_obj)
                                    | Raise _ => None
                                    end) (skipped ++ first :: rest)%list
                     = Return (strip first, start) rest).
        { apply first_accepted_return. exists skipped, first.
          split; [reflexivity|]. split.
          - eapply Forall_impl; [|exact Hsk]. intros l.
            apply date_accept_none.
          - now rewrite Hs. }
        rewrite H1. apply first_accepted_eof.
        eapply Forall_impl; [|exact Hrest]. intros l.
        apply end_date_accept_none.
  - intros start_date end_date rest rows Hret Hraise.
    apply get_date_range_return in Hret.
    destruct Hret as (_ & _ & _ & _ & start & end_ & _ & _ & _ & Hs & _ & _ &
                      He & Hle).
    apply strptime_parse_date in Hs, He.
    apply datetime_leb_not_ltb in Hle.
    apply (filter_raise_cases _ _ _ _ _ _ Hs He Hle) in Hraise.
    destruct Hraise as [[_ Hex]|[Hne _]]; [exact Hex|discriminate].
Qed.

(** The command-line entry point raises what the fetch raises, or what the
    date filter raises on the rows fetched. *)
Lemma generate_chart_from_api_raise
    (getenv : string -> option string)
    (requests_get : request -> http_outcome)
    (float_of_str : string -> option Q)
    (symbol period start_date end_date chart_type : string)
    (api_key : option string) (intraday_interval : string) (e : exn) :
  generate_chart_from_api getenv requests_get float_of_str symbol period
    start_date end_date chart_type api_key intraday_interval = Raise e <->
  fetch_stock_rows_from_alpha_vantage getenv requests_get float_of_str
    symbol period api_key "full" intraday_interval = Raise e \/
  exists all_rows,
    fetch_stock_rows_from_alpha_vantage getenv requests_get float_of_str
      symbol period api_key "full" intraday_interval = Ok all_rows /\
    filter_by_date all_rows start_date end_date = Raise e.
Proof.
  unfold generate_chart_from_api.
  destruct (fetch_stock_rows_from_alpha_vantage _ _ _ _ _ _ _ _)
    as [all_rows|e0]; cbn [bind].
  - destruct (filter_by_date all_rows start_date end_date) as [filtered|e0]
      eqn:Hfilter; cbn [bind].
    + destruct (filter_by_date_ok_inv _ _ _ _ Hfilter)
        as (start & end_ & _ & _ & _ & _ & _ & Hout).
      destruct (group_by_period_defined period filtered) as [g ->].
      { subst filtered. apply Forall_forall. intros r Hr.
        apply (proj1 (sort_by_in date _ _)) in Hr. apply filter_In in Hr.
        eapply in_window_parses. apply Hr. }
      cbn [bind]. split; [discriminate|].
      intros [H|(rows & H1 & H2)]; [discriminate|].
      injection H1 as <-. rewrite Hfilter in H2. discriminate.
    + split.
      * intros H. right. exists all_rows.
        split; [reflexivity|]. rewrite Hfilter. now injection H as ->.
      * intros [H|(rows & H1 & H2)]; [discriminate|].
        injection H1 as <-. rewrite Hfilter in H2. now injection H2 as ->.
  - split.
    + intros H. left. now injection H as ->.
    + intros [H|(rows & H1 & _)]; [now injection H as ->|discriminate].
Qed.

(** X27. The selections [main] collects are valid for the pipeline: the
    symbol is not blank and already normalized, the chart type is "line" or
    "bar", the resolution is known by name and the dates read in order.  So
    the chart generation raises [ValueError], which [main] reports as an
    input error, exactly when the credential is not configured or the
    provider returned a row whose date cannot be read. *)
Theorem selections_are_valid_for_the_pipeline
    (getenv : string -> option string)
    (requests_get : request -> http_outcome)
    (float_of_str : string -> option Q)
    (stdin rest : list string) (sel : selections) :
  collect_selections stdin = Return sel rest ->
  (sel_symbol sel <> "" /\ upper (strip (sel_symbol sel)) = sel_symbol sel) /\
  In (sel_chart_type sel) ["line"; "bar"] /\
  recognized (sel_time_series sel) = true /\
  (exists start end_,
     parse_date (sel_start_date sel) = Ok start /\
     parse_date (sel_end_date sel) = Ok end_ /\
     datetime_leb start end_ = true) /\
  (generate_chart_from_api getenv requests_get float_of_str
     (sel_symbol sel) (sel_time_series sel) (sel_start_date sel)
     (sel_end_date sel) (sel_chart_type sel) None "60min"
   = Raise ValueError <->
   no_credential getenv \/
   exists all_rows,
     fetch_stock_rows_from_alpha_vantage getenv requests_get float_of_str
       (sel_symbol sel) (sel_time_series sel) None "full" "60min"
     = Ok all_rows /\
     Exists (fun r => ~ parses r) all_rows).
Proof.
  unfold collect_selections.
  destruct (get_stock_symbol stdin) as [symbol stdin1|] eqn:H1;
    [|discriminate].
  destruct (get_chart_type stdin1) as [chart_type stdin2|] eqn:H2;
    [|discriminate].
  destruct (get_time_series stdin2) as [time_series stdin3|] eqn:H3;
    [|discriminate].
  destruct (get_date_range stdin3) as [[start_date end_date] stdin4|] eqn:H4;
    [|discriminate].
  intros [= <- <-].
  cbn [sel_symbol sel_chart_type sel_time_series sel_start_date sel_end_date].
  rewrite get_stock_symbol_loop in H1. apply first_accepted_return in H1.
  destruct H1 as (_ & line1 & _ & _ & Hsym). cbv zeta in Hsym.
  destruct (str_truthy (upper (strip line1))) eqn:Ht1; [|discriminate].
  injection Hsym as <-.
  rewrite get_chart_type_loop in H2. apply first_accepted_return in H2.
  destruct H2 as (_ & line2 & _ & _ & Hct).
  rewrite get_time_series_loop in H3. apply first_accepted_return in H3.
  destruct H3 as (_ & line3 & _ & _ & Hts).
  apply get_date_range_return in H4.
  destruct H4 as (_ & _ & _ & _ & start & end_ & _ & _ & _ & Hs & _ & _ &
                  He & Hle).
  apply strptime_parse_date in Hs, He.
  assert (Hnorm : upper (strip (upper (strip line1))) = upper (strip line1))
    by now rewrite strip_upper, strip_strip, upper_upper.
  split; [|split; [|split; [|split]]].
  - split; [now apply str_truthy_iff|exact Hnorm].
  - cbn [dict_get] in Hct.
    destruct (String.eqb "1" (strip line2)); [injection Hct as <-; now left|].
    destruct (String.eqb "2" (strip line2)); [|discriminate].
    injection Hct as <-. right. now left.
  - cbn [dict_get] in Hts.
    destruct (String.eqb "1" (strip line3)); [now injection Hts as <-|].
    destruct (String.eqb "2" (strip line3)); [now injection Hts as <-|].
    destruct (String.eqb "3" (strip line3)); [now injection Hts as <-|].
    destruct (String.eqb "4" (strip line3)); [|discriminate].
    now injection Hts as <-.
  - exists start, end_. auto.
  - rewrite generate_chart_from_api_raise, fetch_value_error.
    assert (Hne : strip (upper (strip line1)) <> "").
    { rewrite strip_upper, strip_strip. now apply str_truthy_iff. }
    pose proof (datetime_leb_not_ltb _ _ Hle) as Hord.
    split.
    + intros [[H|H]|(rows & Hf & Hv)]; [contradiction|now left|].
      right. exists rows. split; [exact Hf|].
      apply (filter_raise_cases _ _ _ _ _ _ Hs He Hord) in Hv.
      destruct Hv as [[_ Hex]|[Hd _]]; [exact Hex|discriminate].
    + intros [H|(rows & Hf & Hex)]; [left; now right|].
      right. exists rows. split; [exact Hf|].
      apply (filter_raise_cases _ _ _ _ _ _ Hs He Hord). left. auto.
Qed.

Lemma selections_are_valid_for_the_pipeline_witness :
  In "bar" ["line"; "bar"].
Proof.
  apply (selections_are_valid_for_the_pipeline (fun _ => None)
           (fun _ => Timeout) (fun _ => None)
           [""; " ibm "; "3"; "2"; "x"; "4"; "2024-03-01"; "2024-01-01";
            "2024-03-05"; "y"]
           ["y"]
           (mk_selections "IBM" "bar" "monthly" "2024-03-01" "2024-03-05")).
  reflexivity.
Defined.

(** X28. [ask_continue] takes the first line that is, stripped and in lower
    case, n, y or empty, and asks again after every other line; it answers
    no for n only, so an empty line means yes.  The input ends before an
    answer exactly when no line is one of the three. *)
Theorem continue_prompt_defaults_to_yes (stdin : list string) :
  (forall answer rest,
     ask_continue stdin = Return answer rest <->
     exists skipped line,
       stdin = (skipped ++ line :: rest)%list /\
       Forall no_answer skipped /\
       In (lower (strip line)) ["n"; "y"; ""] /\
       answer = negb (String.eqb (lower (strip line)) "n")) /\
  (ask_continue stdin = EOF <-> Forall no_answer stdin).
Proof.
  assert (Hnone : forall line,
            (if String.eqb (lower (strip line)) "n" then Some false
             else if String.eqb (lower (strip line)) "y"
                     || String.eqb (lower (strip line)) ""
                  then Some true else None) = None <-> no_answer line).
  { intros line. unfold no_answer. cbn [In].
    destruct (String.eqb_spec (lower (strip line)) "n") as [->|Hn];
      [split; [discriminate|tauto]|].
    destruct (String.eqb_spec (lower (strip line)) "y") as [->|Hy];
      [split; [discriminate|tauto]|].
    destruct (String.eqb_spec (lower (strip line)) "") as [->|He];
      [split; [discriminate|tauto]|].
    cbn [orb]. split; [|reflexivity]. intros _ [H|[H|[H|[]]]]; congruence. }
  split.
  - intros answer rest. rewrite ask_continue_loop, first_accepted_return.
    cbv zeta.
    split; intros (skipped & line & Heq & Hsk & Hline);
      exists skipped, line; (split; [exact Heq|]); split;
      try (eapply Forall_impl; [|exact Hsk]; intros l; apply Hnone).
    + cbn [In].
      destruct (String.eqb (lower (strip line)) "n") eqn:Hn.
      { apply String.eqb_eq in Hn. injection Hline as <-. auto. }
      destruct (String.eqb (lower (strip line)) "y") eqn:Hy.
      { apply String.eqb_eq in Hy. injection Hline as <-. auto. }
      destruct (String.eqb (lower (strip line)) "") eqn:He.
      { apply String.eqb_eq in He. injection Hline as <-. auto. }
      discriminate.
    + destruct Hline as [Hin ->]. cbn [In] in Hin.
      destruct (String.eqb (lower (strip line)) "n") eqn:Hn; [reflexivity|].
      destruct (String.eqb (lower (strip line)) "y") eqn:Hy; [reflexivity|].
      destruct (String.eqb (lower (strip line)) "") eqn:He; [reflexivity|].
      apply String.eqb_neq in Hn, Hy, He.
      destruct Hin as [H|[H|[H|[]]]]; congruence.
  - rewrite ask_continue_loop, first_accepted_eof. cbv zeta.
    split; intros H; (eapply Forall_impl; [|exact H]); intros l; apply Hnone.
Qed.

(** ** The order of the rows *)

Lemma string_leb_antisym (a b : string) :
  String.leb a b = true -> String.leb b a = true -> a = b.
Proof.
  unfold String.leb. rewrite (String.compare_antisym b a).
  destruct (String.compare a b) eqn:H; cbn [CompOpp]; try discriminate.
  intros _ _. now apply String.compare_eq_iff.
Qed.

Lemma filter_perm {A : Type} (f : A -> bool) (l l' : list A) :
  Permutation l l' -> Permutation (filter f l) (filter f l').
Proof.
  induction 1 as [|x l l' _ IH|x y l|l l' l'' _ IH1 _ IH2]; cbn [filter].
  - constructor.
  - destruct (f x); [now constructor|exact IH].
  - destruct (f x), (f y); try reflexivity. apply perm_swap.
  - now transitivity (filter f l').
Qed.

Lemma nodup_map_filter {A B : Type} (key : A -> B) (f : A -> bool)
    (l : list A) :
  NoDup (map key l) -> NoDup (map key (filter f l)).
Proof.
  induction l as [|x l IH]; cbn [map filter]; [trivial|].
  intros H. inversion H as [|? ? Hnotin Hnd]; subst.
  destruct (f x); [|now apply IH]. cbn [map]. constructor; [|now apply IH].
  intros Hin. apply Hnotin. apply in_map_iff in Hin.
  destruct Hin as (y & Hy & Hin). apply filter_In in Hin.
  apply in_map_iff. exists y. tauto.
Qed.

Lemma nodup_key_inj {A B : Type} (key : A -> B) (l : list A) (x y : A) :
  NoDup (map key l) -> In x l -> In y l -> key x = key y -> x = y.
Proof.
  induction l as [|z l IH]; cbn [map In]; [contradiction|].
  intros H. inversion H as [|? ? Hnotin Hnd]; subst.
  intros [->|Hx] [->|Hy] Hk; trivial.
  - exfalso. apply Hnotin. rewrite Hk. now apply in_map.
  - exfalso. apply Hnotin. rewrite <- Hk. now apply in_map.
  - now apply IH.
Qed.

(** A list with pairwise distinct keys has one sorted arrangement. *)
Lemma sorted_perm_unique {A : Type} (key : A -> string) (l1 l2 : list A) :
  StronglySorted (ascending_by key) l1 ->
  StronglySorted (ascending_by key) l2 ->
  Permutation l1 l2 -> NoDup (map key l1) -> l1 = l2.
Proof.
  intros H1. revert l2.
  induction H1 as [|x l1 Hs1 IH Hall1]; intros l2 H2 Hperm Hnd.
  - apply Permutation_nil in Hperm. now subst.
  - destruct H2 as [|y l2 Hs2 Hall2].
    + apply Permutation_sym, Permutation_nil in Hperm. discriminate.
    + assert (Hxy : x = y).
      { assert (Hy : In y (x :: l1))
          by (eapply Permutation_in; [symmetry; exact Hperm|now left]).
        assert (Hx : In x (y :: l2))
          by (eapply Permutation_in; [exact Hperm|now left]).
        apply (nodup_key_inj key (x :: l1)); trivial; [now left|].
        rewrite Forall_forall in Hall1, Hall2.
        destruct Hy as [Hy|Hy]; [now subst|].
        destruct Hx as [Hx|Hx]; [now subst|].
        apply string_leb_antisym; [apply Hall1, Hy|apply Hall2, Hx]. }
      subst y. f_equal. apply IH; trivial.
      * eapply Permutation_cons_inv. exact Hperm.
      * cbn [map] in Hnd. now inversion Hnd.
Qed.

Lemma sort_by_perm_eq {A : Type} (key : A -> string) (l l' : list A) :
  Permutation l l' -> NoDup (map key l) ->
  sort_by key l = sort_by key l'.
Proof.
  intros Hperm Hnd. apply (sorted_perm_unique key).
  - apply sort_by_strongly_sorted.
  - apply sort_by_strongly_sorted.
  - rewrite !sort_by_perm. exact Hperm.
  - eapply Permutation_NoDup; [|exact Hnd].
    apply Permutation_map. symmetry. apply sort_by_perm.
Qed.

Lemma combine_sorted_members (label : string) (m m' : list row) :
  sort_by date m = sort_by date m' -> combine label m = combine label m'.
Proof. intros H. unfold combine. now rewrite H. Qed.

Lemma unreadable_perm (rows rows' : list row) :
  Permutation rows rows' ->
  Exists (fun r => ~ parses r) rows -> Exists (fun r => ~ parses r) rows'.
Proof.
  intros Hperm Hex. apply Exists_exists in Hex. destruct Hex as (r & Hr & Hn).
  apply Exists_exists. exists r. split; [|exact Hn].
  eapply Permutation_in; eassumption.
Qed.

(** The summaries of a permutation of the rows are among the summaries of
    the rows. *)
Lemma summaries_perm (period : string) (rows rows' out out' : list row) :
  String.eqb period "intraday" || String.eqb period "daily" = false ->
  Permutation rows rows' -> NoDup (map date rows) ->
  group_by_period rows period = Ok out ->
  group_by_period rows' period = Ok out' ->
  forall s, In s out -> In s out'.
Proof.
  intros Hp Hperm Hnd Hg Hg' s Hs.
  destruct (group_by_period_inv _ _ _ Hp Hg) as (Hcomb & _ & _ & _).
  destruct (group_by_period_inv _ _ _ Hp Hg') as (Hcomb' & _ & Hcover' & _).
  pose proof (Hcomb s Hs) as Hc.
  destruct (combine_inv _ _ _ Hc) as (first & others & Hsort & _).
  assert (Hfirst : In first (members period rows (date s))).
  { apply (proj1 (sort_by_in date _ _)). rewrite Hsort. now left. }
  apply members_in in Hfirst. destruct Hfirst as [Hin Hlabel].
  destruct (Hcover' first (Permutation_in _ Hperm Hin)) as (s' & Hs' & Hl').
  rewrite Hlabel in Hl'. injection Hl' as Hdate.
  pose proof (Hcomb' s' Hs') as Hc'. rewrite <- Hdate in Hc'.
  rewrite (combine_sorted_members _ _ (members period rows' (date s))) in Hc.
  - rewrite Hc in Hc'. injection Hc' as <-. exact Hs'.
  - apply sort_by_perm_eq.
    + apply filter_perm, Hperm.
    + apply nodup_map_filter, Hnd.
Qed.

(** X29. The order in which the rows arrive does not matter: for rows with
    pairwise distinct date strings, the date filter and the aggregation, for
    every resolution, give the same result, rows or exception, on every
    rearrangement of the rows. *)
Theorem order_of_rows_does_not_matter (rows rows' : list row) :
  Permutation rows rows' -> NoDup (map date rows) ->
  (forall start_date end_date,
     filter_by_date rows start_date end_date
     = filter_by_date rows' start_date end_date) /\
  (forall period,
     group_by_period rows period = group_by_period rows' period).
Proof.
  intros Hperm Hnd.
  assert (Hnd' : NoDup (map date rows')).
  { eapply Permutation_NoDup; [|exact Hnd]. now apply Permutation_map. }
  split.
  - intros start_date end_date.
    destruct (parse_date start_date) as [start|e1] eqn:Hs;
      [destruct (parse_date end_date) as [end_|e2] eqn:He|].
    + rewrite !(filter_by_date_bounds _ _ _ _ _ Hs He).
      destruct (datetime_ltb end_ start); [reflexivity|].
      destruct (filter_loop_cases start end_ rows []) as [[Hall ->]|[Hex ->]];
        destruct (filter_loop_cases start end_ rows' [])
          as [[Hall' ->]|[Hex' ->]]; cbn [bind app]; trivial.
      * pose proof (filter_perm (in_window start end_) _ _ Hperm) as Hf.
        destruct (filter (in_window start end_) rows) as [|r l] eqn:Hl.
        -- apply Permutation_nil in Hf. now rewrite Hf.
        -- destruct (filter (in_window start end_) rows') as [|r' l'] eqn:Hl'.
           ++ apply Permutation_sym, Permutation_nil in Hf. discriminate.
           ++ f_equal. apply sort_by_perm_eq; [exact Hf|].
              rewrite <- Hl. apply nodup_map_filter, Hnd.
      * exfalso. apply Exists_exists in Hex'. destruct Hex' as (r & Hr & Hn).
        rewrite Forall_forall in Hall. apply Hn, Hall.
        eapply Permutation_in; [symmetry; exact Hperm|exact Hr].
      * exfalso. apply Exists_exists in Hex. destruct Hex as (r & Hr & Hn).
        rewrite Forall_forall in Hall'. apply Hn, Hall'.
        eapply Permutation_in; [exact Hperm|exact Hr].
    + rewrite !filter_by_date_bad_bound; trivial; intros; congruence.
    + rewrite !filter_by_date_bad_bound; trivial; intros; congruence.
  - intros period.
    destruct (String.eqb period "intraday" || String.eqb period "daily")
      eqn:Hp.
    { unfold group_by_period. rewrite Hp. f_equal.
      now apply sort_by_perm_eq. }
    destruct (Forall_Exists_dec parses parses_dec rows) as [Hall|Hex].
    + destruct (group_by_period_defined period rows Hall) as [out Hg].
      assert (Hall' : Forall parses rows')
        by (eapply Permutation_Forall; eassumption).
      destruct (group_by_period_defined period rows' Hall') as [out' Hg'].
      rewrite Hg, Hg'. f_equal.
      destruct (group_by_period_inv _ _ _ Hp Hg) as (_ & Hnd_out & _ & Hsort).
      destruct (group_by_period_inv _ _ _ Hp Hg')
        as (_ & Hnd_out' & _ & Hsort').
      apply (sorted_perm_unique date); trivial.
      * apply Sorted_StronglySorted; [apply ascending_by_trans|exact Hsort].
      * apply Sorted_StronglySorted; [apply ascending_by_trans|exact Hsort'].
      * apply NoDup_Permutation.
        -- eapply NoDup_map_inv. exact Hnd_out.
        -- eapply NoDup_map_inv. exact Hnd_out'.
        -- intros s. split.
           ++ apply (summaries_perm period rows rows'); trivial.
           ++ apply (summaries_perm period rows' rows); trivial.
              now symmetry.
    + rewrite (group_by_period_unreadable _ _ Hp Hex).
      rewrite (group_by_period_unreadable _ _ Hp
                 (unreadable_perm _ _ Hperm Hex)).
      reflexivity.
Qed.

Lemma order_of_rows_does_not_matter_witness :
  group_by_period
    [mk_row "2024-01-05" 3 5 2 4; mk_row "2024-01-02" 1 2 0 1] "monthly"
  = group_by_period
      [mk_row "2024-01-02" 1 2 0 1; mk_row "2024-01-05" 3 5 2 4] "monthly".
Proof.
  apply (order_of_rows_does_not_matter
           [mk_row "2024-01-05" 3 5 2 4; mk_row "2024-01-02" 1 2 0 1]
           [mk_row "2024-01-02" 1 2 0 1; mk_row "2024-01-05" 3 5 2 4]).
  - apply perm_swap.
  - cbn [map date]. repeat constructor; cbn [In]; intuition discriminate.
Defined.

(** ** The order of time *)

Lemma strongly_sorted_impl_in {A : Type} (R R' : A -> A -> Prop) (l : list A) :
  (forall a b, In a l -> In b l -> R a b -> R' a b) ->
  StronglySorted R l -> StronglySorted R' l.
Proof.
  intros Himp Hs. induction Hs as [|x l Hs IH Hall]; constructor.
  - apply IH. intros a b Ha Hb. apply Himp; now right.
  - rewrite Forall_forall in *. intros y Hy.
    apply Himp; [now left|now right|now apply Hall].
Qed.

Lemma dated_chronological (a b : row) (da db : datetime) :
  dated a da -> dated b db -> by_date a b -> chronological a b.
Proof.
  intros [Hpa Hfa] [Hpb Hfb] Hle. exists da, db.
  split; [exact Hpa|]. split; [exact Hpb|].
  apply (fixed_width_order (date a) (date b)); trivial.
  - now apply parse_date_valid in Hpa.
  - now apply parse_date_valid in Hpb.
Qed.

(** X30. For rows whose date strings are in the fixed-width forms the
    provider uses, sorting by date string is sorting by time: the rows the
    date filter returns, and the rows the aggregation returns for "intraday"
    and "daily", are in chronological order, every row not after any later
    one. *)
Theorem sorted_rows_are_chronological
    (rows out : list row) (start_date end_date period : string) :
  Forall (fun r => exists dt, dated r dt) rows ->
  filter_by_date rows start_date end_date = Ok out \/
  (String.eqb period "intraday" || String.eqb period "daily" = true /\
   group_by_period rows period = Ok out) ->
  StronglySorted chronological out.
Proof.
  intros Hdated Hout.
  assert (Hsub : StronglySorted by_date out /\ forall r, In r out -> In r rows).
  { destruct Hout as [Hf|[Hp Hg]].
    - destruct (filter_by_date_ok_inv _ _ _ _ Hf)
        as (start & end_ & _ & _ & _ & _ & _ & ->).
      split; [apply sort_by_strongly_sorted|].
      intros r Hr. apply (proj1 (sort_by_in date _ _)) in Hr.
      apply filter_In in Hr. tauto.
    - unfold group_by_period in Hg. rewrite Hp in Hg. injection Hg as <-.
      split; [apply sort_by_strongly_sorted|].
      intros r Hr. now apply (proj1 (sort_by_in date _ _)) in Hr. }
  destruct Hsub as [Hsorted Hin].
  apply (strongly_sorted_impl_in by_date); [|exact Hsorted].
  intros a b Ha Hb Hle. rewrite Forall_forall in Hdated.
  destruct (Hdated a (Hin a Ha)) as [da Hda].
  destruct (Hdated b (Hin b Hb)) as [db Hdb].
  now apply (dated_chronological a b da db).
Qed.

Lemma sorted_rows_are_chronological_witness :
  StronglySorted chronological
    [mk_row "2024-09-30" 1 2 0 1; mk_row "2024-10-01" 3 5 2 4].
Proof.
  apply (sorted_rows_are_chronological
           [mk_row "2024-10-01" 3 5 2 4; mk_row "2024-09-30" 1 2 0 1]
           [mk_row "2024-09-30" 1 2 0 1; mk_row "2024-10-01" 3 5 2 4]
           "2024-01-01" "2024-12-31" "daily").
  - repeat constructor.
    + exists (mk_datetime 2024 10 1 0 0 0). split; [reflexivity|].
      left. repeat split; reflexivity.
    + exists (mk_datetime 2024 9 30 0 0 0). split; [reflexivity|].
      left. repeat split; reflexivity.
  - left. reflexivity.
Defined.

(** [strptime] also reads a month or a day without its leading zero; for
    such date strings the order of the strings is not the order of time. *)
Lemma string_order_needs_fixed_width :
  filter_by_date
    [mk_row "2024-9-30" 1 2 0 1; mk_row "2024-10-01" 3 5 2 4]
    "2024-01-01" "2024-12-31"
  = Ok [mk_row "2024-10-01" 3 5 2 4; mk_row "2024-9-30" 1 2 0 1] /\
  ~ chronological (mk_row "2024-10-01" 3 5 2 4) (mk_row "2024-9-30" 1 2 0 1).
Proof.
  split; [reflexivity|].
  intros (da & db & Ha & Hb & Hle).
  vm_compute in Ha, Hb. injection Ha as <-. injection Hb as <-.
  vm_compute in Hle. discriminate.
Qed.
